(** * KoboTouchExtended device driver: a shallow embedding of [device/driver.py]

    The development follows the driver class [KOBOTOUCHEXTENDED].

    Part I holds the embedding:
    - [PyStr]: the Python string operations the driver relies on
      ([str.endswith], slicing);
    - [Py]: Python exceptions and the outcome of a call;
    - [Naming]: [filename_callback], the on-device file name;
    - [Migration]: [migrate_old_settings], the legacy positional settings;
    - [Reconcile]: the ImageId part of [sync_booklists];
    - [Sanitize]: [sanitize_path_components];
    - [Customization]: [settings], the type repair of the settings list;
    - [Transform]: [_modify_epub], in a state-and-exception monad;
    - [Upload]: the driver's part of [upload_books], and [modifying_epub];
    - the notions the statements are written with, and sample inputs.

    Part II holds the facts proved about it, method by method.

    What the driver inherits from calibre's [KOBOTOUCH] or receives from the
    host (the container, the content transformer, the file system, the
    interpreter) is a parameter of the embedded method. *)

From Stdlib Require Import String Ascii List Arith Lia Bool ZArith.
From stdpp Require Import base decidable option list gmap strings pretty.
From Equations Require Import Equations.
From Equations.Prop Require Import Logic.
Import ListNotations.

Local Open Scope nat_scope.
Local Open Scope stdpp_scope.

(** * Part I: the embedding *)

(** ** Python strings *)

Module PyStr.

(** [s[n:]] for [0 <= n]. *)
Fixpoint slice_from (n : nat) (s : string) : string :=
  match n, s with
  | O, _ => s
  | S _, EmptyString => EmptyString
  | S n', String _ s' => slice_from n' s'
  end.

(** [s[:n]] for [0 <= n]. *)
Fixpoint slice_to (n : nat) (s : string) : string :=
  match n, s with
  | O, _ => EmptyString
  | S _, EmptyString => EmptyString
  | S n', String c s' => String c (slice_to n' s')
  end.

(** [s[:-k]] for [0 < k]: a negative bound counts from the end and is
    clamped at the start of the string. *)
Definition slice_to_neg (k : nat) (s : string) : string :=
  slice_to (String.length s - k) s.

(** [s.endswith(suffix)]. *)
Definition endswith (s suffix : string) : bool :=
  (String.length suffix <=? String.length s)
  && String.eqb (slice_from (String.length s - String.length suffix) s) suffix.

(** [sep.join(parts)]. *)
Definition join (sep : string) (parts : list string) : string :=
  String.concat sep parts.

End PyStr.

(** ** Python exceptions *)

Module Py.

(** The interpreter running the plugin: the source supports both (its
    [__future__] imports, its [configparser] fallback). *)
Inductive python_version := Py2 | Py3.

Inductive exn_class :=
| IndexError
| KeyError
| AttributeError
| DRMError
| InvalidEPub
| OtherError (name : string).

#[global] Instance exn_class_eq_dec : EqDecision exn_class.
Proof. solve_decision. Defined.

(** An exception object: its class, the arguments it was built from, and
    the [message] attribute its own constructor sets, if it sets one (the
    driver's [InvalidEPub] does: [self.message = message]). *)
Record exn := mk_exn {
  exn_cls : exn_class;
  exn_args : list string;
  exn_own_message : option string
}.

Inductive outcome (A : Type) :=
| Return (a : A)
| Raise (e : exn).
Arguments Return {A} a.
Arguments Raise {A} e.

#[global] Instance outcome_ret : MRet outcome := fun A a => Return a.
#[global] Instance outcome_bind : MBind outcome := fun A B f m =>
  match m with
  | Return a => f a
  | Raise e => Raise e
  end.

(** The built-in classes that derive from [BaseException] without deriving
    from [Exception]. *)
Definition base_only_classes : list string :=
  ["BaseException"; "KeyboardInterrupt"; "SystemExit"; "GeneratorExit"].

(** [isinstance(e, Exception)], the test of [except Exception]. The classes
    the model names derive from [Exception]; [OtherError] names a built-in
    class, or one derived from [Exception]. *)
Definition isinstance_Exception (e : exn) : bool :=
  match exn_cls e with
  | OtherError name => bool_decide (name ∉ base_only_classes)
  | _ => true
  end.

(** [e.message]. Python 2 gives every exception the attribute (its single
    argument, or the empty string); Python 3 removed it, so only an
    attribute set by the class itself is found there. *)
Definition getattr_message (py : python_version) (e : exn) : outcome string :=
  match exn_own_message e with
  | Some m => Return m
  | None =>
      match py with
      | Py2 => Return (match exn_args e with [a] => a | _ => "" end)
      | Py3 => Raise (mk_exn AttributeError
                        ["object has no attribute 'message'"] None)
      end
  end.

(** [l[i]] for [0 <= i]. *)
Definition getitem {A : Type} (l : list A) (i : nat) : outcome A :=
  match l !! i with
  | Some v => Return v
  | None => Raise (mk_exn IndexError ["list index out of range"] None)
  end.

End Py.

(** ** Module-level constants and the book metadata *)

Definition EPUB_EXT : string := ".epub".
Definition KEPUB_EXT : string := ".kepub".

(** The attributes of calibre's metadata object ([mi], [metadata]) that the
    driver reads. *)
Record Metadata := {
  title : string;
  authors : list string;
  uuid : string;
  kte_calibre_name : string
}.

(** ** [filename_callback] *)

Module Naming.
Import PyStr.

(** [self.extra_features] and the class attribute [skip_renaming_files]
    are the two parts of [self] the method reads. *)
Definition filename_callback (extra_features : bool)
    (skip_renaming_files : gset string) (path : string) (mi : Metadata)
    : string :=
  if extra_features then
    if endswith path KEPUB_EXT then
      path +:+ EPUB_EXT
    else if endswith path EPUB_EXT
            && bool_decide (uuid mi ∉ skip_renaming_files) then
      slice_to_neg (String.length EPUB_EXT) path +:+ KEPUB_EXT +:+ EPUB_EXT
    else path
  else path.

End Naming.

(** ** [migrate_old_settings] *)

Module Migration.
Import Py.

(** The untyped values a stored settings list can hold. *)
Inductive pyval :=
| PyNone
| PyBool (b : bool)
| PyInt (n : Z)
| PyStr (s : string).

(** [isinstance(v, str)]. *)
Definition isinstance_str (v : pyval) : bool :=
  match v with
  | PyStr _ => true
  | _ => false
  end.

(** The settings object: the legacy positional list and the named
    preferences the migration assigns. *)
Record Settings := mk_settings {
  extra_customization : list pyval;
  extra_features : pyval;
  upload_encumbered : pyval;
  skip_failed : pyval;
  hyphenate : pyval;
  smarten_punctuation : pyval;
  clean_markup : pyval;
  full_page_numbers : pyval;
  file_copy_dir : pyval;
  disable_hyphenation : pyval
}.

(** Attribute assignment, [settings.<field> = v]. *)
Definition set_extra_customization (l : list pyval) (s : Settings) : Settings :=
  mk_settings l (extra_features s) (upload_encumbered s) (skip_failed s)
    (hyphenate s) (smarten_punctuation s) (clean_markup s)
    (full_page_numbers s) (file_copy_dir s) (disable_hyphenation s).
Definition set_extra_features (v : pyval) (s : Settings) : Settings :=
  mk_settings (extra_customization s) v (upload_encumbered s) (skip_failed s)
    (hyphenate s) (smarten_punctuation s) (clean_markup s)
    (full_page_numbers s) (file_copy_dir s) (disable_hyphenation s).
Definition set_upload_encumbered (v : pyval) (s : Settings) : Settings :=
  mk_settings (extra_customization s) (extra_features s) v (skip_failed s)
    (hyphenate s) (smarten_punctuation s) (clean_markup s)
    (full_page_numbers s) (file_copy_dir s) (disable_hyphenation s).
Definition set_skip_failed (v : pyval) (s : Settings) : Settings :=
  mk_settings (extra_customization s) (extra_features s) (upload_encumbered s) v
    (hyphenate s) (smarten_punctuation s) (clean_markup s)
    (full_page_numbers s) (file_copy_dir s) (disable_hyphenation s).
Definition set_hyphenate (v : pyval) (s : Settings) : Settings :=
  mk_settings (extra_customization s) (extra_features s) (upload_encumbered s)
    (skip_failed s) v (smarten_punctuation s) (clean_markup s)
    (full_page_numbers s) (file_copy_dir s) (disable_hyphenation s).
Definition set_smarten_punctuation (v : pyval) (s : Settings) : Settings :=
  mk_settings (extra_customization s) (extra_features s) (upload_encumbered s)
    (skip_failed s) (hyphenate s) v (clean_markup s)
    (full_page_numbers s) (file_copy_dir s) (disable_hyphenation s).
Definition set_clean_markup (v : pyval) (s : Settings) : Settings :=
  mk_settings (extra_customization s) (extra_features s) (upload_encumbered s)
    (skip_failed s) (hyphenate s) (smarten_punctuation s) v
    (full_page_numbers s) (file_copy_dir s) (disable_hyphenation s).
Definition set_full_page_numbers (v : pyval) (s : Settings) : Settings :=
  mk_settings (extra_customization s) (extra_features s) (upload_encumbered s)
    (skip_failed s) (hyphenate s) (smarten_punctuation s) (clean_markup s)
    v (file_copy_dir s) (disable_hyphenation s).
Definition set_file_copy_dir (v : pyval) (s : Settings) : Settings :=
  mk_settings (extra_customization s) (extra_features s) (upload_encumbered s)
    (skip_failed s) (hyphenate s) (smarten_punctuation s) (clean_markup s)
    (full_page_numbers s) v (disable_hyphenation s).
Definition set_disable_hyphenation (v : pyval) (s : Settings) : Settings :=
  mk_settings (extra_customization s) (extra_features s) (upload_encumbered s)
    (skip_failed s) (hyphenate s) (smarten_punctuation s) (clean_markup s)
    (full_page_numbers s) (file_copy_dir s) v.

(** [try: body  except IndexError: pass], where [body] assigns to
    [settings]: an [IndexError] leaves [settings] as it was before the
    block, any other exception goes on. *)
Definition try_except_IndexError_pass (settings : Settings)
    (body : outcome Settings) : outcome Settings :=
  match body with
  | Return settings' => Return settings'
  | Raise e =>
      if decide (exn_cls e = IndexError) then Return settings else Raise e
  end.

(** [super_migrate_old_settings] is the method inherited from calibre's
    [KOBOTOUCH], which hands back the settings object this method goes on
    with. *)
Definition migrate_old_settings
    (super_migrate_old_settings : Settings -> Settings)
    (settings : Settings) : outcome Settings :=
  let settings := super_migrate_old_settings settings in
  let count_options := 0 in
  let opt_extra_features := count_options in
  let count_options := count_options + 1 in
  let opt_upload_encumbered := count_options in
  let count_options := count_options + 1 in
  let opt_skip_failed := count_options in
  let count_options := count_options + 1 in
  let opt_hypnenate := count_options in
  let count_options := count_options + 1 in
  let opt_smarten_punctuation := count_options in
  let count_options := count_options + 1 in
  let opt_clean_markup := count_options in
  let count_options := count_options + 1 in
  let opt_full_page_numbers := count_options in
  let count_options := count_options + 1 in
  let opt_file_copy_dir := count_options in
  let count_options := count_options + 1 in
  let opt_disable_hyphenation := count_options in
  if count_options <=? length (extra_customization settings) then
    settings ← try_except_IndexError_pass settings (
      v ← getitem (extra_customization settings) opt_extra_features;
      mret (set_extra_features v settings));
    settings ← try_except_IndexError_pass settings (
      v ← getitem (extra_customization settings) opt_upload_encumbered;
      mret (set_upload_encumbered v settings));
    settings ← try_except_IndexError_pass settings (
      v ← getitem (extra_customization settings) opt_skip_failed;
      mret (set_skip_failed v settings));
    settings ← try_except_IndexError_pass settings (
      v ← getitem (extra_customization settings) opt_hypnenate;
      mret (set_hyphenate v settings));
    settings ← try_except_IndexError_pass settings (
      v ← getitem (extra_customization settings) opt_smarten_punctuation;
      mret (set_smarten_punctuation v settings));
    settings ← try_except_IndexError_pass settings (
      v ← getitem (extra_customization settings) opt_clean_markup;
      mret (set_clean_markup v settings));
    settings ← try_except_IndexError_pass settings (
      v ← getitem (extra_customization settings) opt_file_copy_dir;
      let settings := set_file_copy_dir v settings in
      mret (if negb (isinstance_str (file_copy_dir settings))
            then set_file_copy_dir PyNone settings
            else settings));
    settings ← try_except_IndexError_pass settings (
      v ← getitem (extra_customization settings) opt_full_page_numbers;
      mret (set_full_page_numbers v settings));
    settings ← try_except_IndexError_pass settings (
      v ← getitem (extra_customization settings) opt_disable_hyphenation;
      mret (set_disable_hyphenation v settings));
    mret (set_extra_customization
            (drop (count_options + 1) (extra_customization settings))
            settings)
  else
    mret settings.

End Migration.

(** ** [sync_booklists]: setting the ImageId fields *)

Module Reconcile.

(** A book of a booklist, with the two attributes the method reads. *)
Record Book := {
  application_id : option Z;
  contentID : string
}.

(** A row of the device database's [content] table. *)
Record ContentRow := {
  ContentId : string;
  ContentType : Z;
  ImageId : option string
}.

(** [content_types["main"]]. *)
Definition content_types_main : Z := 6.

(** [select_query]: the ContentId of every row of the given type whose
    ImageId is NULL or empty. *)
Definition select_query (db : list ContentRow) (content_type : Z)
    : list string :=
  ContentId <$>
    filter (fun row =>
              ContentType row = content_type
              /\ (ImageId row = None \/ ImageId row = Some "")) db.

(** [update_query], for one [(ImageId, ContentId)] pair. *)
Definition update_query (db : list ContentRow) (p : string * string)
    : list ContentRow :=
  (fun row =>
     if decide (ContentId row = p.2)
     then {| ContentId := ContentId row; ContentType := ContentType row;
             ImageId := Some p.1 |}
     else row) <$> db.

(** [cursor.executemany(update_query, batch)]. *)
Definition executemany (db : list ContentRow) (batch : list (string * string))
    : list ContentRow :=
  foldl update_query db batch.

(** [__rows_needing_imageid]: a dict keyed by the ContentId of each
    selected row. *)
Definition rows_needing_imageid (db : list ContentRow) : gmap string nat :=
  foldl (fun d row0 => <[row0 := 1]> d) ∅ (select_query db content_types_main).

(** The two nested [for] loops filling [nulls]. [imageid_from_contentid] is
    inherited from calibre's Kobo driver. *)
Definition queue_nulls (imageid_from_contentid : string -> string)
    (all_nulls : gmap string nat) (booklists : list (list Book))
    : list (string * string) :=
  foldl (fun nulls booklist =>
    foldl (fun nulls b =>
      if bool_decide (application_id b <> None)
         && bool_decide (is_Some (all_nulls !! contentID b))
      then nulls ++ [(imageid_from_contentid (contentID b), contentID b)]
      else nulls) nulls booklist) [] booklists.

(** What the update loop has done so far: the database, and the batches
    handed to [executemany], oldest first. *)
Record Store := {
  rows : list ContentRow;
  batches : list (list (string * string))
}.

(** [while nulls[:100]: cursor.executemany(update_query, nulls[:100]);
    del nulls[:100]]. Returns the store and the queue the loop ends with. *)
Equations? update_loop (nulls : list (string * string)) (st : Store)
    : Store * list (string * string) by wf (length nulls) lt :=
  update_loop nulls st with inspect (take 100 nulls) := {
    | exist _ nil _ => (st, nulls)
    | exist _ (cons p batch) E =>
        update_loop (drop 100 nulls)
          {| rows := executemany (rows st) (p :: batch);
             batches := batches st ++ [p :: batch] |} }.
Proof.
  destruct nulls as [|q nulls]; [discriminate E|].
  rewrite length_drop. simpl. lia.
Qed.

(** The ImageId part of [sync_booklists]: the final store and queue. The
    method ends with the inherited [sync_booklists], which is calibre's. *)
Definition sync_booklists (upload_covers : bool)
    (imageid_from_contentid : string -> string)
    (db : list ContentRow) (booklists : list (list Book))
    : Store * list (string * string) :=
  if upload_covers then
    let all_nulls := rows_needing_imageid db in
    let nulls := queue_nulls imageid_from_contentid all_nulls booklists in
    update_loop nulls {| rows := db; batches := [] |}
  else
    ({| rows := db; batches := [] |}, []).

End Reconcile.

(** ** [sanitize_path_components] *)

Module Sanitize.

(** The characters of [invalid_filename_chars_re], a class of single
    characters: slash, backslash, question mark, percent, star, colon,
    semicolon, bar, double quote, quote, greater, less, dollar, bang. None
    is a letter, so [re.IGNORECASE] changes nothing; all are ASCII, so in a
    UTF-8 string no byte of a longer character is one of them. *)
Definition invalid_filename_chars : list ascii :=
  ["/"; "092"; "?"; "%"; "*"; ":"; ";"; "|"; "034"; "'"; ">"; "<"; "$";
   "!"]%char.

Definition is_invalid (c : ascii) : bool :=
  bool_decide (c ∈ invalid_filename_chars).

(** [invalid_filename_chars_re.sub("_", x)]. *)
Fixpoint sub_invalid (x : string) : string :=
  match x with
  | EmptyString => EmptyString
  | String c x' =>
      String (if is_invalid c then "_"%char else c) (sub_invalid x')
  end.

Definition sanitize_path_components (components : list string)
    : list string :=
  sub_invalid <$> components.

(** The characters of a string, to speak of them. *)
Fixpoint chars (x : string) : list ascii :=
  match x with
  | EmptyString => []
  | String c x' => c :: chars x'
  end.

End Sanitize.

(** ** [settings] *)

Module Customization.
Import Py Migration.

(** The types of the values of a settings list. Text has the one type
    [str], as on Python 3. *)
Inductive pytype := NoneType | BoolType | IntType | StrType.

(** [type(v)]. *)
Definition type_of (v : pyval) : pytype :=
  match v with
  | PyNone => NoneType
  | PyBool _ => BoolType
  | PyInt _ => IntType
  | PyStr _ => StrType
  end.

(** [isinstance(v, t)]; [bool] is a subclass of [int]. *)
Definition isinstance (v : pyval) (t : pytype) : bool :=
  match t, v with
  | NoneType, PyNone => true
  | BoolType, PyBool _ => true
  | IntType, PyInt _ => true
  | IntType, PyBool _ => true
  | StrType, PyStr _ => true
  | _, _ => false
  end.

(** One turn of the loop, on the list as it stands: an index the list
    does not have raises [IndexError]. *)
Definition fix_type (EXTRA_CUSTOMIZATION_DEFAULT : list pyval)
    (extra_customization : list pyval) (idx : nat) : outcome (list pyval) :=
  v ← getitem extra_customization idx;
  d ← getitem EXTRA_CUSTOMIZATION_DEFAULT idx;
  if negb (isinstance v (type_of d))
  then mret (<[idx := d]> extra_customization)
  else mret extra_customization.

(** [settings]: [opts] is what the inherited [settings] returns, and
    [EXTRA_CUSTOMIZATION_DEFAULT] the copy of calibre's default list. *)
Definition settings (EXTRA_CUSTOMIZATION_DEFAULT : list pyval)
    (opts : Settings) : outcome Settings :=
  ec ← foldl (fun acc idx =>
                ec ← acc; fix_type EXTRA_CUSTOMIZATION_DEFAULT ec idx)
             (Return (extra_customization opts))
             (seq 0 (length EXTRA_CUSTOMIZATION_DEFAULT));
  mret (set_extra_customization ec opts).

End Customization.


(** ** [_modify_epub] *)

Module Transform.
Import PyStr Py.

(** The preferences the method reads through the properties of [self]. *)
Record Prefs := {
  extra_features : bool;
  upload_encumbered : bool;
  skip_failed : bool;
  hyphenate : bool;
  smarten_punctuation : bool;
  clean_markup : bool;
  disable_hyphenation : bool;
  file_copy_dir : option string
}.

(** A container handle: the file it was opened from and what its
    [is_drm_encumbered] property reports. *)
Record Container := {
  container_path : string;
  is_drm_encumbered : bool
}.

(** The [opts] dict handed to the content transformer. *)
Record TransformOpts := {
  opt_clean_markup : bool;
  opt_hyphenate : bool;
  opt_no_hyphens : bool;
  opt_smarten_punctuation : bool;
  opt_extended_kepub_features : bool
}.

(** The calls the method makes on its collaborators, as they are made. *)
Inductive Call :=
| SuperModifyEpub (infile : string) (container : option Container)
| CopyFileToContainer (container : Container) (record : gmap string string)
    (name mt : string)
| ModifyEpub (container : Container) (infile : string) (opts : TransformOpts)
| ShutilCopy (src dst : string)
| Commit (container : Container) (outpath : string).

(** What the host answers: the interpreter, calibre's inherited methods,
    the container class, the content transformer and the file system. *)
Record Host := {
  python : python_version;
  (** [self.version] *)
  version : list nat;
  (** [cls.EXTRA_CUSTOMIZATION_DEFAULT] *)
  EXTRA_CUSTOMIZATION_DEFAULT : list Migration.pyval;
  (** what the inherited [settings()] returns *)
  super_settings : Migration.Settings;
  (** [str(l)] of a settings list *)
  str_of_list : list Migration.pyval -> string;
  (** [datetime.utcnow().ctime()] *)
  utcnow_ctime : string;
  (** [KEPubContainer(infile, log)] *)
  KEPubContainer : string -> outcome Container;
  (** [driveinfo.calibre] under the device prefix: [None] when
      [os.path.isfile] is false, else what reading and [json.loads] give *)
  calibre_details_file : option (outcome (gmap string string));
  (** writing the record to [self.temporary_file(...)] *)
  kte_data_file : gmap string string -> outcome string;
  (** [container.copy_file_to_container(file, name=..., mt=...)] *)
  copy_file_to_container : Container -> string -> outcome ();
  (** [modify_epub(container, infile, metadata=..., opts=...)] *)
  modify_epub : Container -> string -> Metadata -> TransformOpts -> outcome ();
  (** [os.path.expanduser(dpath).strip()] *)
  expanduser_strip : string -> string;
  (** [self.create_upload_path(dpath, metadata, name)] *)
  create_upload_path : string -> Metadata -> string -> string;
  (** [shutil.copy(src, dst)] *)
  shutil_copy : string -> string -> outcome ();
  (** [super()._modify_epub(infile, metadata, container)] *)
  super_modify_epub : string -> Metadata -> option Container -> outcome bool;
  (** [container.commit(outpath=...)] *)
  commit : Container -> string -> outcome ()
}.

(** The state the method works on: the class attribute
    [skip_renaming_files], and the calls made so far. *)
Record DriverState := {
  skip_renaming_files : gset string;
  calls : list Call
}.

(** Computations that read and write the driver state and may raise. *)
Definition M (A : Type) : Type := DriverState -> outcome A * DriverState.

#[global] Instance M_ret : MRet M := fun A a st => (Return a, st).
#[global] Instance M_bind : MBind M := fun A B f m st =>
  match m st with
  | (Return a, st') => f a st'
  | (Raise e, st') => (Raise e, st')
  end.

Definition raise {A : Type} (e : exn) : M A := fun st => (Raise e, st).

Definition lift {A : Type} (o : outcome A) : M A := fun st => (o, st).

(** A call on a collaborator: it is made, then it answers. *)
Definition call {A : Type} (c : Call) (answer : outcome A) : M A :=
  fun st =>
    (answer,
     {| skip_renaming_files := skip_renaming_files st;
        calls := calls st ++ [c] |}).

(** [self.skip_renaming_files.add(uuid)]. *)
Definition skip_renaming_files_add (id : string) : M () :=
  fun st =>
    (Return (),
     {| skip_renaming_files := {[id]} ∪ skip_renaming_files st;
        calls := calls st |}).

(** [try: body  except Exception as e: handler e]; what [body] did to the
    state before it raised stays done, and what is raised without being an
    [Exception] goes on to the caller. *)
Definition try_except {A : Type} (body : M A) (handler : exn -> M A) : M A :=
  fun st =>
    match body st with
    | (Return a, st') => (Return a, st')
    | (Raise e, st') =>
        if isinstance_Exception e then handler e st' else (Raise e, st')
    end.

(** [del o[prop]]. *)
Definition delitem (o : gmap string string) (prop : string)
    : outcome (gmap string string) :=
  match o !! prop with
  | Some _ => Return (delete prop o)
  | None => Raise (mk_exn KeyError [prop] None)
  end.

(** [self.settings()], the classmethod of lines 114-126, on the defaults
    of the class and what the inherited [settings()] returns. *)
Definition self_settings (h : Host) : outcome Migration.Settings :=
  Customization.settings (EXTRA_CUSTOMIZATION_DEFAULT h) (super_settings h).

(** The inherited method, called and recorded. *)
Definition super__modify_epub (h : Host) (infile : string)
    (metadata : Metadata) (container : option Container) : M bool :=
  call (SuperModifyEpub infile container)
       (super_modify_epub h infile metadata container).

(** Lines 212-223: open the container if none was handed in, else ask the
    one handed in; a [DRMError] on the way marks the book as encumbered.
    Gives the container to go on with and [is_encumbered_book]. *)
Definition drm_probe (h : Host) (infile : string)
    (container : option Container) : outcome (option Container * bool) :=
  let attempt :=
    match container with
    | None => c ← KEPubContainer h infile; mret (Some c, false)
    | Some c => mret (container, is_drm_encumbered c)
    end in
  match attempt with
  | Return r => Return r
  | Raise e =>
      if decide (exn_cls e = DRMError) then Return (container, true)
      else Raise e
  end.

(** Lines 243-261: the driver-info record; [opts] is what line 200 got
    from [self.settings()]. *)
Definition driver_info (h : Host) (opts : Migration.Settings)
    : outcome (gmap string string) :=
  let o : gmap string string := ∅ in
  o ← match calibre_details_file h with
      | Some loaded =>
          o ← loaded;
          foldl (fun acc prop => o ← acc; delitem o prop) (Return o)
                ["device_store_uuid"; "prefix"; "last_library_uuid";
                 "location_code"]
      | None => mret o
      end;
  let o := <["kobotouchextended_version" :=
               join "." (pretty <$> version h)]> o in
  let o := <["kobotouchextended_options" :=
               str_of_list h (Migration.extra_customization opts)]> o in
  let o := <["kobotouchextended_currenttime" := utcnow_ctime h]> o in
  mret o.

(** The option set the content transformer is called with. *)
Definition transform_opts (self : Prefs) : TransformOpts :=
  {| opt_clean_markup := clean_markup self;
     opt_hyphenate := hyphenate self && negb (disable_hyphenation self);
     opt_no_hyphens := disable_hyphenation self;
     opt_smarten_punctuation := smarten_punctuation self;
     opt_extended_kepub_features := extra_features self |}.

(** Lines 235-285, the body of the [try]: embed the driver-info record,
    then run the content transformer. *)
Definition inject_and_transform (h : Host) (self : Prefs)
    (opts : Migration.Settings) (infile : string) (metadata : Metadata)
    (container : option Container) : M () :=
  o ← lift (driver_info h opts);
  name ← lift (kte_data_file h o);
  match container with
  | None =>
      raise (mk_exn AttributeError
               ["'NoneType' object has no attribute 'copy_file_to_container'"]
               None)
  | Some c =>
      call (CopyFileToContainer c o "driverinfo.kte" "application/json")
           (copy_file_to_container h c name);;
      call (ModifyEpub c infile (transform_opts self))
           (modify_epub h c infile metadata (transform_opts self))
  end.

(** Lines 304-312: the copy of the source file kept on the host. *)
Definition copy_to_file_copy_dir (h : Host) (self : Prefs) (infile : string)
    (metadata : Metadata) : M () :=
  let dpath := default "" (file_copy_dir self) in
  if negb (String.eqb dpath "") then
    let dpath := expanduser_strip h dpath in
    let dpath :=
      create_upload_path h dpath metadata (kte_calibre_name metadata) in
    call (ShutilCopy infile dpath) (shutil_copy h infile dpath)
  else mret ().

(** How a [try] statement ends: control goes on after it, or the handler
    has returned from the method. *)
Inductive flow :=
| GoOn
| Returned (retval : bool).

Definition _modify_epub (h : Host) (self : Prefs) (infile : string)
    (metadata : Metadata) (container : option Container) : M bool :=
  if negb (endswith infile EPUB_EXT) then
    (if negb (endswith infile KEPUB_EXT)
     then skip_renaming_files_add (uuid metadata)
     else mret ());;
    super__modify_epub h infile metadata container
  else
    opts ← lift (self_settings h);
    let skip_failed := skip_failed self in
    '(container, is_encumbered_book) ← lift (drm_probe h infile container);
    if is_encumbered_book : bool then
      skip_renaming_files_add (uuid metadata);;
      if upload_encumbered self then
        super__modify_epub h infile metadata container
      else
        mret false
    else
      after ← try_except
        (inject_and_transform h self opts infile metadata container;;
         mret GoOn)
        (fun e =>
           (* log.exception(... e.message) *)
           _ ← lift (getattr_message (python h) e);
           if negb skip_failed then raise e
           else
             skip_renaming_files_add (uuid metadata);;
             retval ← super__modify_epub h infile metadata container;
             mret (Returned retval));
      match after with
      | Returned retval => mret retval
      | GoOn =>
          (if negb (extra_features self)
           then skip_renaming_files_add (uuid metadata)
           else mret ());;
          copy_to_file_copy_dir h self infile metadata;;
          retval ← super__modify_epub h infile metadata container;
          (if retval : bool then
             match container with
             | None =>
                 raise (mk_exn AttributeError
                          ["'NoneType' object has no attribute 'commit'"] None)
             | Some c => call (Commit c infile) (commit h c infile)
             end
           else mret ());;
          mret retval
      end.

End Transform.

(** ** Notions used in the statements, and sample inputs *)

Section NamingSamples.

Definition book (id : string) : Metadata :=
  {| title := "A Book"; authors := ["An Author"]; uuid := id;
     kte_calibre_name := "book" |}.

End NamingSamples.

Section MigrationSamples.
Import Migration.

(** Settings with every named preference still unset. *)
Definition legacy (l : list pyval) : Settings :=
  mk_settings l PyNone PyNone PyNone PyNone PyNone PyNone PyNone PyNone PyNone.

Definition flags (n : nat) : list pyval := replicate n (PyBool true).

End MigrationSamples.

Section ReconcileSamples.
Import Reconcile.

(** The test a book has to pass to be queued. *)
Definition queued (all_nulls : gmap string nat) (b : Book) : Prop :=
  application_id b <> None /\ is_Some (all_nulls !! contentID b).

#[global] Instance queued_dec all_nulls b : Decision (queued all_nulls b).
Proof. unfold queued. apply _. Defined.

Definition null_pair (imageid_from_contentid : string -> string) (b : Book)
    : string * string :=
  (imageid_from_contentid (contentID b), contentID b).

(** Calibre's image id: the content id with the characters a file name
    cannot hold replaced by underscores. *)
Fixpoint underscored (s : string) : string :=
  match s with
  | EmptyString => EmptyString
  | String c s' =>
      String (if bool_decide (c ∈ ["/"; " "; ":"; "."]%char)
              then "_"%char else c)
             (underscored s')
  end.

Definition sample_db : list ContentRow :=
  [ {| ContentId := "file:///mnt/onboard/a.kepub.epub";
       ContentType := 6; ImageId := None |};
    {| ContentId := "file:///mnt/onboard/b.kepub.epub";
       ContentType := 6; ImageId := Some "" |};
    {| ContentId := "file:///mnt/onboard/c.kepub.epub";
       ContentType := 6; ImageId := Some "has_one" |};
    {| ContentId := "file:///mnt/onboard/a.kepub.epub#ch1";
       ContentType := 9; ImageId := None |} ].

(** A book calibre does not know (no application id) and one it knows. *)
Definition unknown_book : Book :=
  {| application_id := None;
     contentID := "file:///mnt/onboard/a.kepub.epub" |}.

Definition known_book : Book :=
  {| application_id := Some 42%Z;
     contentID := "file:///mnt/onboard/b.kepub.epub" |}.

(** A queue of 250 distinct pairs. *)
Definition queue_250 : list (string * string) :=
  (fun i => ("image_" +:+ pretty i, "content/" +:+ pretty i)) <$> seq 0 250.

End ReconcileSamples.

Section TransformSamples.
Import PyStr Py Transform.

(** The state after [self.skip_renaming_files.add(metadata.uuid)]. *)
Definition marked (metadata : Metadata) (st : DriverState) : DriverState :=
  {| skip_renaming_files := {[uuid metadata]} ∪ skip_renaming_files st;
     calls := calls st |}.

(** The state after a further call. *)
Definition called (c : Call) (st : DriverState) : DriverState :=
  {| skip_renaming_files := skip_renaming_files st;
     calls := calls st ++ [c] |}.

(** The four keys of a stored driver-info record that are deleted. *)
Definition transient_keys : list string :=
  ["device_store_uuid"; "prefix"; "last_library_uuid"; "location_code"].

(** The book is DRM-encumbered: opening its container fails with
    [DRMError], or its container, the one handed in or the one the opening
    gives, reports itself encumbered. *)
Definition drm_encumbered (h : Host) (infile : string)
    (container : option Container) : Prop :=
  match container with
  | Some c => is_drm_encumbered c = true
  | None =>
      match KEPubContainer h infile with
      | Return c => is_drm_encumbered c = true
      | Raise e => exn_cls e = DRMError
      end
  end.

(** A session that has marked no book and made no call yet. *)
Definition st0 : DriverState := {| skip_renaming_files := ∅; calls := [] |}.

(** The default preferences, but for [skip_failed] and
    [upload_encumbered]. *)
Definition prefs (skip_failed upload_encumbered : bool) : Prefs :=
  {| extra_features := true; upload_encumbered := upload_encumbered;
     skip_failed := skip_failed; hyphenate := false;
     smarten_punctuation := false; clean_markup := false;
     disable_hyphenation := false; file_copy_dir := Some "" |}.

(** Python 3's [repr] of a value and [str] of a list, for text that needs
    no escaping. *)
Definition repr (v : Migration.pyval) : string :=
  match v with
  | Migration.PyNone => "None"
  | Migration.PyBool true => "True"
  | Migration.PyBool false => "False"
  | Migration.PyInt n => pretty n
  | Migration.PyStr s => "'" +:+ s +:+ "'"
  end.

Definition str_list (l : list Migration.pyval) : string :=
  "[" +:+ join ", " (repr <$> l) +:+ "]".

(** A host on which every step goes through, but for what is said here:
    how the container opens, what [driveinfo.calibre] holds, what the
    transformer and the inherited method answer. The settings list and its
    defaults are empty, as with a calibre whose Kobo driver keeps every
    preference by name. *)
Definition host (py : python_version) (opened : outcome Container)
    (details : option (outcome (gmap string string)))
    (transformed : outcome ()) (inherited : outcome bool) : Host :=
  {| python := py;
     version := [3; 2; 1];
     EXTRA_CUSTOMIZATION_DEFAULT := [];
     super_settings := legacy [];
     str_of_list := str_list;
     utcnow_ctime := "Wed Apr  1 01:02:03 2020";
     KEPubContainer := fun _ => opened;
     calibre_details_file := details;
     kte_data_file := fun _ => Return "/tmp/_KoboTouchExtendedDriverInfo";
     copy_file_to_container := fun _ _ => Return ();
     modify_epub := fun _ _ _ _ => transformed;
     expanduser_strip := fun dpath => dpath;
     create_upload_path := fun dpath _ name => dpath +:+ "/" +:+ name;
     shutil_copy := fun _ _ => Return ();
     super_modify_epub := fun _ _ _ => inherited;
     commit := fun _ _ => Return () |}.

Definition plain_container : Container :=
  {| container_path := "book.epub"; is_drm_encumbered := false |}.

(** A stored record with every transient key, and one without ["prefix"]. *)
Definition full_details : gmap string string :=
  {[ "device_store_uuid" := "a1b2c3"; "prefix" := "/mnt/onboard/";
     "last_library_uuid" := "d4e5f6"; "location_code" := "main";
     "foo" := "bar" ]}.

Definition details_without_prefix : gmap string string :=
  {[ "device_store_uuid" := "a1b2c3"; "last_library_uuid" := "d4e5f6";
     "location_code" := "main"; "foo" := "bar" ]}.

(** The failure of a transformer that raises a built-in exception, and of
    one that raises the driver's own [InvalidEPub]. *)
Definition value_error : exn :=
  mk_exn (OtherError "ValueError") ["not well-formed"] None.

Definition invalid_epub : exn :=
  mk_exn InvalidEPub ["Failed to parse"] (Some "not well-formed").

Definition drm_error : exn := mk_exn DRMError ["DRM"] None.

Definition is_commit (c : Call) : bool :=
  match c with Commit _ _ => true | _ => false end.

Definition is_super (c : Call) : bool :=
  match c with SuperModifyEpub _ _ => true | _ => false end.

Definition is_transform (c : Call) : bool :=
  match c with ModifyEpub _ _ _ => true | _ => false end.

(** Has the book been marked in [skip_renaming_files]? *)
Definition is_marked (id : string) (st : DriverState) : bool :=
  bool_decide (id ∈ skip_renaming_files st).

(** The runs looked at below, all on ["book.epub"] and a fresh session. *)
Definition run (h : Host) (self : Prefs) : outcome bool * DriverState :=
  _modify_epub h self "book.epub" (book "id-1") None st0.

End TransformSamples.

(** ** [upload_books] and [modifying_epub] *)

Module Upload.
Import Py.

(** The device-model tests of calibre's driver. A calibre too old to know
    a model has no such method, and calling it raises [AttributeError]. *)
Record Device := {
  isAuraH2O : outcome bool;
  isAuraHD : outcome bool;
  isAura : outcome bool;
  isGlo : outcome bool;
  isGloHD : outcome bool;
  isMini : outcome bool;
  isTouch : outcome bool
}.

(** [try: body  except AttributeError: handler]. *)
Definition try_except_AttributeError {A : Type} (body handler : outcome A)
    : outcome A :=
  match body with
  | Return a => Return a
  | Raise e =>
      if decide (exn_cls e = AttributeError) then handler else Raise e
  end.

(** Lines 328-349: the style sheet to look for. The name is assigned only
    after a test has answered, so the handler still has the generic one. *)
Definition device_css_file_name (KOBO_EXTRA_CSSFILE : string)
    (self : Device) : outcome string :=
  let device_css_file_name := KOBO_EXTRA_CSSFILE in
  try_except_AttributeError
    (b ← isAuraH2O self;
     if b : bool then mret "kobo_extra_AURAH2O.css" else
     b ← isAuraHD self;
     if b : bool then mret "kobo_extra_AURAHD.css" else
     b ← isAura self;
     if b : bool then mret "kobo_extra_AURA.css" else
     b ← isGlo self;
     if b : bool then mret "kobo_extra_GLO.css" else
     b ← isGloHD self;
     if b : bool then mret "kobo_extra_GLOHD.css" else
     b ← isMini self;
     if b : bool then mret "kobo_extra_MINI.css" else
     b ← isTouch self;
     if b : bool then mret "kobo_extra_TOUCH.css" else
     mret device_css_file_name)
    (mret device_css_file_name).

(** A parsed configuration file: sections, their options, and the values,
    which [allow_no_value] lets be missing. *)
Definition has_section (cfg : gmap string (gmap string (option string)))
    (section : string) : bool :=
  bool_decide (is_Some (cfg !! section)).

Definition add_section (cfg : gmap string (gmap string (option string)))
    (section : string) : gmap string (gmap string (option string)) :=
  <[section := ∅]> cfg.

(** [cfg.set(section, option, value)]; a section that is not there raises
    [NoSectionError]. *)
Definition cfg_set (cfg : gmap string (gmap string (option string)))
    (section option_ value : string)
    : outcome (gmap string (gmap string (option string))) :=
  match cfg !! section with
  | Some options => Return (<[section := <[option_ := Some value]> options]> cfg)
  | None => Raise (mk_exn (OtherError "NoSectionError") [section] None)
  end.

(** The files the method looks at: the names of the style sheets in the
    plugins directory, the style sheet on the device (as the name of the
    file it is a copy of) and the device's [Kobo eReader.conf], parsed. *)
Record Files := {
  configdir_css : gset string;
  device_css : option string;
  kobo_config : option (gmap string (gmap string (option string)))
}.

(** [upload_books] up to the inherited call it ends with. [modifying_css]
    and [KOBO_EXTRA_CSSFILE] are calibre's; the copies and the rewriting of
    the configuration file are taken to go through. *)
Definition upload_books (modifying_css : bool) (KOBO_EXTRA_CSSFILE : string)
    (full_page_numbers : bool) (self : Device) (fs : Files) : outcome Files :=
  fs ← (if modifying_css then
          device_css_file_name ← device_css_file_name KOBO_EXTRA_CSSFILE self;
          if bool_decide (device_css_file_name ∈ configdir_css fs) then
            mret {| configdir_css := configdir_css fs;
                    device_css := Some device_css_file_name;
                    kobo_config := kobo_config fs |}
          else mret fs
        else mret fs);
  match kobo_config fs with
  | Some cfg =>
      let cfg := if negb (has_section cfg "FeatureSettings")
                 then add_section cfg "FeatureSettings" else cfg in
      cfg ← cfg_set cfg "FeatureSettings" "FullBookPageNumbers"
              (if full_page_numbers then "true" else "false");
      mret {| configdir_css := configdir_css fs;
              device_css := device_css fs;
              kobo_config := Some cfg |}
  | None => mret fs
  end.

(** [modifying_epub]; [modifying_css] is calibre's. *)
Definition modifying_epub (modifying_css : bool) (self : Transform.Prefs)
    : bool :=
  modifying_css
  || Transform.clean_markup self
  || Transform.extra_features self
  || Transform.skip_failed self
  || Transform.smarten_punctuation self
  || Transform.disable_hyphenation self.

End Upload.

(** ** More notions used in the statements, and sample inputs *)

Section CustomizationSamples.
Import Migration Customization.

(** What the loop of [settings] makes of a list that is long enough: each
    entry that has a default keeps its value if it has the default's type,
    and becomes the default otherwise. *)
Fixpoint fix_types (defaults extra_customization : list pyval) : list pyval :=
  match defaults, extra_customization with
  | d :: defaults', v :: extra_customization' =>
      (if isinstance v (type_of d) then v else d)
      :: fix_types defaults' extra_customization'
  | _, _ => extra_customization
  end.

(** What reading a list past its end raises. *)
Definition index_error : Py.exn :=
  Py.mk_exn Py.IndexError ["list index out of range"] None.

Definition sample_defaults : list pyval := [PyBool false; PyStr ""; PyInt 0].

Definition sample_opts : Settings :=
  legacy [PyStr "yes"; PyStr "Aviator, Trapeze"; PyBool true; PyNone].

End CustomizationSamples.

Section UploadSamples.
Import Py Upload.

(** The tests of [device_css_file_name] with the style sheet each one
    stands for, in the order they are made. *)
Definition css_table (self : Device) : list (outcome bool * string) :=
  [(isAuraH2O self, "kobo_extra_AURAH2O.css");
   (isAuraHD self, "kobo_extra_AURAHD.css");
   (isAura self, "kobo_extra_AURA.css");
   (isGlo self, "kobo_extra_GLO.css");
   (isGloHD self, "kobo_extra_GLOHD.css");
   (isMini self, "kobo_extra_MINI.css");
   (isTouch self, "kobo_extra_TOUCH.css")].

(** Every test before the [k]-th answers [False]. *)
Definition all_false_before (k : nat) (table : list (outcome bool * string))
    : Prop :=
  forall (j : nat) (p : outcome bool) (name : string),
    j < k -> table !! j = Some (p, name) -> p = Return false.

(** The first test that does not answer [False] decides. *)
Fixpoint first_match (generic : string)
    (table : list (outcome bool * string)) : outcome string :=
  match table with
  | [] => Return generic
  | (Return true, name) :: _ => Return name
  | (Return false, _) :: table' => first_match generic table'
  | (Raise e, _) :: _ =>
      if decide (exn_cls e = AttributeError) then Return generic
      else Raise e
  end.

(** The configuration with [FeatureSettings.FullBookPageNumbers] set. *)
Definition with_page_numbers (value : string)
    (cfg : gmap string (gmap string (option string)))
    : gmap string (gmap string (option string)) :=
  <["FeatureSettings" :=
      <["FullBookPageNumbers" := Some value]>
        (default ∅ (cfg !! "FeatureSettings"))]> cfg.

(** [cfg.get(section, option)], as far as it is there. *)
Definition cfg_get (cfg : gmap string (gmap string (option string)))
    (section option_ : string) : option (option string) :=
  cfg !! section ≫= (fun options => options !! option_).

Definition no_such_method : exn :=
  mk_exn AttributeError ["object has no attribute 'isAuraH2O'"] None.

(** A Glo HD as a current calibre sees it, and as one sees it that does
    not know the Aura H2O yet. *)
Definition glo_hd : Device :=
  {| isAuraH2O := Return false; isAuraHD := Return false;
     isAura := Return false; isGlo := Return false; isGloHD := Return true;
     isMini := Return false; isTouch := Return false |}.

Definition glo_hd_old_calibre : Device :=
  {| isAuraH2O := Raise no_such_method; isAuraHD := Return false;
     isAura := Return false; isGlo := Return false; isGloHD := Return true;
     isMini := Return false; isTouch := Return false |}.

Definition sample_conf : gmap string (gmap string (option string)) :=
  {[ "Reading" := {[ "LastFont" := Some "Georgia" ]};
     "FeatureSettings" := {[ "ShowFacebookShare" := Some "false" ]} ]}.

Definition sample_files : Files :=
  {| configdir_css := {["kobo_extra.css"; "kobo_extra_GLOHD.css"]};
     device_css := None;
     kobo_config := Some sample_conf |}.

End UploadSamples.

Section ReconcileNotions.
Import Reconcile.

(** What a sequence of updates makes of one row. *)
Definition apply_pairs (pairs : list (string * string)) (row : ContentRow)
    : ContentRow :=
  foldl (fun row p =>
           if decide (ContentId row = p.2)
           then {| ContentId := ContentId row; ContentType := ContentType row;
                   ImageId := Some p.1 |}
           else row) row pairs.

(** Some book of the booklists is queued under this content id. *)
Definition queued_id (all_nulls : gmap string nat)
    (booklists : list (list Book)) (cid : string) : Prop :=
  exists booklist b,
    booklist ∈ booklists /\ b ∈ booklist /\ queued all_nulls b
    /\ contentID b = cid.

End ReconcileNotions.

Section TransformNotions.
Import Py Transform.

(** A later state of the session, for the book [id]: the set is as it was
    or has [id] added, and the calls made before are still there, in
    front. *)
Definition extends (id : string) (st st' : DriverState) : Prop :=
  (skip_renaming_files st' = skip_renaming_files st
   \/ skip_renaming_files st' = {[id]} ∪ skip_renaming_files st)
  /\ exists new, calls st' = calls st ++ new.

(** A computation that only ever adds [id], and calls, to the state it is
    run in. *)
Definition grows {A : Type} (id : string) (m : M A) : Prop :=
  forall st, extends id st (m st).2.

(** A host on which everything goes through, and the preferences by
    default. *)
Definition good_host : Host :=
  host Py3 (Return plain_container) None (Return ()) (Return true).

Definition default_prefs : Prefs := prefs false false.

(** The same host with another list of defaults and another stored list. *)
Definition with_settings (defaults stored : list Migration.pyval) (h : Host)
    : Host :=
  {| python := python h;
     version := version h;
     EXTRA_CUSTOMIZATION_DEFAULT := defaults;
     super_settings := legacy stored;
     str_of_list := str_of_list h;
     utcnow_ctime := utcnow_ctime h;
     KEPubContainer := KEPubContainer h;
     calibre_details_file := calibre_details_file h;
     kte_data_file := kte_data_file h;
     copy_file_to_container := copy_file_to_container h;
     modify_epub := modify_epub h;
     expanduser_strip := expanduser_strip h;
     create_upload_path := create_upload_path h;
     shutil_copy := shutil_copy h;
     super_modify_epub := super_modify_epub h;
     commit := commit h |}.

(** A host whose stored list is shorter than the defaults, as after an
    update of calibre that has added an option. *)
Definition stale_host : Host :=
  with_settings [Migration.PyBool false; Migration.PyStr ""]
    [Migration.PyBool true] good_host.

Definition keyboard_interrupt : exn :=
  mk_exn (OtherError "KeyboardInterrupt") [] None.

End TransformNotions.

(** * Part II: facts *)

(** ** Python strings *)

Section PyStrFacts.
Import PyStr.

Lemma string_app_assoc (s t u : string) : (s +:+ t) +:+ u = s +:+ (t +:+ u).
Proof.
  induction s as [|c s IH]; [reflexivity|].
  change (String c ((s +:+ t) +:+ u) = String c (s +:+ (t +:+ u))).
  now rewrite IH.
Qed.

Lemma string_length_app (s t : string) :
  String.length (s +:+ t) = String.length s + String.length t.
Proof. induction s as [|c s IH]; simpl; [reflexivity | now rewrite IH]. Qed.

Lemma slice_from_app (s t : string) :
  slice_from (String.length s) (s +:+ t) = t.
Proof. induction s as [|c s IH]; simpl; [now destruct t | exact IH]. Qed.

Lemma slice_to_app (s t : string) :
  slice_to (String.length s) (s +:+ t) = s.
Proof. induction s as [|c s IH]; simpl; [now destruct t | now rewrite IH]. Qed.

Lemma slice_to_from (n : nat) (s : string) :
  slice_to n s +:+ slice_from n s = s.
Proof.
  revert s; induction n as [|n IH]; intros [|c s]; try reflexivity.
  change (String c (slice_to n s +:+ slice_from n s) = String c s).
  f_equal. apply IH.
Qed.

Lemma slice_from_add (n m : nat) (s : string) :
  slice_from (n + m) s = slice_from m (slice_from n s).
Proof.
  revert s; induction n as [|n IH]; intros s; simpl; [reflexivity|].
  destruct s as [|c s]; [now destruct m | apply IH].
Qed.

(** The last [k] characters of [stem ++ t] are those of [t] when [t] is
    at least [k] long. *)
Lemma slice_from_app_tail (stem t : string) (k : nat) :
  k <= String.length t ->
  slice_from (String.length (stem +:+ t) - k) (stem +:+ t)
  = slice_from (String.length t - k) t.
Proof.
  intros Hk. rewrite string_length_app.
  replace (String.length stem + String.length t - k)
    with (String.length stem + (String.length t - k)) by lia.
  now rewrite slice_from_add, slice_from_app.
Qed.

(** Whether [stem ++ t] ends with a suffix no longer than [t] is decided
    by [t] alone. *)
Lemma endswith_app (stem t suffix : string) :
  String.length suffix <= String.length t ->
  endswith (stem +:+ t) suffix = endswith t suffix.
Proof.
  intros Hk. unfold endswith.
  rewrite slice_from_app_tail by exact Hk.
  f_equal. rewrite string_length_app.
  apply Nat.leb_le in Hk as Hk'. rewrite Hk'.
  apply Nat.leb_le. lia.
Qed.

Lemma endswith_spec (s suffix : string) :
  endswith s suffix = true <-> exists stem, s = stem +:+ suffix.
Proof.
  split.
  - unfold endswith. intros [Hlen Heq]%andb_true_iff.
    apply Nat.leb_le in Hlen. apply String.eqb_eq in Heq.
    exists (slice_to (String.length s - String.length suffix) s).
    rewrite <- Heq at 2. symmetry. apply slice_to_from.
  - intros [stem ->]. rewrite endswith_app by lia.
    unfold endswith. rewrite Nat.leb_refl, Nat.sub_diag. simpl.
    apply String.eqb_refl.
Qed.

Lemma slice_to_neg_app (stem t : string) :
  slice_to_neg (String.length t) (stem +:+ t) = stem.
Proof.
  unfold slice_to_neg. rewrite string_length_app.
  replace (String.length stem + String.length t - String.length t)
    with (String.length stem) by lia.
  apply slice_to_app.
Qed.

End PyStrFacts.

(** ** [filename_callback] *)

Section NamingFacts.
Import PyStr Naming.

Example filename_callback_kepub :
  filename_callback true ∅ "book.kepub" (book "id-1") = "book.kepub.epub".
Proof. reflexivity. Qed.

Example filename_callback_skipped :
  filename_callback true {["id-1"]} "book.epub" (book "id-1") = "book.epub".
Proof. reflexivity. Qed.

Example filename_callback_pdf :
  filename_callback true ∅ "book.pdf" (book "id-1") = "book.pdf".
Proof. reflexivity. Qed.

(** The two tests of the method exclude each other: a path with the
    packaged extension does not have the marker as its last extension. *)
Lemma endswith_epub_not_kepub (stem : string) :
  endswith (stem +:+ EPUB_EXT) KEPUB_EXT = false.
Proof.
  destruct (endswith (stem +:+ EPUB_EXT) KEPUB_EXT) eqn:E; [|reflexivity].
  apply endswith_spec in E as [stem' E].
  assert (H : slice_from (String.length (stem +:+ EPUB_EXT) - 5)
                (stem +:+ EPUB_EXT)
              = slice_from (String.length (stem' +:+ KEPUB_EXT) - 5)
                  (stem' +:+ KEPUB_EXT))
    by now rewrite E.
  rewrite !slice_from_app_tail in H by (simpl; lia).
  discriminate H.
Qed.

Lemma endswith_epub (stem : string) :
  endswith (stem +:+ EPUB_EXT) EPUB_EXT = true.
Proof. apply endswith_spec. now exists stem. Qed.

(** What the method does with a path that has the packaged extension. *)
Lemma filename_callback_epub_path (skip : gset string) (stem : string)
    (mi : Metadata) :
  filename_callback true skip (stem +:+ EPUB_EXT) mi
  = if bool_decide (uuid mi ∉ skip)
    then stem +:+ KEPUB_EXT +:+ EPUB_EXT
    else stem +:+ EPUB_EXT.
Proof.
  unfold filename_callback.
  rewrite endswith_epub_not_kepub, endswith_epub. simpl andb.
  destruct (bool_decide (uuid mi ∉ skip)); [|reflexivity].
  now rewrite (slice_to_neg_app stem EPUB_EXT).
Qed.

(** C9. For a book id that is not in [skip_renaming_files], with
    [extra_features] on, a path ending in [".epub"] gets [".kepub"] spliced
    in before that extension, so ["book.epub"] becomes ["book.kepub.epub"];
    with [extra_features] off every path comes back unchanged, whatever the
    id and the set. *)
Theorem filename_callback_splices_marker :
  (forall (skip : gset string) (path : string) (mi : Metadata),
      endswith path EPUB_EXT = true ->
      uuid mi ∉ skip ->
      exists stem,
        path = stem +:+ EPUB_EXT
        /\ filename_callback true skip path mi
           = stem +:+ KEPUB_EXT +:+ EPUB_EXT)
  /\ (forall (skip : gset string) (mi : Metadata),
         uuid mi ∉ skip ->
         filename_callback true skip "book.epub" mi = "book.kepub.epub")
  /\ (forall (skip : gset string) (path : string) (mi : Metadata),
         filename_callback false skip path mi = path).
Proof.
  assert (H : forall (skip : gset string) (stem : string) (mi : Metadata),
             uuid mi ∉ skip ->
             filename_callback true skip (stem +:+ EPUB_EXT) mi
             = stem +:+ KEPUB_EXT +:+ EPUB_EXT).
  { intros skip stem mi Hid. rewrite filename_callback_epub_path.
    now rewrite bool_decide_eq_true_2. }
  split; [|split].
  - intros skip path mi [stem ->]%endswith_spec Hid.
    exists stem. split; [reflexivity | now apply H].
  - intros skip mi Hid. exact (H skip "book" mi Hid).
  - reflexivity.
Qed.

Lemma filename_callback_splices_marker_witness :
  (endswith "novel.epub" EPUB_EXT = true)
  /\ (uuid (book "id-1") ∉ (∅ : gset string))
  /\ (exists stem,
         "novel.epub" = stem +:+ EPUB_EXT
         /\ filename_callback true ∅ "novel.epub" (book "id-1")
            = stem +:+ KEPUB_EXT +:+ EPUB_EXT).
Proof.
  assert (H1 : endswith "novel.epub" EPUB_EXT = true) by reflexivity.
  assert (H2 : uuid (book "id-1") ∉ (∅ : gset string))
    by apply not_elem_of_empty.
  split; [exact H1 | split; [exact H2|]].
  exact (proj1 filename_callback_splices_marker ∅ "novel.epub" (book "id-1")
           H1 H2).
Defined.

(** C3, as stated, fails: a book that is not in [skip_renaming_files] has
    its already resolved name changed. *)
Lemma filename_callback_not_idempotent :
  filename_callback true ∅ "book.kepub.epub" (book "id-1")
  <> "book.kepub.epub".
Proof. vm_compute. discriminate. Qed.

(** C3, amended. For a path that already ends in [".kepub.epub"], with
    [extra_features] on: the path comes back unchanged when the book id is
    in [skip_renaming_files]; otherwise the marker is spliced in once more,
    since only the last extension is looked at. *)
Theorem filename_callback_resolved_path (skip : gset string) (path : string)
    (mi : Metadata) :
  endswith path (KEPUB_EXT +:+ EPUB_EXT) = true ->
  (uuid mi ∈ skip -> filename_callback true skip path mi = path)
  /\ (uuid mi ∉ skip ->
      exists stem,
        path = stem +:+ KEPUB_EXT +:+ EPUB_EXT
        /\ filename_callback true skip path mi
           = stem +:+ KEPUB_EXT +:+ KEPUB_EXT +:+ EPUB_EXT).
Proof.
  intros [stem ->]%endswith_spec.
  rewrite <- !string_app_assoc, filename_callback_epub_path.
  split; intros Hid.
  - rewrite bool_decide_eq_false_2; [reflexivity | tauto].
  - exists stem. split; [apply string_app_assoc|].
    rewrite bool_decide_eq_true_2 by exact Hid.
    now rewrite !string_app_assoc.
Qed.

Lemma filename_callback_resolved_path_witness :
  (endswith "book.kepub.epub" (KEPUB_EXT +:+ EPUB_EXT) = true)
  /\ (uuid (book "id-1") ∈ ({["id-1"]} : gset string))
  /\ (filename_callback true {["id-1"]} "book.kepub.epub" (book "id-1")
      = "book.kepub.epub").
Proof.
  assert (H1 : endswith "book.kepub.epub" (KEPUB_EXT +:+ EPUB_EXT) = true)
    by reflexivity.
  assert (H2 : uuid (book "id-1") ∈ ({["id-1"]} : gset string))
    by (apply elem_of_singleton; reflexivity).
  split; [exact H1 | split; [exact H2|]].
  exact (proj1 (filename_callback_resolved_path {["id-1"]} "book.kepub.epub"
                  (book "id-1") H1) H2).
Defined.

End NamingFacts.

(** ** [migrate_old_settings] *)

Section MigrationFacts.
Import Py Migration.

(** The inherited migration, an arbitrary function of the settings. *)
Variable super_migrate_old_settings : Settings -> Settings.

Example migrate_seven :
  migrate_old_settings id (legacy (flags 7)) = Return (legacy (flags 7)).
Proof. reflexivity. Qed.

Example migrate_nine_and_three :
  migrate_old_settings id
    (legacy [PyBool true; PyBool false; PyBool true; PyBool false; PyBool true;
             PyBool false; PyBool true; PyStr "/tmp/copies"; PyBool false;
             PyInt 1; PyInt 2; PyInt 3])
  = Return (mk_settings [PyInt 1; PyInt 2; PyInt 3]
              (PyBool true) (PyBool false) (PyBool true) (PyBool false)
              (PyBool true) (PyBool false) (PyBool true) (PyStr "/tmp/copies")
              (PyBool false)).
Proof. reflexivity. Qed.

(** What a migration that takes place gives, field by field. The length
    test lets 8 elements through: index 8 may be missing, and then
    [disable_hyphenation] keeps the value it had. *)
Lemma migrate_at_threshold (settings : Settings)
    (v0 v1 v2 v3 v4 v5 v6 v7 : pyval) (rest : list pyval) :
  extra_customization (super_migrate_old_settings settings)
  = v0 :: v1 :: v2 :: v3 :: v4 :: v5 :: v6 :: v7 :: rest ->
  migrate_old_settings super_migrate_old_settings settings
  = Return (mk_settings (drop 1 rest) v0 v1 v2 v3 v4 v5 v6
              (if isinstance_str v7 then v7 else PyNone)
              (default (disable_hyphenation
                          (super_migrate_old_settings settings))
                       (head rest))).
Proof.
  intros Hec. unfold migrate_old_settings. cbn [Nat.add].
  destruct (super_migrate_old_settings settings)
    as [ec f0 f1 f2 f3 f4 f5 f6 f7 f8].
  cbn [extra_customization] in Hec. subst ec.
  destruct rest as [|v8 rest]; destruct v7; reflexivity.
Qed.

(** C1, as stated, fails: a list of 8 elements is shorter than 9 and is
    migrated all the same, its values assigned and the list emptied. *)
Lemma migrate_eight_is_migrated :
  length (extra_customization (legacy (flags 8))) < 9
  /\ migrate_old_settings id (legacy (flags 8))
     <> Return (legacy (flags 8)).
Proof. split; [vm_compute; lia | vm_compute; discriminate]. Qed.

(** C1, amended. For every legacy list shorter than 8 elements (the value
    of the option counter at the test), [migrate_old_settings] returns the
    settings as the inherited migration left them: no field is assigned,
    the list is not trimmed, and nothing is raised. *)
Theorem migrate_short_list_unchanged (settings : Settings) :
  length (extra_customization (super_migrate_old_settings settings)) < 8 ->
  migrate_old_settings super_migrate_old_settings settings
  = Return (super_migrate_old_settings settings).
Proof.
  intros Hlen. unfold migrate_old_settings. cbn [Nat.add].
  destruct (Nat.leb_spec 8
              (length (extra_customization
                         (super_migrate_old_settings settings))))
    as [Hge|_]; [lia | reflexivity].
Qed.

(** C2, as stated, fails: of a list of 10 elements one element is left,
    not none, and of 12 elements three, not two. *)
Lemma migrate_trailing_length :
  (exists s', migrate_old_settings id (legacy (flags 10)) = Return s'
              /\ length (extra_customization s') = 1
              /\ length (extra_customization s') <> 10 - 10)
  /\ (exists s', migrate_old_settings id (legacy (flags 12)) = Return s'
                 /\ length (extra_customization s') = 3
                 /\ length (extra_customization s') <> 12 - 10).
Proof.
  split.
  - exists (mk_settings (flags 1) (PyBool true) (PyBool true) (PyBool true)
              (PyBool true) (PyBool true) (PyBool true) (PyBool true) PyNone
              (PyBool true)).
    repeat split; vm_compute; congruence.
  - exists (mk_settings (flags 3) (PyBool true) (PyBool true) (PyBool true)
              (PyBool true) (PyBool true) (PyBool true) (PyBool true) PyNone
              (PyBool true)).
    repeat split; vm_compute; congruence.
Qed.

(** C2, amended. For every legacy list of length [n >= 9], nothing is
    raised; each preference but [file_copy_dir] is assigned the value at
    its fixed index (0-6 and 8), [file_copy_dir] is assigned the value at
    index 7 if it is a [str] and [None] otherwise; and the list that comes
    back is the old one without its first 9 elements, so it has exactly
    [n - 9] elements (empty when [n = 9]): the 9 consumed ones are dropped
    and no spacer besides. *)
Theorem migrate_long_list (settings : Settings) :
  let old := super_migrate_old_settings settings in
  let ec := extra_customization old in
  9 <= length ec ->
  exists s',
    migrate_old_settings super_migrate_old_settings settings = Return s'
    /\ Some (extra_features s') = ec !! 0
    /\ Some (upload_encumbered s') = ec !! 1
    /\ Some (skip_failed s') = ec !! 2
    /\ Some (hyphenate s') = ec !! 3
    /\ Some (smarten_punctuation s') = ec !! 4
    /\ Some (clean_markup s') = ec !! 5
    /\ Some (full_page_numbers s') = ec !! 6
    /\ Some (file_copy_dir s')
       = (fun v => if isinstance_str v then v else PyNone) <$> ec !! 7
    /\ Some (disable_hyphenation s') = ec !! 8
    /\ extra_customization s' = drop 9 ec
    /\ length (extra_customization s') = length ec - 9.
Proof.
  intros old ec Hlen.
  destruct ec
    as [|v0 [|v1 [|v2 [|v3 [|v4 [|v5 [|v6 [|v7 [|v8 rest]]]]]]]]] eqn:Hec;
    simpl in Hlen; try lia.
  eexists. split.
  - apply (migrate_at_threshold settings v0 v1 v2 v3 v4 v5 v6 v7 (v8 :: rest)).
    exact Hec.
  - cbn. rewrite length_drop. repeat split; first [reflexivity | simpl; lia].
Qed.

End MigrationFacts.

Lemma migrate_short_list_unchanged_witness :
  length (Migration.extra_customization (id (legacy (flags 7)))) < 8
  /\ Migration.migrate_old_settings id (legacy (flags 7))
     = Py.Return (id (legacy (flags 7))).
Proof.
  split; [vm_compute; lia|].
  apply (migrate_short_list_unchanged id (legacy (flags 7))).
  vm_compute; lia.
Defined.

Lemma migrate_long_list_witness :
  9 <= length (Migration.extra_customization (id (legacy (flags 11))))
  /\ exists s',
       Migration.migrate_old_settings id (legacy (flags 11)) = Py.Return s'
       /\ length (Migration.extra_customization s') = 2.
Proof.
  split; [vm_compute; lia|].
  destruct (migrate_long_list id (legacy (flags 11)))
    as (s' & Hrun & _ & _ & _ & _ & _ & _ & _ & _ & _ & _ & Hlen);
    [vm_compute; lia|].
  exists s'. split; [exact Hrun | exact Hlen].
Defined.

(** ** [sync_booklists] *)

Section ReconcileFacts.
Import Reconcile.

(** The image id of a content id, inherited from calibre's Kobo driver. *)
Variable imageid_from_contentid : string -> string.

Lemma elem_of_concat {A : Type} (x : A) (ls : list (list A)) :
  x ∈ concat ls <-> exists l, l ∈ ls /\ x ∈ l.
Proof.
  induction ls as [|l ls IH]; cbn [concat].
  - split; [intros H%elem_of_nil; destruct H|].
    intros (l & H%elem_of_nil & _); destruct H.
  - rewrite elem_of_app, IH. split.
    + intros [H|(l' & H1 & H2)]; [exists l | exists l'];
        (split; [|assumption]); [left | now right].
    + intros (l' & [->|H1]%elem_of_cons & H2); [now left | right; eauto].
Qed.

Lemma queue_nulls_inner (all_nulls : gmap string nat) (booklist : list Book)
    (nulls : list (string * string)) :
  foldl (fun nulls b =>
           if bool_decide (application_id b <> None)
              && bool_decide (is_Some (all_nulls !! contentID b))
           then nulls ++ [(imageid_from_contentid (contentID b), contentID b)]
           else nulls) nulls booklist
  = nulls ++ (null_pair imageid_from_contentid
                <$> filter (queued all_nulls) booklist).
Proof.
  revert nulls. induction booklist as [|b booklist IH]; intros nulls.
  - now rewrite app_nil_r.
  - cbn [foldl]. rewrite IH. rewrite filter_cons.
    destruct (decide (queued all_nulls b)) as [[Ha Hc]|Hn].
    + rewrite !bool_decide_eq_true_2 by assumption. cbn.
      now rewrite <- app_assoc.
    + destruct (bool_decide (application_id b <> None)) eqn:Ea;
        destruct (bool_decide (is_Some (all_nulls !! contentID b))) eqn:Ec;
        try reflexivity.
      apply bool_decide_eq_true_1 in Ea, Ec. now destruct Hn.
Qed.

(** The queue holds, in booklist order, one pair for every book that
    passes the test, and nothing else. *)
Lemma queue_nulls_filter (all_nulls : gmap string nat)
    (booklists : list (list Book)) :
  queue_nulls imageid_from_contentid all_nulls booklists
  = null_pair imageid_from_contentid
      <$> filter (queued all_nulls) (concat booklists).
Proof.
  unfold queue_nulls.
  enough (H : forall acc,
             foldl (fun nulls booklist =>
               foldl (fun nulls b =>
                 if bool_decide (application_id b <> None)
                    && bool_decide (is_Some (all_nulls !! contentID b))
                 then nulls ++ [(imageid_from_contentid (contentID b),
                                 contentID b)]
                 else nulls) nulls booklist) acc booklists
             = acc ++ (null_pair imageid_from_contentid
                         <$> filter (queued all_nulls) (concat booklists)))
    by apply (H []).
  induction booklists as [|booklist booklists IH]; intros acc.
  - now rewrite app_nil_r.
  - cbn [foldl concat]. rewrite IH, queue_nulls_inner.
    rewrite filter_app, fmap_app. now rewrite app_assoc.
Qed.

(** The mapping has exactly the selected content ids as its keys. *)
Lemma rows_needing_imageid_lookup (db : list ContentRow) (cid : string) :
  is_Some (rows_needing_imageid db !! cid)
  <-> cid ∈ select_query db content_types_main.
Proof.
  unfold rows_needing_imageid.
  generalize (select_query db content_types_main) as ids. intros ids.
  enough (H : forall d : gmap string nat,
             is_Some (foldl (fun d row0 => <[row0 := 1]> d) d ids !! cid)
             <-> is_Some (d !! cid) \/ cid ∈ ids).
  { rewrite H, lookup_empty.
    split; [intros [[? ?]|?]; [discriminate | assumption] | auto]. }
  induction ids as [|i ids IH]; intros d; cbn [foldl].
  - rewrite elem_of_nil. tauto.
  - rewrite IH, elem_of_cons, lookup_insert_is_Some.
    destruct (decide (i = cid)) as [->|Hne]; [tauto|].
    split; [intros [[?|[? ?]]|?] | intros [?|[?|?]]]; auto; try congruence.
Qed.

(** The loop, one turn at a time. *)
Lemma update_loop_empty (st : Store) : update_loop [] st = (st, []).
Proof. now rewrite update_loop_equation_1. Qed.

Lemma update_loop_turn (nulls : list (string * string)) (st : Store) :
  nulls <> [] ->
  update_loop nulls st
  = update_loop (drop 100 nulls)
      {| rows := executemany (rows st) (take 100 nulls);
         batches := batches st ++ [take 100 nulls] |}.
Proof.
  intros Hne. rewrite update_loop_equation_1.
  destruct (Logic.inspect (take 100 nulls)) as [l e].
  destruct l as [|p batch]; cbn.
  - destruct nulls; [now destruct Hne | discriminate e].
  - now rewrite e.
Qed.

(** The loop always ends, with an empty queue; the batches it issued are
    the queue cut into pieces of at most 100 pairs, none of them empty. *)
Lemma update_loop_batches (nulls : list (string * string)) (st : Store) :
  exists issued,
    update_loop nulls st
    = ({| rows := foldl executemany (rows st) issued;
          batches := batches st ++ issued |}, [])
    /\ concat issued = nulls
    /\ Forall (fun batch => 0 < length batch <= 100) issued.
Proof.
  remember (length nulls) as n eqn:Hn. revert nulls st Hn.
  induction n as [n IH] using lt_wf_ind. intros nulls st ->.
  destruct nulls as [|p nulls].
  - exists []. rewrite update_loop_empty, app_nil_r.
    destruct st; repeat split; constructor.
  - rewrite update_loop_turn by discriminate.
    edestruct (IH (length (drop 100 (p :: nulls))))
      as (issued & Hrun & Hcat & Hall);
      [rewrite length_drop; cbn; lia | reflexivity |].
    exists (take 100 (p :: nulls) :: issued). rewrite Hrun. cbn [rows batches].
    split; [now rewrite <- app_assoc|]. split.
    + cbn [concat]. rewrite Hcat. apply take_drop.
    + constructor; [|exact Hall]. rewrite length_take, length_cons. lia.
Qed.

End ReconcileFacts.

Section ReconcileClaims.
Import Reconcile.

Variable imageid_from_contentid : string -> string.

(** C5, amended. With [upload_covers] on, every book of every supplied
    booklist that has an application id (its [application_id] is not
    [None]) and whose content id is a key of the mapping of rows lacking an
    image id is queued as the pair (image id, content id), the image id
    being [imageid_from_contentid] of the content id; the pair is then part
    of one of the batches handed to the database. Nothing else is queued. *)
Theorem books_needing_imageid_are_queued (db : list ContentRow)
    (booklists : list (list Book)) (booklist : list Book) (b : Book) :
  let all_nulls := rows_needing_imageid db in
  let nulls := queue_nulls imageid_from_contentid all_nulls booklists in
  booklist ∈ booklists ->
  b ∈ booklist ->
  application_id b <> None ->
  is_Some (all_nulls !! contentID b) ->
  (imageid_from_contentid (contentID b), contentID b) ∈ nulls
  /\ (exists batch,
         batch ∈ batches (sync_booklists true imageid_from_contentid
                            db booklists).1
         /\ (imageid_from_contentid (contentID b), contentID b) ∈ batch)
  /\ (forall p, p ∈ nulls ->
        exists booklist' b',
          booklist' ∈ booklists /\ b' ∈ booklist'
          /\ application_id b' <> None
          /\ is_Some (all_nulls !! contentID b')
          /\ p = (imageid_from_contentid (contentID b'), contentID b')).
Proof.
  intros all_nulls nulls Hbl Hb Happ Hnull.
  assert (Hin : (imageid_from_contentid (contentID b), contentID b) ∈ nulls).
  { unfold nulls. rewrite queue_nulls_filter.
    apply (list_elem_of_fmap_2 (null_pair imageid_from_contentid)).
    apply list_elem_of_filter. split; [now split|].
    apply elem_of_concat. eauto. }
  split; [exact Hin | split].
  - unfold sync_booklists. fold all_nulls. fold nulls.
    destruct (update_loop_batches nulls {| rows := db; batches := [] |})
      as (issued & -> & Hcat & _).
    cbn. rewrite <- Hcat in Hin. apply elem_of_concat in Hin.
    destruct Hin as (batch & ? & ?). eauto.
  - intros p Hp. unfold nulls in Hp. rewrite queue_nulls_filter in Hp.
    apply list_elem_of_fmap in Hp as (b' & -> & Hb').
    apply list_elem_of_filter in Hb' as [[Ha Hc] Hb'].
    apply elem_of_concat in Hb' as (booklist' & ? & ?).
    exists booklist', b'. repeat split; assumption.
Qed.

(** C8. A queue of 250 pairs is applied in exactly 3 calls of
    [executemany], on its first 100 pairs, its next 100 and its last 50,
    each batch being cut off the front of the queue as it is applied, and
    the loop ends with the queue empty. The size 100 is written in the
    loop itself: the method takes no batch size. *)
Theorem update_loop_250 (nulls : list (string * string))
    (db : list ContentRow) :
  length nulls = 250 ->
  let b1 := take 100 nulls in
  let b2 := take 100 (drop 100 nulls) in
  let b3 := drop 200 nulls in
  update_loop nulls {| rows := db; batches := [] |}
  = ({| rows := executemany (executemany (executemany db b1) b2) b3;
        batches := [b1; b2; b3] |}, [])
  /\ length <$> [b1; b2; b3] = [100; 100; 50]
  /\ nulls = b1 ++ b2 ++ b3.
Proof.
  intros Hlen b1 b2 b3.
  assert (H1 : nulls <> []) by (intros ->; discriminate Hlen).
  assert (H2 : drop 100 nulls <> []).
  { intros E. apply (f_equal length) in E.
    rewrite length_drop, Hlen in E. discriminate E. }
  assert (H3 : drop 100 (drop 100 nulls) <> []).
  { intros E. apply (f_equal length) in E.
    rewrite !length_drop, Hlen in E. discriminate E. }
  assert (H4 : drop 100 (drop 100 (drop 100 nulls)) = []).
  { apply nil_length_inv. rewrite !length_drop, Hlen. reflexivity. }
  assert (Hb3 : take 100 (drop 100 (drop 100 nulls)) = b3).
  { unfold b3. rewrite drop_drop. change (100 + 100) with 200.
    apply take_ge. rewrite length_drop, Hlen. cbn. lia. }
  split; [|split].
  - rewrite (update_loop_turn _ _ H1). cbn [rows batches].
    rewrite (update_loop_turn _ _ H2). cbn [rows batches].
    rewrite (update_loop_turn _ _ H3). cbn [rows batches].
    rewrite H4, update_loop_empty, Hb3. reflexivity.
  - unfold b1, b2, b3. cbn [fmap list_fmap].
    rewrite !length_take, !length_drop, Hlen. reflexivity.
  - unfold b1, b2, b3.
    rewrite <- (take_drop 100 nulls) at 1. f_equal.
    rewrite <- (take_drop 100 (drop 100 nulls)) at 1. f_equal.
    now rewrite drop_drop.
Qed.

End ReconcileClaims.

Example sync_booklists_sample :
  Reconcile.batches
    (Reconcile.sync_booklists true underscored sample_db
       [[unknown_book]; [known_book]]).1
  = [[("file____mnt_onboard_b_kepub_epub",
       "file:///mnt/onboard/b.kepub.epub")]].
Proof. vm_compute. reflexivity. Qed.

(** C5, as stated, fails: a book without an application id is not queued,
    though its content id is in the mapping of rows lacking an image id. *)
Lemma unknown_book_not_queued :
  bool_decide (is_Some (Reconcile.rows_needing_imageid sample_db
                          !! Reconcile.contentID unknown_book)) = true
  /\ Reconcile.queue_nulls underscored
       (Reconcile.rows_needing_imageid sample_db) [[unknown_book]] = [].
Proof. split; vm_compute; reflexivity. Qed.

Lemma books_needing_imageid_are_queued_witness :
  [known_book] ∈ [[unknown_book]; [known_book]]
  /\ known_book ∈ [known_book]
  /\ Reconcile.application_id known_book <> None
  /\ is_Some (Reconcile.rows_needing_imageid sample_db
                !! Reconcile.contentID known_book)
  /\ (underscored (Reconcile.contentID known_book),
      Reconcile.contentID known_book)
     ∈ Reconcile.queue_nulls underscored
         (Reconcile.rows_needing_imageid sample_db)
         [[unknown_book]; [known_book]].
Proof.
  assert (H1 : [known_book] ∈ [[unknown_book]; [known_book]])
    by (apply list_elem_of_In; simpl; auto).
  assert (H2 : known_book ∈ [known_book])
    by (apply list_elem_of_In; simpl; auto).
  assert (H3 : Reconcile.application_id known_book <> None) by discriminate.
  assert (H4 : is_Some (Reconcile.rows_needing_imageid sample_db
                          !! Reconcile.contentID known_book))
    by (apply (bool_decide_unpack _); vm_compute; exact I).
  repeat split; try assumption.
  exact (proj1 (books_needing_imageid_are_queued underscored sample_db
                  [[unknown_book]; [known_book]] [known_book] known_book
                  H1 H2 H3 H4)).
Defined.

Lemma update_loop_250_witness :
  length queue_250 = 250
  /\ length <$> Reconcile.batches
                  (Reconcile.update_loop queue_250
                     {| Reconcile.rows := sample_db;
                        Reconcile.batches := [] |}).1
     = [100; 100; 50].
Proof.
  assert (H : length queue_250 = 250)
    by (unfold queue_250; now rewrite length_fmap, length_seq).
  split; [exact H|].
  destruct (update_loop_250 queue_250 sample_db H) as (-> & Hsizes & _).
  exact Hsizes.
Defined.

(** ** [_modify_epub] *)

(** Running a computation: unfold the monad down to states and outcomes. *)
Ltac run_M :=
  repeat (progress
    (cbn;
     unfold mbind, mret, Transform.M_bind, Transform.M_ret,
       Py.outcome_bind, Py.outcome_ret,
       Transform.super__modify_epub, Transform.call,
       Transform.skip_renaming_files_add, Transform.lift, Transform.raise,
       Transform.try_except, marked, called)).

(** Membership in a list that is written out. *)
Ltac in_list := apply list_elem_of_In; simpl; tauto.

Section TransformFacts.
Import PyStr Py Transform.

Variable h : Host.
Variable self : Prefs.
Variable infile : string.
Variable metadata : Metadata.

Lemma marked_has_uuid (st : DriverState) :
  uuid metadata ∈ skip_renaming_files (marked metadata st).
Proof. unfold marked. cbn. set_solver. Qed.

(** When the probe finds the book encumbered: opening raised [DRMError],
    or the container handed in says so. The container to go on with is
    then the one handed in. *)
Lemma drm_probe_encumbered (container container' : option Container) :
  drm_probe h infile container = Return (container', true)
  <-> container' = container
      /\ match container with
         | None => exists e, KEPubContainer h infile = Raise e
                             /\ exn_cls e = DRMError
         | Some c => is_drm_encumbered c = true
         end.
Proof.
  unfold drm_probe. destruct container as [c|].
  - cbn. split.
    + intros [= <- ->]. now split.
    + intros [-> ->]. reflexivity.
  - destruct (KEPubContainer h infile) as [c|e] eqn:E; cbn.
    + split; [discriminate | intros [_ (e & [=] & _)]].
    + destruct (decide (exn_cls e = DRMError)) as [Hd|Hd].
      * split; [intros [= <-]; split; eauto | intros [-> _]; reflexivity].
      * split; [discriminate | intros [_ (e' & [= <-] & He')]; contradiction].
Qed.

(** A file that does not have the packaged extension is handed to the
    inherited method untouched; it is marked unless it is a [".kepub"]. *)
Lemma foreign_path (container : option Container) (st : DriverState) :
  endswith infile EPUB_EXT = false ->
  _modify_epub h self infile metadata container st
  = let st1 := if endswith infile KEPUB_EXT then st else marked metadata st in
    (super_modify_epub h infile metadata container,
     called (SuperModifyEpub infile container) st1).
Proof.
  intros Hext. unfold _modify_epub. rewrite Hext.
  destruct (endswith infile KEPUB_EXT); run_M;
    destruct (super_modify_epub h infile metadata container); reflexivity.
Qed.

(** [self.settings()] raised: the method raises the same, and that is
    all. *)
Lemma settings_error_path (container : option Container) (st : DriverState)
    (e : exn) :
  endswith infile EPUB_EXT = true ->
  self_settings h = Raise e ->
  _modify_epub h self infile metadata container st = (Raise e, st).
Proof.
  intros Hext Hset. unfold _modify_epub. rewrite Hext. run_M.
  now rewrite Hset.
Qed.

(** The encumbered path. *)
Lemma encumbered_path (container container' : option Container)
    (opts : Migration.Settings) (st : DriverState) :
  endswith infile EPUB_EXT = true ->
  self_settings h = Return opts ->
  drm_probe h infile container = Return (container', true) ->
  _modify_epub h self infile metadata container st
  = if upload_encumbered self
    then (super_modify_epub h infile metadata container',
          called (SuperModifyEpub infile container') (marked metadata st))
    else (Return false, marked metadata st).
Proof.
  intros Hext Hset Hprobe. unfold _modify_epub. rewrite Hext. run_M.
  rewrite Hset. run_M. rewrite Hprobe.
  destruct (upload_encumbered self); run_M; [|reflexivity].
  destruct (super_modify_epub h infile metadata container'); reflexivity.
Qed.

(** The failure path: the body of the [try] raised [e]. What is not an
    [Exception] is not caught. For what is, the handler first formats its
    log line, reading [e.message]. *)
Lemma failure_path (container container' : option Container)
    (opts : Migration.Settings) (st st1 : DriverState) (e : exn) :
  endswith infile EPUB_EXT = true ->
  self_settings h = Return opts ->
  drm_probe h infile container = Return (container', false) ->
  inject_and_transform h self opts infile metadata container' st
  = (Raise e, st1) ->
  _modify_epub h self infile metadata container st
  = if isinstance_Exception e then
      match getattr_message (python h) e with
      | Raise e' => (Raise e', st1)
      | Return _ =>
          if skip_failed self
          then (super_modify_epub h infile metadata container',
                called (SuperModifyEpub infile container')
                  (marked metadata st1))
          else (Raise e, st1)
      end
    else (Raise e, st1).
Proof.
  intros Hext Hset Hprobe Hbody. unfold _modify_epub. rewrite Hext.
  run_M. rewrite Hset. run_M.
  rewrite Hprobe. run_M. rewrite Hbody.
  destruct (isinstance_Exception e); [|reflexivity].
  destruct (getattr_message (python h) e) as [msg|e']; run_M;
    [|reflexivity].
  destruct (skip_failed self); run_M; [|reflexivity].
  destruct (super_modify_epub h infile metadata container'); reflexivity.
Qed.

(** The transform path: the body of the [try] went through, on container
    [c], and the copy to [file_copy_dir] too. *)
Lemma transform_path (container : option Container)
    (opts : Migration.Settings) (c : Container) (st st1 st2 : DriverState) :
  endswith infile EPUB_EXT = true ->
  self_settings h = Return opts ->
  drm_probe h infile container = Return (Some c, false) ->
  inject_and_transform h self opts infile metadata (Some c) st
  = (Return (), st1) ->
  copy_to_file_copy_dir h self infile metadata
    (if extra_features self then st1 else marked metadata st1)
  = (Return (), st2) ->
  _modify_epub h self infile metadata container st
  = match super_modify_epub h infile metadata (Some c) with
    | Return true =>
        (commit h c infile ≫= (fun _ => Return true),
         called (Commit c infile)
           (called (SuperModifyEpub infile (Some c)) st2))
    | Return false =>
        (Return false, called (SuperModifyEpub infile (Some c)) st2)
    | Raise e =>
        (Raise e, called (SuperModifyEpub infile (Some c)) st2)
    end.
Proof.
  intros Hext Hset Hprobe Hbody Hcopy. unfold _modify_epub. rewrite Hext.
  run_M. rewrite Hset. run_M.
  rewrite Hprobe. run_M. rewrite Hbody.
  destruct (extra_features self); run_M; unfold marked in Hcopy;
    cbn in Hcopy; rewrite Hcopy;
    (destruct (super_modify_epub h infile metadata (Some c)) as [[|]|e];
     run_M;
     [destruct (commit h c infile) as [[]|e]; reflexivity
     | reflexivity | reflexivity]).
Qed.

End TransformFacts.

Section TransformClaims.
Import PyStr Py Transform.

Variable h : Host.
Variable self : Prefs.
Variable infile : string.
Variable metadata : Metadata.

(** A stored record that lacks one of the four transient keys makes the
    deletions raise [KeyError], for the first key that is missing. *)
Lemma driver_info_missing_key (opts : Migration.Settings)
    (o : gmap string string) :
  calibre_details_file h = Some (Return o) ->
  (exists prop, prop ∈ transient_keys /\ o !! prop = None) ->
  exists prop,
    prop ∈ transient_keys
    /\ driver_info h opts = Raise (mk_exn KeyError [prop] None).
Proof.
  intros Hfile (prop & Hin & Hnone). unfold driver_info. rewrite Hfile.
  cbn [mbind outcome_bind foldl]. unfold delitem.
  destruct (o !! "device_store_uuid") eqn:E1; cbn;
    [|exists "device_store_uuid"; split; [in_list | reflexivity]].
  rewrite lookup_delete_ne by discriminate.
  destruct (o !! "prefix") eqn:E2; cbn;
    [|exists "prefix"; split; [in_list | reflexivity]].
  rewrite !lookup_delete_ne by discriminate.
  destruct (o !! "last_library_uuid") eqn:E3; cbn;
    [|exists "last_library_uuid"; split; [in_list | reflexivity]].
  rewrite !lookup_delete_ne by discriminate.
  destruct (o !! "location_code") eqn:E4; cbn;
    [|exists "location_code"; split; [in_list | reflexivity]].
  exfalso. unfold transient_keys in Hin.
  repeat (apply elem_of_cons in Hin as [->|Hin]; [congruence|]).
  now apply elem_of_nil in Hin.
Qed.

(** A complete stored record loses the four keys and keeps the others. *)
Lemma driver_info_carries_over (opts : Migration.Settings)
    (o : gmap string string) (key : string) :
  calibre_details_file h = Some (Return o) ->
  (forall prop, prop ∈ transient_keys -> is_Some (o !! prop)) ->
  exists o',
    driver_info h opts = Return o'
    /\ (forall prop, prop ∈ transient_keys -> o' !! prop = None)
    /\ (key ∉ transient_keys ->
        key ∉ ["kobotouchextended_version"; "kobotouchextended_options";
               "kobotouchextended_currenttime"] ->
        o' !! key = o !! key).
Proof.
  intros Hfile Hall. unfold driver_info. rewrite Hfile.
  cbn [mbind outcome_bind foldl]. unfold delitem.
  destruct (Hall "device_store_uuid") as [v1 E1]; [in_list|].
  rewrite E1. cbn. rewrite lookup_delete_ne by discriminate.
  destruct (Hall "prefix") as [v2 E2]; [in_list|].
  rewrite E2. cbn. rewrite !lookup_delete_ne by discriminate.
  destruct (Hall "last_library_uuid") as [v3 E3]; [in_list|].
  rewrite E3. cbn. rewrite !lookup_delete_ne by discriminate.
  destruct (Hall "location_code") as [v4 E4]; [in_list|].
  rewrite E4. cbn. eexists. split; [reflexivity|]. split.
  - intros prop Hin. unfold transient_keys in Hin.
    rewrite !lookup_insert_ne
      by (intros <-; repeat (apply elem_of_cons in Hin as [Hin|Hin];
                             [discriminate Hin|]);
          now apply elem_of_nil in Hin).
    repeat (apply elem_of_cons in Hin as [->|Hin];
            [now simplify_map_eq|]).
    now apply elem_of_nil in Hin.
  - intros Hk1 Hk2. unfold transient_keys in Hk1.
    rewrite !lookup_insert_ne by (intros <-; apply Hk2; in_list).
    rewrite !lookup_delete_ne by (intros <-; apply Hk1; in_list).
    reflexivity.
Qed.

(** The body of the [try] stops at the [KeyError], before any call. *)
Lemma inject_and_transform_key_error (opts : Migration.Settings)
    (container : option Container) (st : DriverState) (e : exn) :
  driver_info h opts = Raise e ->
  inject_and_transform h self opts infile metadata container st
  = (Raise e, st).
Proof. intros H. unfold inject_and_transform. run_M. now rewrite H. Qed.

(** What becomes of a stored record that lacks a transient key, on either
    interpreter: Python 2 has the [KeyError] handled as the policy says,
    Python 3 has the handler itself raise [AttributeError], whatever
    [skip_failed] is. *)
Lemma missing_key_path (container container' : option Container)
    (opts : Migration.Settings) (o : gmap string string) (st : DriverState) :
  endswith infile EPUB_EXT = true ->
  self_settings h = Return opts ->
  drm_probe h infile container = Return (container', false) ->
  calibre_details_file h = Some (Return o) ->
  (exists prop, prop ∈ transient_keys /\ o !! prop = None) ->
  exists prop,
    prop ∈ transient_keys
    /\ _modify_epub h self infile metadata container st
       = match python h with
         | Py2 =>
             if skip_failed self
             then (super_modify_epub h infile metadata container',
                   called (SuperModifyEpub infile container')
                     (marked metadata st))
             else (Raise (mk_exn KeyError [prop] None), st)
         | Py3 =>
             (Raise (mk_exn AttributeError
                       ["object has no attribute 'message'"] None), st)
         end.
Proof.
  intros Hext Hset Hprobe Hfile Hmiss.
  destruct (driver_info_missing_key opts o Hfile Hmiss)
    as (prop & Hin & Hinfo).
  exists prop. split; [exact Hin|].
  rewrite (failure_path h self infile metadata container container' opts
             st st (mk_exn KeyError [prop] None) Hext Hset Hprobe
             (inject_and_transform_key_error opts container' st _ Hinfo)).
  unfold getattr_message. cbn. now destruct (python h).
Qed.

(** C4, amended. When the transform path goes through ([settings()]
    returns, the book is clear of DRM, the record is embedded, the
    transformer returns, the copy to [file_copy_dir] is made if one is
    asked for), the inherited method is called, and its return
    value is the method's: if it is true the container is committed to the
    source path, the method returns [True] when the commit returns and
    raises what the commit raises; if it is false no commit is made and the
    method returns [False]. *)
Theorem modify_epub_transform_result (container : option Container)
    (opts : Migration.Settings) (c : Container) (st st1 st2 : DriverState) :
  endswith infile EPUB_EXT = true ->
  self_settings h = Return opts ->
  drm_probe h infile container = Return (Some c, false) ->
  inject_and_transform h self opts infile metadata (Some c) st
  = (Return (), st1) ->
  copy_to_file_copy_dir h self infile metadata
    (if extra_features self then st1 else marked metadata st1)
  = (Return (), st2) ->
  let (result, st') := _modify_epub h self infile metadata container st in
  match super_modify_epub h infile metadata (Some c) with
  | Return true =>
      calls st' = calls st2 ++ [SuperModifyEpub infile (Some c);
                                Commit c infile]
      /\ result = match commit h c infile with
                  | Return _ => Return true
                  | Raise e => Raise e
                  end
  | Return false =>
      calls st' = calls st2 ++ [SuperModifyEpub infile (Some c)]
      /\ result = Return false
  | Raise e =>
      calls st' = calls st2 ++ [SuperModifyEpub infile (Some c)]
      /\ result = Raise e
  end.
Proof.
  intros Hext Hset Hprobe Hbody Hcopy.
  rewrite (transform_path h self infile metadata container opts c
             st st1 st2 Hext Hset Hprobe Hbody Hcopy).
  destruct (super_modify_epub h infile metadata (Some c)) as [[|]|e].
  - cbn. rewrite <- app_assoc. split; [reflexivity|].
    now destruct (commit h c infile).
  - now split.
  - now split.
Qed.

End TransformClaims.

(** ** [_modify_epub] on sample books *)

Section TransformExamples.
Import PyStr Py Transform.

Example run_all_well :
  (run (host Py3 (Return plain_container) (Some (Return full_details))
          (Return ()) (Return true)) (prefs false false)).1
  = Return true.
Proof. vm_compute. reflexivity. Qed.

Example driver_info_sample :
  (fun o : gmap string string =>
     (o !! "foo", o !! "prefix", o !! "kobotouchextended_version"))
  <$> (match driver_info (host Py3 (Return plain_container)
                            (Some (Return full_details)) (Return ())
                            (Return true)) (legacy [])
       with Return o => Some o | Raise _ => None end)
  = Some (Some "bar", None, Some "3.2.1").
Proof. vm_compute. reflexivity. Qed.

(** On Python 2 a failing transformer is absorbed under [skip_failed]. *)
Example transformer_failure_absorbed_py2 :
  let r := run (host Py2 (Return plain_container) None (Raise value_error)
                  (Return true)) (prefs true false) in
  r.1 = Return true
  /\ is_marked "id-1" r.2 = true
  /\ existsb is_super (calls r.2) = true.
Proof. vm_compute. repeat split. Qed.

(** So is, on Python 3, an exception that carries its own [message]. *)
Example invalid_epub_absorbed_py3 :
  let r := run (host Py3 (Return plain_container) None (Raise invalid_epub)
                  (Return true)) (prefs true false) in
  r.1 = Return true
  /\ is_marked "id-1" r.2 = true
  /\ existsb is_super (calls r.2) = true.
Proof. vm_compute. repeat split. Qed.

(** C7, where the code departs from it. On Python 3, with [skip_failed]
    on, a transformer that fails with a built-in exception is not
    absorbed: the handler's log line reads [e.message], which raises
    [AttributeError] before [skip_failed] is looked at. The book is not
    marked and the inherited method is not called. *)
Theorem transformer_failure_not_absorbed_py3 :
  (run (host Py3 (Return plain_container) None (Raise value_error)
          (Return true)) (prefs true false)).1
  = Raise (mk_exn AttributeError ["object has no attribute 'message'"] None)
  /\ is_marked "id-1"
       (run (host Py3 (Return plain_container) None (Raise value_error)
               (Return true)) (prefs true false)).2 = false
  /\ existsb is_super
       (calls (run (host Py3 (Return plain_container) None
                      (Raise value_error) (Return true))
                 (prefs true false)).2) = false.
Proof. vm_compute. repeat split. Qed.

(** C10, where the code departs from it. On Python 3, with [skip_failed]
    on, a stored record without ["prefix"] makes the deletions raise
    [KeyError], and the handler raises [AttributeError] in its turn (the
    same [e.message] as for C7) instead of falling back to the inherited
    method: the book is not marked, nothing is called. *)
Theorem missing_key_not_absorbed_py3 :
  driver_info (host Py3 (Return plain_container)
                 (Some (Return details_without_prefix)) (Return ())
                 (Return true)) (legacy [])
  = Raise (mk_exn KeyError ["prefix"] None)
  /\ run (host Py3 (Return plain_container)
            (Some (Return details_without_prefix)) (Return ()) (Return true))
       (prefs true false)
     = (Raise (mk_exn AttributeError ["object has no attribute 'message'"]
                 None), st0).
Proof. split; vm_compute; reflexivity. Qed.

(** On Python 2 the same record is handled as C10 says. *)
Example missing_key_absorbed_py2 :
  let r := run (host Py2 (Return plain_container)
                  (Some (Return details_without_prefix)) (Return ())
                  (Return true)) (prefs true false) in
  r.1 = Return true
  /\ is_marked "id-1" r.2 = true
  /\ calls r.2 = [SuperModifyEpub "book.epub" (Some plain_container)].
Proof. vm_compute. repeat split. Qed.

Example missing_key_propagated_py2 :
  run (host Py2 (Return plain_container)
         (Some (Return details_without_prefix)) (Return ()) (Return true))
    (prefs false false)
  = (Raise (mk_exn KeyError ["prefix"] None), st0).
Proof. vm_compute. reflexivity. Qed.

(** A book without the packaged extension is not probed at all. *)
Example foreign_book_passed_on :
  _modify_epub (host Py3 (Raise drm_error) None (Return ()) (Return true))
    (prefs false false) "book.pdf" (book "id-1") None st0
  = (Return true,
     {| skip_renaming_files := {["id-1"]};
        calls := [SuperModifyEpub "book.pdf" None] |}).
Proof. vm_compute. reflexivity. Qed.

(** C6, where the code departs from it. A book whose container the
    method opens itself, without [DRMError], and which reports itself
    encumbered, is a DRM-encumbered book; with [upload_encumbered] off it
    is nevertheless transformed and committed, the method returns [True],
    and the book is not marked. Only a container that was handed in is
    asked (line 217); the one opened at line 215 is not. *)
Theorem opened_container_not_asked :
  drm_encumbered
    (host Py3 (Return {| container_path := "book.epub";
                         is_drm_encumbered := true |})
       None (Return ()) (Return true)) "book.epub" None
  /\ run (host Py3 (Return {| container_path := "book.epub";
                              is_drm_encumbered := true |})
            None (Return ()) (Return true)) (prefs false false)
     = (Return true,
        {| skip_renaming_files := ∅;
           calls :=
             [CopyFileToContainer
                {| container_path := "book.epub"; is_drm_encumbered := true |}
                {[ "kobotouchextended_version" := "3.2.1";
                   "kobotouchextended_options" := "[]";
                   "kobotouchextended_currenttime"
                   := "Wed Apr  1 01:02:03 2020" ]}
                "driverinfo.kte" "application/json";
              ModifyEpub
                {| container_path := "book.epub"; is_drm_encumbered := true |}
                "book.epub" (transform_opts (prefs false false));
              SuperModifyEpub "book.epub"
                (Some {| container_path := "book.epub";
                         is_drm_encumbered := true |});
              Commit
                {| container_path := "book.epub"; is_drm_encumbered := true |}
                "book.epub"] |}).
Proof. split; vm_compute; reflexivity. Qed.

(** The same book, handed in with its container, is marked and not
    processed. *)
Example handed_container_is_asked :
  _modify_epub (host Py3 (Raise drm_error) None (Return ()) (Return true))
    (prefs false false) "book.epub" (book "id-1")
    (Some {| container_path := "book.epub"; is_drm_encumbered := true |}) st0
  = (Return false, {| skip_renaming_files := {["id-1"]}; calls := [] |}).
Proof. vm_compute. reflexivity. Qed.

(** What is raised without being an [Exception] is not absorbed, on either
    interpreter, whatever [skip_failed] is. *)
Example keyboard_interrupt_not_absorbed :
  let r := run (host Py2 (Return plain_container) None
                  (Raise (mk_exn (OtherError "KeyboardInterrupt") [] None))
                  (Return true)) (prefs true false) in
  r.1 = Raise (mk_exn (OtherError "KeyboardInterrupt") [] None)
  /\ is_marked "id-1" r.2 = false
  /\ existsb is_super (calls r.2) = false.
Proof. vm_compute. repeat split. Qed.

(** C4, as stated, fails: the transform path goes through, the inherited
    method returns [False], and no commit is made. *)
Lemma no_commit_when_inherited_fails :
  (inject_and_transform
     (host Py3 (Return plain_container) None (Return ()) (Return false))
     (prefs false false) (legacy []) "book.epub" (book "id-1")
     (Some plain_container) st0).1 = Return ()
  /\ (run (host Py3 (Return plain_container) None (Return ())
             (Return false)) (prefs false false)).1 = Return false
  /\ existsb is_commit
       (calls (run (host Py3 (Return plain_container) None (Return ())
                      (Return false)) (prefs false false)).2) = false.
Proof. vm_compute. repeat split. Qed.

End TransformExamples.

Lemma modify_epub_transform_result_witness :
  PyStr.endswith "book.epub" EPUB_EXT = true
  /\ (run (host Py.Py3 (Py.Return plain_container) None (Py.Return ())
             (Py.Return true)) (prefs false false)).1 = Py.Return true.
Proof.
  split; [reflexivity|].
  pose (h := host Py.Py3 (Py.Return plain_container) None (Py.Return ())
               (Py.Return true)).
  pose (st1 := (Transform.inject_and_transform h (prefs false false)
                  (legacy []) "book.epub" (book "id-1")
                  (Some plain_container) st0).2).
  assert (H1 : PyStr.endswith "book.epub" EPUB_EXT = true) by reflexivity.
  assert (H0 : Transform.self_settings h = Py.Return (legacy []))
    by reflexivity.
  assert (H2 : Transform.drm_probe h "book.epub" None
               = Py.Return (Some plain_container, false)) by reflexivity.
  assert (H3 : Transform.inject_and_transform h (prefs false false)
                 (legacy []) "book.epub" (book "id-1")
                 (Some plain_container) st0
               = (Py.Return (), st1)) by (vm_compute; reflexivity).
  assert (H4 : Transform.copy_to_file_copy_dir h (prefs false false)
                 "book.epub" (book "id-1")
                 (if Transform.extra_features (prefs false false)
                  then st1 else marked (book "id-1") st1)
               = (Py.Return (), st1)) by (vm_compute; reflexivity).
  generalize (modify_epub_transform_result h (prefs false false) "book.epub"
                (book "id-1") None (legacy []) plain_container st0 st1 st1
                H1 H0 H2 H3 H4).
  unfold run. fold h.
  destruct (Transform._modify_epub _ _ _ _ _ _) as [result st'].
  cbn. intros [_ ->]. reflexivity.
Defined.

(** ** [sanitize_path_components] *)

Section SanitizeFacts.
Import Sanitize.

Example sanitize_sample :
  sanitize_path_components ["Authors: A/B"; "What?"; "plain"]
  = ["Authors_ A_B"; "What_"; "plain"].
Proof. reflexivity. Qed.

Lemma underscore_is_valid : is_invalid "_" = false.
Proof. reflexivity. Qed.

Lemma sub_invalid_length (x : string) :
  String.length (sub_invalid x) = String.length x.
Proof. induction x as [|c x IH]; simpl; [reflexivity | now rewrite IH]. Qed.

Lemma sub_invalid_chars (x : string) :
  chars (sub_invalid x)
  = (fun c => if is_invalid c then "_"%char else c) <$> chars x.
Proof. induction x as [|c x IH]; simpl; [reflexivity | now rewrite IH]. Qed.

Lemma sub_invalid_clean (x : string) :
  Forall (fun c => is_invalid c = false) (chars (sub_invalid x)).
Proof.
  induction x as [|c x IH]; simpl; constructor; [|exact IH].
  destruct (is_invalid c) eqn:E; [apply underscore_is_valid | exact E].
Qed.

Lemma sub_invalid_fixpoint (x : string) :
  sub_invalid x = x <-> Forall (fun c => is_invalid c = false) (chars x).
Proof.
  induction x as [|c x IH]; simpl.
  - split; [constructor | reflexivity].
  - split.
    + intros [= Hc Hx]. constructor; [|now apply IH].
      destruct (is_invalid c) eqn:E; [|reflexivity].
      subst c. discriminate E.
    + intros H. inversion H as [|? ? Hc Hx]; subst.
      rewrite Hc. f_equal. now apply IH.
Qed.

(** X1. Sanitizing keeps the number of components and the length of each. *)
Theorem sanitize_keeps_shape (components : list string) :
  length (sanitize_path_components components) = length components
  /\ (forall (i : nat) (x : string),
         components !! i = Some x ->
         exists y, sanitize_path_components components !! i = Some y
                   /\ String.length y = String.length x).
Proof.
  unfold sanitize_path_components. split; [apply length_fmap|].
  intros i x Hx. exists (sub_invalid x). rewrite list_lookup_fmap, Hx.
  split; [reflexivity | apply sub_invalid_length].
Qed.

(** X2. No character of the class is left in any component: in particular no
    component can bring in a path separator. *)
Theorem sanitize_leaves_no_invalid_char (components : list string)
    (y : string) (c : ascii) :
  y ∈ sanitize_path_components components ->
  c ∈ chars y ->
  c ∉ invalid_filename_chars.
Proof.
  unfold sanitize_path_components.
  intros (x & -> & _)%list_elem_of_fmap Hc.
  pose proof (sub_invalid_clean x) as Hall.
  rewrite Forall_forall in Hall. specialize (Hall c Hc).
  unfold is_invalid in Hall. now apply bool_decide_eq_false_1 in Hall.
Qed.

(** X3. Sanitizing twice is sanitizing once. *)
Theorem sanitize_idempotent (components : list string) :
  sanitize_path_components (sanitize_path_components components)
  = sanitize_path_components components.
Proof.
  unfold sanitize_path_components. rewrite <- list_fmap_compose.
  apply list_fmap_ext. intros i x _. cbn.
  apply sub_invalid_fixpoint, sub_invalid_clean.
Qed.

(** X4. The components come back unchanged exactly when none of them holds a
    character of the class. *)
Theorem sanitize_unchanged_iff_clean (components : list string) :
  sanitize_path_components components = components
  <-> (forall (x : string) (c : ascii),
          x ∈ components -> c ∈ chars x -> c ∉ invalid_filename_chars).
Proof.
  unfold sanitize_path_components.
  induction components as [|x components IH].
  - split; [intros _ x c H%elem_of_nil; destruct H | reflexivity].
  - rewrite fmap_cons. split.
    + intros [= Hx Hrest] x' c [->|Hin]%elem_of_cons Hc.
      * apply sub_invalid_fixpoint in Hx. rewrite Forall_forall in Hx.
        specialize (Hx c Hc). unfold is_invalid in Hx.
        now apply bool_decide_eq_false_1 in Hx.
      * exact (proj1 IH Hrest x' c Hin Hc).
    + intros H. f_equal.
      * apply sub_invalid_fixpoint, Forall_forall. intros c Hc.
        unfold is_invalid. apply bool_decide_eq_false_2.
        apply (H x c); [apply list_elem_of_here | exact Hc].
      * apply IH. intros x' c Hin. apply H. now apply list_elem_of_further.
Qed.

Lemma sanitize_leaves_no_invalid_char_witness :
  ("Authors_ A_B" ∈ sanitize_path_components ["Authors: A/B"])
  /\ ("_"%char ∈ chars "Authors_ A_B")
  /\ ("_"%char ∉ invalid_filename_chars).
Proof.
  assert (H1 : "Authors_ A_B" ∈ sanitize_path_components ["Authors: A/B"])
    by (apply list_elem_of_In; simpl; auto).
  assert (H2 : "_"%char ∈ chars "Authors_ A_B")
    by (apply list_elem_of_In; simpl; tauto).
  split; [exact H1 | split; [exact H2|]].
  exact (sanitize_leaves_no_invalid_char ["Authors: A/B"] "Authors_ A_B"
           "_"%char H1 H2).
Defined.

End SanitizeFacts.

(** ** [settings] *)

Section CustomizationFacts.
Import Py Migration Customization.

Variable EXTRA_CUSTOMIZATION_DEFAULT : list pyval.

Example settings_sample :
  settings sample_defaults sample_opts
  = Return (legacy [PyBool false; PyStr "Aviator, Trapeze"; PyBool true;
                    PyNone]).
Proof. reflexivity. Qed.

Lemma bind_Return {A B : Type} (a : A) (f : A -> outcome B) :
  Return a ≫= f = f a.
Proof. reflexivity. Qed.

Lemma bind_Raise {A B : Type} (e : exn) (f : A -> outcome B) :
  Raise e ≫= f = Raise e.
Proof. reflexivity. Qed.

Lemma isinstance_own_type (d : pyval) : isinstance d (type_of d) = true.
Proof. now destruct d. Qed.

Lemma fix_types_length (defaults ec : list pyval) :
  length (fix_types defaults ec) = length ec.
Proof.
  revert ec. induction defaults as [|d defaults IH]; intros [|v ec]; cbn;
    try reflexivity.
  now rewrite IH.
Qed.

Lemma fix_types_lookup (defaults ec : list pyval) (i : nat) (d v : pyval) :
  defaults !! i = Some d ->
  ec !! i = Some v ->
  fix_types defaults ec !! i
  = Some (if isinstance v (type_of d) then v else d).
Proof.
  revert ec i. induction defaults as [|d0 defaults IH]; intros [|v0 ec] i;
    try discriminate.
  destruct i as [|i]; cbn.
  - now intros [= ->] [= ->].
  - apply IH.
Qed.

Lemma fix_types_beyond (defaults ec : list pyval) (i : nat) :
  length defaults <= i ->
  fix_types defaults ec !! i = ec !! i.
Proof.
  revert ec i. induction defaults as [|d0 defaults IH]; intros [|v0 ec] i Hi;
    try reflexivity.
  destruct i as [|i]; cbn in *; [lia|]. apply IH. lia.
Qed.

Lemma fix_types_idempotent (defaults ec : list pyval) :
  fix_types defaults (fix_types defaults ec) = fix_types defaults ec.
Proof.
  revert ec. induction defaults as [|d defaults IH]; intros [|v ec]; cbn;
    try reflexivity.
  rewrite IH. f_equal.
  destruct (isinstance v (type_of d)) eqn:E; [now rewrite E|].
  now rewrite isinstance_own_type.
Qed.

Lemma settings_loop_raised (defaults : list pyval) (e : exn)
    (idxs : list nat) :
  foldl (fun acc idx => ec ← acc; fix_type defaults ec idx) (Raise e) idxs
  = Raise e.
Proof. induction idxs as [|i idxs IH]; [reflexivity | exact IH]. Qed.

(** The loop, from any index on: [done_d] and [done_ec] are the defaults
    and the entries the loop is past. *)
Lemma settings_loop (done_d defaults done_ec ec : list pyval) :
  length done_d = length done_ec ->
  foldl (fun acc idx => ec ← acc; fix_type (done_d ++ defaults) ec idx)
        (Return (done_ec ++ ec))
        (seq (length done_ec) (length defaults))
  = if decide (length defaults <= length ec)
    then Return (done_ec ++ fix_types defaults ec)
    else Raise index_error.
Proof.
  revert done_d done_ec ec.
  induction defaults as [|d defaults IH]; intros done_d done_ec ec Hlen.
  - cbn. destruct (decide (0 <= length ec)) as [_|H]; [|lia].
    now destruct ec.
  - cbn [length seq foldl]. rewrite bind_Return.
    unfold fix_type at 2, getitem.
    destruct ec as [|v ec].
    + rewrite app_nil_r.
      rewrite (lookup_ge_None_2 done_ec (length done_ec)) by lia.
      rewrite bind_Raise, settings_loop_raised.
      destruct (decide (S (length defaults) <= length (@nil pyval)))
        as [H|_]; [cbn in H; lia | reflexivity].
    + rewrite (list_lookup_middle done_ec ec v (length done_ec) eq_refl).
      rewrite (list_lookup_middle done_d defaults d (length done_ec))
        by (symmetry; exact Hlen).
      rewrite !bind_Return.
      assert (Hstep :
        (if negb (isinstance v (type_of d))
         then mret (<[length done_ec := d]> (done_ec ++ v :: ec))
         else mret (done_ec ++ v :: ec))
        = Return ((done_ec ++ [if isinstance v (type_of d) then v else d])
                  ++ ec)).
      { destruct (isinstance v (type_of d)); cbn.
        - now rewrite <- app_assoc.
        - rewrite insert_app_r_alt by lia. rewrite Nat.sub_diag. cbn.
          now rewrite <- app_assoc. }
      rewrite Hstep.
      replace (done_d ++ d :: defaults) with ((done_d ++ [d]) ++ defaults)
        by now rewrite <- app_assoc.
      replace (S (length done_ec))
        with (length (done_ec
                      ++ [if isinstance v (type_of d) then v else d]))
        by (rewrite length_app; cbn; lia).
      rewrite IH by (rewrite !length_app; cbn; lia).
      cbn [length fix_types].
      destruct (decide (length defaults <= length ec)) as [H|H];
        destruct (decide (S (length defaults) <= S (length ec))) as [H'|H'];
        try lia; [|reflexivity].
      now rewrite <- app_assoc.
Qed.

Lemma settings_run (opts : Settings) :
  settings EXTRA_CUSTOMIZATION_DEFAULT opts
  = if decide (length EXTRA_CUSTOMIZATION_DEFAULT
               <= length (extra_customization opts))
    then Return (set_extra_customization
                   (fix_types EXTRA_CUSTOMIZATION_DEFAULT
                      (extra_customization opts)) opts)
    else Raise index_error.
Proof.
  unfold settings.
  pose proof (settings_loop [] EXTRA_CUSTOMIZATION_DEFAULT []
                (extra_customization opts) eq_refl) as H.
  cbn [app length] in H. rewrite H.
  now destruct (decide (length EXTRA_CUSTOMIZATION_DEFAULT
                        <= length (extra_customization opts))).
Qed.

(** X5. A stored list shorter than the list of defaults makes [settings]
    raise [IndexError]: the loop reads an index the list does not have. *)
Theorem settings_short_list_raises (opts : Settings) :
  length (extra_customization opts) < length EXTRA_CUSTOMIZATION_DEFAULT ->
  settings EXTRA_CUSTOMIZATION_DEFAULT opts = Raise index_error.
Proof.
  intros Hlen. rewrite settings_run.
  destruct (decide (length EXTRA_CUSTOMIZATION_DEFAULT
                    <= length (extra_customization opts)));
    [lia | reflexivity].
Qed.

(** X6. On a list at least as long as the defaults, [settings] raises nothing
    and changes only the list: its length stays; an entry that has a
    default keeps its value if the value has the default's type and becomes
    the default otherwise, so every such entry ends up with the type of its
    default; the entries beyond the defaults are left alone. *)
Theorem settings_fixes_types (opts : Settings) :
  length EXTRA_CUSTOMIZATION_DEFAULT <= length (extra_customization opts) ->
  exists ec',
    settings EXTRA_CUSTOMIZATION_DEFAULT opts
    = Return (set_extra_customization ec' opts)
    /\ length ec' = length (extra_customization opts)
    /\ (forall (i : nat) (d v : pyval),
           EXTRA_CUSTOMIZATION_DEFAULT !! i = Some d ->
           extra_customization opts !! i = Some v ->
           ec' !! i = Some (if isinstance v (type_of d) then v else d))
    /\ (forall (i : nat) (d : pyval),
           EXTRA_CUSTOMIZATION_DEFAULT !! i = Some d ->
           exists v', ec' !! i = Some v'
                      /\ isinstance v' (type_of d) = true)
    /\ (forall i : nat,
           length EXTRA_CUSTOMIZATION_DEFAULT <= i ->
           ec' !! i = extra_customization opts !! i).
Proof.
  intros Hlen.
  exists (fix_types EXTRA_CUSTOMIZATION_DEFAULT (extra_customization opts)).
  rewrite settings_run.
  destruct (decide (length EXTRA_CUSTOMIZATION_DEFAULT
                    <= length (extra_customization opts))) as [_|H]; [|lia].
  split; [reflexivity|]. split; [apply fix_types_length|].
  split; [apply fix_types_lookup|]. split; [|apply fix_types_beyond].
  intros i d Hd.
  destruct (lookup_lt_is_Some_2 (extra_customization opts) i) as [v Hv].
  { apply lookup_lt_Some in Hd. lia. }
  rewrite (fix_types_lookup _ _ i d v Hd Hv). eexists. split; [reflexivity|].
  destruct (isinstance v (type_of d)) eqn:E;
    [exact E | apply isinstance_own_type].
Qed.

(** X7. What [settings] returns it returns again when applied to it. *)
Theorem settings_idempotent (opts opts' : Settings) :
  settings EXTRA_CUSTOMIZATION_DEFAULT opts = Return opts' ->
  settings EXTRA_CUSTOMIZATION_DEFAULT opts' = Return opts'.
Proof.
  rewrite !settings_run.
  destruct (decide (length EXTRA_CUSTOMIZATION_DEFAULT
                    <= length (extra_customization opts))) as [H|H];
    [|discriminate].
  intros [= <-]. destruct opts as [ec f0 f1 f2 f3 f4 f5 f6 f7 f8].
  cbn [extra_customization set_extra_customization] in *.
  rewrite fix_types_length.
  destruct (decide (length EXTRA_CUSTOMIZATION_DEFAULT <= length ec));
    [|lia].
  unfold set_extra_customization. cbn. now rewrite fix_types_idempotent.
Qed.

End CustomizationFacts.

Lemma settings_short_list_raises_witness :
  length (Migration.extra_customization (legacy (flags 2)))
  < length sample_defaults
  /\ Customization.settings sample_defaults (legacy (flags 2))
     = Py.Raise index_error.
Proof.
  assert (H : length (Migration.extra_customization (legacy (flags 2)))
              < length sample_defaults) by (cbn; lia).
  split; [exact H|].
  exact (settings_short_list_raises sample_defaults (legacy (flags 2)) H).
Defined.

Lemma settings_fixes_types_witness :
  length sample_defaults <= length (Migration.extra_customization sample_opts)
  /\ exists ec',
       Customization.settings sample_defaults sample_opts
       = Py.Return (Migration.set_extra_customization ec' sample_opts)
       /\ length ec' = 4.
Proof.
  assert (H : length sample_defaults
              <= length (Migration.extra_customization sample_opts))
    by (cbn; lia).
  split; [exact H|].
  destruct (settings_fixes_types sample_defaults sample_opts H)
    as (ec' & Hrun & Hlen & _).
  exists ec'. split; [exact Hrun | exact Hlen].
Defined.

Lemma settings_idempotent_witness :
  Customization.settings sample_defaults sample_opts
  = Py.Return (legacy [Migration.PyBool false;
                       Migration.PyStr "Aviator, Trapeze";
                       Migration.PyBool true; Migration.PyNone])
  /\ Customization.settings sample_defaults
       (legacy [Migration.PyBool false; Migration.PyStr "Aviator, Trapeze";
                Migration.PyBool true; Migration.PyNone])
     = Py.Return (legacy [Migration.PyBool false;
                          Migration.PyStr "Aviator, Trapeze";
                          Migration.PyBool true; Migration.PyNone]).
Proof.
  assert (H : Customization.settings sample_defaults sample_opts
              = Py.Return (legacy [Migration.PyBool false;
                                   Migration.PyStr "Aviator, Trapeze";
                                   Migration.PyBool true; Migration.PyNone]))
    by reflexivity.
  split; [exact H|].
  exact (settings_idempotent sample_defaults sample_opts _ H).
Defined.

(** ** [upload_books] *)

Section UploadFacts.
Import Py Upload.

Variable KOBO_EXTRA_CSSFILE : string.

Example device_css_glo_hd :
  device_css_file_name "kobo_extra.css" glo_hd
  = Return "kobo_extra_GLOHD.css".
Proof. reflexivity. Qed.

Example upload_books_sample :
  (fun fs' => (device_css fs',
               kobo_config fs'
                 ≫= (fun cfg => cfg_get cfg "FeatureSettings"
                                  "FullBookPageNumbers"),
               kobo_config fs'
                 ≫= (fun cfg => cfg_get cfg "Reading" "LastFont")))
  <$> (match upload_books true "kobo_extra.css" true glo_hd sample_files
       with Return fs' => Some fs' | Raise _ => None end)
  = Some (Some "kobo_extra_GLOHD.css", Some (Some "true"),
          Some (Some "Georgia")).
Proof. vm_compute. reflexivity. Qed.

(** The chain of tests is a search for the first answer that is not
    [False]. *)
Lemma device_css_first_match (self : Device) :
  device_css_file_name KOBO_EXTRA_CSSFILE self
  = first_match KOBO_EXTRA_CSSFILE (css_table self).
Proof.
  unfold device_css_file_name, css_table, try_except_AttributeError.
  destruct self as [p1 p2 p3 p4 p5 p6 p7]. cbn.
  destruct p1 as [[|]|e]; cbn; [reflexivity| |now destruct (decide _)].
  destruct p2 as [[|]|e]; cbn; [reflexivity| |now destruct (decide _)].
  destruct p3 as [[|]|e]; cbn; [reflexivity| |now destruct (decide _)].
  destruct p4 as [[|]|e]; cbn; [reflexivity| |now destruct (decide _)].
  destruct p5 as [[|]|e]; cbn; [reflexivity| |now destruct (decide _)].
  destruct p6 as [[|]|e]; cbn; [reflexivity| |now destruct (decide _)].
  destruct p7 as [[|]|e]; cbn; [reflexivity|reflexivity|].
  now destruct (decide _).
Qed.

Lemma first_match_at (generic : string)
    (table : list (outcome bool * string)) (k : nat) (p : outcome bool)
    (name : string) :
  table !! k = Some (p, name) ->
  all_false_before k table ->
  p <> Return false ->
  first_match generic table = first_match generic [(p, name)].
Proof.
  revert k. induction table as [|[p0 n0] table IH]; intros k Hk Hbefore Hp.
  - discriminate Hk.
  - destruct k as [|k].
    + injection Hk as -> ->. cbn. destruct p as [[|]|e]; try reflexivity.
      now destruct Hp.
    + rewrite (Hbefore 0 p0 n0 ltac:(lia) eq_refl). cbn [first_match].
      apply (IH k Hk); [|exact Hp].
      intros j p' n' Hj Hl. apply (Hbefore (S j) p' n'); [lia | exact Hl].
Qed.

Lemma first_match_none (generic : string)
    (table : list (outcome bool * string)) :
  all_false_before (length table) table ->
  first_match generic table = Return generic.
Proof.
  induction table as [|[p0 n0] table IH]; intros Hall; [reflexivity|].
  rewrite (Hall 0 p0 n0 ltac:(cbn; lia) eq_refl). cbn [first_match].
  apply IH. intros j p' n' Hj Hl.
  apply (Hall (S j) p' n'); [cbn; lia | exact Hl].
Qed.

(** X8. The style sheet looked for is that of the first model, in the order
    Aura H2O, Aura HD, Aura, Glo, Glo HD, Mini, Touch, whose test answers
    [True], whatever the tests further down would answer. *)
Theorem device_css_first_model_wins (self : Device) (k : nat)
    (name : string) :
  css_table self !! k = Some (Return true, name) ->
  all_false_before k (css_table self) ->
  device_css_file_name KOBO_EXTRA_CSSFILE self = Return name.
Proof.
  intros Hk Hbefore. rewrite device_css_first_match.
  now rewrite (first_match_at _ _ k (Return true) name Hk Hbefore).
Qed.

(** If every test answers [False] it is the generic style sheet. *)
Lemma device_css_no_model_is_generic (self : Device) :
  all_false_before 7 (css_table self) ->
  device_css_file_name KOBO_EXTRA_CSSFILE self = Return KOBO_EXTRA_CSSFILE.
Proof.
  intros Hall. rewrite device_css_first_match. now apply first_match_none.
Qed.

(** X9. With a calibre that lacks one of the tests, the generic style sheet is
    looked for as soon as the missing test is reached, even if a test
    further down would have answered [True]; an exception of another class
    is not caught. *)
Theorem device_css_missing_test (self : Device) (k : nat) (e : exn)
    (name : string) :
  css_table self !! k = Some (Raise e, name) ->
  all_false_before k (css_table self) ->
  device_css_file_name KOBO_EXTRA_CSSFILE self
  = if decide (exn_cls e = AttributeError)
    then Return KOBO_EXTRA_CSSFILE else Raise e.
Proof.
  intros Hk Hbefore. rewrite device_css_first_match.
  now rewrite (first_match_at _ _ k (Raise e) name Hk Hbefore).
Qed.

Lemma set_page_numbers_run (cfg : gmap string (gmap string (option string)))
    (value : string) :
  cfg_set (if negb (has_section cfg "FeatureSettings")
           then add_section cfg "FeatureSettings" else cfg)
    "FeatureSettings" "FullBookPageNumbers" value
  = Return (with_page_numbers value cfg).
Proof.
  unfold has_section, add_section, cfg_set, with_page_numbers.
  destruct (cfg !! "FeatureSettings") as [options|] eqn:E.
  - rewrite bool_decide_eq_true_2 by eauto. cbn. now rewrite E.
  - rewrite bool_decide_eq_false_2 by (intros [? ?]; discriminate). cbn.
    rewrite lookup_insert_eq. now rewrite insert_insert_eq.
Qed.

(** The two halves of the method, one after the other. *)
Lemma upload_books_run (modifying_css full_page_numbers : bool)
    (self : Device) (fs : Files) :
  upload_books modifying_css KOBO_EXTRA_CSSFILE full_page_numbers self fs
  = (name ← (if modifying_css
             then name ← device_css_file_name KOBO_EXTRA_CSSFILE self;
                  Return (Some name)
             else Return None);
     Return
       {| configdir_css := configdir_css fs;
          device_css :=
            match name with
            | Some name =>
                if bool_decide (name ∈ configdir_css fs) then Some name
                else device_css fs
            | None => device_css fs
            end;
          kobo_config :=
            with_page_numbers (if full_page_numbers then "true" else "false")
            <$> kobo_config fs |}).
Proof.
  unfold upload_books. destruct fs as [css dev conf].
  destruct modifying_css;
    [destruct (device_css_file_name KOBO_EXTRA_CSSFILE self) as [name|e];
     [|reflexivity]|];
    cbn; try destruct (bool_decide (name ∈ css)); cbn;
    (destruct conf as [cfg|]; [|reflexivity]); cbn;
    now rewrite set_page_numbers_run.
Qed.

(** X10. The style sheet on the device is replaced only when calibre is set to
    modify the CSS and the plugins directory has the style sheet looked
    for, and then by that one; the plugins directory is never written. *)
Theorem upload_books_css_copy (modifying_css full_page_numbers : bool)
    (self : Device) (fs fs' : Files) :
  upload_books modifying_css KOBO_EXTRA_CSSFILE full_page_numbers self fs
  = Return fs' ->
  configdir_css fs' = configdir_css fs
  /\ (modifying_css = false -> device_css fs' = device_css fs)
  /\ (modifying_css = true ->
      exists name,
        device_css_file_name KOBO_EXTRA_CSSFILE self = Return name
        /\ device_css fs' = if bool_decide (name ∈ configdir_css fs)
                            then Some name else device_css fs).
Proof.
  rewrite upload_books_run. destruct modifying_css.
  - destruct (device_css_file_name KOBO_EXTRA_CSSFILE self) as [name|e];
      [|discriminate].
    intros [= <-]. cbn. split; [reflexivity|]. split; [discriminate|].
    intros _. now exists name.
  - intros [= <-]. cbn. split; [reflexivity|]. split; [reflexivity|].
    discriminate.
Qed.

(** X11. A device without [Kobo eReader.conf] gets none. One that has it gets
    [FeatureSettings.FullBookPageNumbers] set to ["true"] or ["false"] as
    [full_page_numbers] says, the section being added if it is missing;
    every other section, and every other option of the file, is as it
    was. *)
Theorem upload_books_sets_page_numbers
    (modifying_css full_page_numbers : bool) (self : Device)
    (fs fs' : Files) :
  upload_books modifying_css KOBO_EXTRA_CSSFILE full_page_numbers self fs
  = Return fs' ->
  match kobo_config fs with
  | None => kobo_config fs' = None
  | Some cfg =>
      exists cfg',
        kobo_config fs' = Some cfg'
        /\ cfg_get cfg' "FeatureSettings" "FullBookPageNumbers"
           = Some (Some (if full_page_numbers then "true" else "false"))
        /\ (forall section : string,
               section <> "FeatureSettings" ->
               cfg' !! section = cfg !! section)
        /\ (forall option_ : string,
               option_ <> "FullBookPageNumbers" ->
               cfg_get cfg' "FeatureSettings" option_
               = cfg_get cfg "FeatureSettings" option_)
  end.
Proof.
  rewrite upload_books_run. intros Hrun.
  assert (Hconf : kobo_config fs'
                  = with_page_numbers
                      (if full_page_numbers then "true" else "false")
                    <$> kobo_config fs).
  { destruct modifying_css;
      [destruct (device_css_file_name KOBO_EXTRA_CSSFILE self);
       [|discriminate]|];
      now injection Hrun as <-. }
  rewrite Hconf. destruct (kobo_config fs) as [cfg|]; [|reflexivity].
  eexists. split; [reflexivity|]. unfold with_page_numbers, cfg_get.
  split; [|split].
  - rewrite lookup_insert_eq. cbn. now rewrite lookup_insert_eq.
  - intros section Hs. now rewrite lookup_insert_ne.
  - intros option_ Ho. rewrite lookup_insert_eq. cbn.
    rewrite lookup_insert_ne by congruence.
    now destruct (cfg !! "FeatureSettings").
Qed.

Lemma with_page_numbers_idempotent (value : string)
    (cfg : gmap string (gmap string (option string))) :
  with_page_numbers value (with_page_numbers value cfg)
  = with_page_numbers value cfg.
Proof.
  unfold with_page_numbers. rewrite lookup_insert_eq. cbn.
  now rewrite !insert_insert_eq.
Qed.

(** X12. Uploading again changes nothing more: the same style sheet is copied
    and the same value is written. *)
Theorem upload_books_idempotent (modifying_css full_page_numbers : bool)
    (self : Device) (fs fs' : Files) :
  upload_books modifying_css KOBO_EXTRA_CSSFILE full_page_numbers self fs
  = Return fs' ->
  upload_books modifying_css KOBO_EXTRA_CSSFILE full_page_numbers self fs'
  = Return fs'.
Proof.
  rewrite !upload_books_run.
  destruct modifying_css;
    [destruct (device_css_file_name KOBO_EXTRA_CSSFILE self) as [name|e];
     [|discriminate]|];
    intros [= <-]; cbn; f_equal; f_equal;
    try (destruct (bool_decide (name ∈ configdir_css fs)); reflexivity);
    (destruct (kobo_config fs); [|reflexivity]); cbn;
    now rewrite with_page_numbers_idempotent.
Qed.

End UploadFacts.

Lemma device_css_first_model_wins_witness :
  css_table glo_hd !! 4 = Some (Py.Return true, "kobo_extra_GLOHD.css")
  /\ all_false_before 4 (css_table glo_hd)
  /\ Upload.device_css_file_name "kobo_extra.css" glo_hd
     = Py.Return "kobo_extra_GLOHD.css".
Proof.
  assert (H1 : css_table glo_hd !! 4
               = Some (Py.Return true, "kobo_extra_GLOHD.css"))
    by reflexivity.
  assert (H2 : all_false_before 4 (css_table glo_hd)).
  { intros j p name Hj.
    destruct j as [|[|[|[|j]]]]; try lia; now intros [= <- _]. }
  split; [exact H1 | split; [exact H2|]].
  exact (device_css_first_model_wins "kobo_extra.css" glo_hd 4 _ H1 H2).
Defined.

Lemma device_css_missing_test_witness :
  css_table glo_hd_old_calibre !! 0
  = Some (Py.Raise no_such_method, "kobo_extra_AURAH2O.css")
  /\ all_false_before 0 (css_table glo_hd_old_calibre)
  /\ Upload.device_css_file_name "kobo_extra.css" glo_hd_old_calibre
     = Py.Return "kobo_extra.css".
Proof.
  assert (H1 : css_table glo_hd_old_calibre !! 0
               = Some (Py.Raise no_such_method, "kobo_extra_AURAH2O.css"))
    by reflexivity.
  assert (H2 : all_false_before 0 (css_table glo_hd_old_calibre))
    by (intros j p name Hj; lia).
  split; [exact H1 | split; [exact H2|]].
  exact (device_css_missing_test "kobo_extra.css" glo_hd_old_calibre 0 _ _
           H1 H2).
Defined.

Lemma upload_sample_run :
  Upload.upload_books true "kobo_extra.css" true glo_hd sample_files
  = Py.Return
      {| Upload.configdir_css := Upload.configdir_css sample_files;
         Upload.device_css := Some "kobo_extra_GLOHD.css";
         Upload.kobo_config :=
           Some (with_page_numbers "true" sample_conf) |}.
Proof. rewrite upload_books_run. reflexivity. Defined.

Lemma upload_books_sets_page_numbers_witness :
  exists cfg',
    Some (with_page_numbers "true" sample_conf) = Some cfg'
    /\ cfg_get cfg' "FeatureSettings" "FullBookPageNumbers"
       = Some (Some "true")
    /\ cfg_get cfg' "FeatureSettings" "ShowFacebookShare"
       = cfg_get sample_conf "FeatureSettings" "ShowFacebookShare".
Proof.
  destruct (upload_books_sets_page_numbers "kobo_extra.css" true true glo_hd
              sample_files _ upload_sample_run)
    as (cfg' & Hcfg & Hflag & _ & Hother).
  exists cfg'. split; [exact Hcfg|]. split; [exact Hflag|].
  apply Hother. discriminate.
Defined.

Lemma upload_books_idempotent_witness :
  Upload.upload_books true "kobo_extra.css" true glo_hd
    {| Upload.configdir_css := Upload.configdir_css sample_files;
       Upload.device_css := Some "kobo_extra_GLOHD.css";
       Upload.kobo_config := Some (with_page_numbers "true" sample_conf) |}
  = Py.Return
      {| Upload.configdir_css := Upload.configdir_css sample_files;
         Upload.device_css := Some "kobo_extra_GLOHD.css";
         Upload.kobo_config :=
           Some (with_page_numbers "true" sample_conf) |}.
Proof.
  exact (upload_books_idempotent "kobo_extra.css" true true glo_hd
           sample_files _ upload_sample_run).
Defined.

Lemma upload_books_css_copy_witness :
  Upload.upload_books true "kobo_extra.css" true glo_hd sample_files
  = Py.Return
      {| Upload.configdir_css := Upload.configdir_css sample_files;
         Upload.device_css := Some "kobo_extra_GLOHD.css";
         Upload.kobo_config :=
           Some (with_page_numbers "true" sample_conf) |}
  /\ Upload.configdir_css
       {| Upload.configdir_css := Upload.configdir_css sample_files;
          Upload.device_css := Some "kobo_extra_GLOHD.css";
          Upload.kobo_config :=
            Some (with_page_numbers "true" sample_conf) |}
     = Upload.configdir_css sample_files.
Proof.
  assert (H : Upload.upload_books true "kobo_extra.css" true glo_hd
                sample_files
              = Py.Return
                  {| Upload.configdir_css := Upload.configdir_css sample_files;
                     Upload.device_css := Some "kobo_extra_GLOHD.css";
                     Upload.kobo_config :=
                       Some (with_page_numbers "true" sample_conf) |}).
  { rewrite upload_books_run. reflexivity. }
  split; [exact H|].
  exact (proj1 (upload_books_css_copy "kobo_extra.css" true true glo_hd
                  sample_files _ H)).
Defined.

(** ** [sync_booklists], further *)

Section ReconcileMore.
Import Reconcile.

Variable imageid_from_contentid : string -> string.

Lemma batches_count_step (n : nat) :
  0 < n -> S ((n - 100 + 99) / 100) = (n + 99) / 100.
Proof.
  intros Hn. destruct (le_lt_dec 100 n) as [Hge|Hlt].
  - replace (n + 99) with (n - 100 + 99 + 1 * 100) by lia.
    rewrite Nat.div_add by lia. lia.
  - replace (n - 100 + 99) with 99 by lia.
    rewrite (Nat.div_small 99 100) by lia.
    apply (Nat.div_unique (n + 99) 100 1 (n - 1)); lia.
Qed.

(** X13. Whatever the queue, the loop ends with it empty; the batches it hands
    to [executemany] are the queue cut up in order, each of 1 to 100
    pairs, every batch but the last of exactly 100, so there are
    [ceil(n / 100)] of them for a queue of [n]. *)
Theorem update_loop_drains_queue (nulls : list (string * string))
    (st : Store) :
  exists issued,
    update_loop nulls st
    = ({| rows := foldl executemany (rows st) issued;
          batches := batches st ++ issued |}, [])
    /\ concat issued = nulls
    /\ Forall (fun batch => 0 < length batch <= 100) issued
    /\ length issued = (length nulls + 99) / 100
    /\ (forall (i : nat) (batch : list (string * string)),
           issued !! i = Some batch ->
           S i < length issued ->
           length batch = 100).
Proof.
  remember (length nulls) as n eqn:Hn. revert nulls st Hn.
  induction n as [n IH] using lt_wf_ind. intros nulls st ->.
  destruct nulls as [|p nulls].
  - exists []. rewrite update_loop_empty, app_nil_r.
    destruct st; repeat split; try constructor.
    intros i batch H. discriminate H.
  - rewrite update_loop_turn by discriminate.
    edestruct (IH (length (drop 100 (p :: nulls))))
      as (issued & Hrun & Hcat & Hall & Hcount & Hfull);
      [rewrite length_drop; cbn; lia | reflexivity |].
    exists (take 100 (p :: nulls) :: issued). rewrite Hrun.
    cbn [rows batches].
    split; [now rewrite <- app_assoc|]. split; [|split; [|split]].
    + cbn [concat]. rewrite Hcat. apply take_drop.
    + constructor; [|exact Hall]. rewrite length_take, length_cons. lia.
    + cbn [length]. rewrite Hcount, length_drop.
      apply (batches_count_step (S (length nulls))). lia.
    + intros [|i] batch Hb Hi.
      * injection Hb as <-. cbn [length] in Hi.
        assert (0 < length issued) as Hpos by lia.
        rewrite Hcount, length_drop in Hpos.
        assert (100 < length (p :: nulls)).
        { destruct (le_lt_dec (length (p :: nulls)) 100) as [Hle|]; [|lia].
          replace (length (p :: nulls) - 100) with 0 in Hpos by lia.
          rewrite (Nat.div_small (0 + 99) 100) in Hpos by lia. lia. }
        change (length (take 100 (p :: nulls)) = 100).
        rewrite length_take. lia.
      * apply (Hfull i batch Hb). cbn [length] in Hi. lia.
Qed.

Lemma executemany_concat (db : list ContentRow)
    (issued : list (list (string * string))) :
  foldl executemany db issued = executemany db (concat issued).
Proof.
  revert db. induction issued as [|batch issued IH]; intros db;
    [reflexivity|].
  cbn [foldl concat]. rewrite IH. unfold executemany.
  now rewrite foldl_app.
Qed.

(** X14. Cutting the queue into batches changes nothing in what is written: the
    rows come out as if every pair had been applied in one pass. *)
Theorem batching_is_transparent (nulls : list (string * string))
    (st : Store) :
  rows (update_loop nulls st).1 = executemany (rows st) nulls.
Proof.
  destruct (update_loop_batches nulls st) as (issued & -> & Hcat & _).
  cbn. now rewrite executemany_concat, Hcat.
Qed.

Lemma executemany_rows (db : list ContentRow)
    (pairs : list (string * string)) :
  executemany db pairs = apply_pairs pairs <$> db.
Proof.
  unfold executemany. revert db.
  induction pairs as [|p pairs IH]; intros db; cbn [foldl].
  - unfold apply_pairs. cbn. now rewrite list_fmap_id.
  - rewrite IH. unfold update_query. rewrite <- list_fmap_compose.
    reflexivity.
Qed.

Lemma apply_pairs_keeps_id (pairs : list (string * string))
    (row : ContentRow) :
  ContentId (apply_pairs pairs row) = ContentId row
  /\ ContentType (apply_pairs pairs row) = ContentType row.
Proof.
  unfold apply_pairs. revert row.
  induction pairs as [|p pairs IH]; intros row; [now split|].
  cbn [foldl]. destruct (decide (ContentId row = p.2)); [|apply IH].
  exact (IH {| ContentId := ContentId row; ContentType := ContentType row;
               ImageId := Some p.1 |}).
Qed.

Lemma apply_pairs_image (pairs : list (string * string)) (row : ContentRow) :
  (forall p, p ∈ pairs -> p.1 = imageid_from_contentid p.2) ->
  ImageId (apply_pairs pairs row)
  = if decide (ContentId row ∈ pairs.*2)
    then Some (imageid_from_contentid (ContentId row))
    else ImageId row.
Proof.
  unfold apply_pairs. revert row.
  induction pairs as [|p pairs IH]; intros row Hform; [reflexivity|].
  cbn [foldl fmap list_fmap].
  assert (Hp : p.1 = imageid_from_contentid p.2)
    by (apply Hform, list_elem_of_here).
  assert (Hrest : forall q, q ∈ pairs -> q.1 = imageid_from_contentid q.2)
    by (intros q Hq; apply Hform; now apply list_elem_of_further).
  destruct (decide (ContentId row = p.2)) as [E|E]; rewrite IH by exact Hrest;
    cbn [ContentId ImageId].
  - destruct (decide (ContentId row ∈ p.2 :: pairs.*2)) as [_|Hn];
      [|exfalso; apply Hn; rewrite E; apply list_elem_of_here].
    destruct (decide (ContentId row ∈ pairs.*2)); [reflexivity|].
    now rewrite Hp, E.
  - destruct (decide (ContentId row ∈ pairs.*2)) as [Hin|Hn];
      destruct (decide (ContentId row ∈ p.2 :: pairs.*2)) as [Hin'|Hn'];
      try reflexivity.
    + exfalso. apply Hn'. now apply list_elem_of_further.
    + apply elem_of_cons in Hin' as [?|?]; [contradiction | contradiction].
Qed.

Lemma queue_nulls_ids (all_nulls : gmap string nat)
    (booklists : list (list Book)) (cid : string) :
  cid ∈ (queue_nulls imageid_from_contentid all_nulls booklists).*2
  <-> queued_id all_nulls booklists cid.
Proof.
  rewrite queue_nulls_filter. unfold queued_id. split.
  - intros (p & -> & (b & -> & Hb)%list_elem_of_fmap)%list_elem_of_fmap.
    apply list_elem_of_filter in Hb as [Hq Hb].
    apply elem_of_concat in Hb as (booklist & ? & ?).
    exists booklist, b. auto.
  - intros (booklist & b & Hbl & Hb & Hq & <-).
    apply list_elem_of_fmap.
    exists (null_pair imageid_from_contentid b). split; [reflexivity|].
    apply list_elem_of_fmap_2, list_elem_of_filter. split; [exact Hq|].
    apply elem_of_concat. eauto.
Qed.

Lemma queue_nulls_form (all_nulls : gmap string nat)
    (booklists : list (list Book)) (p : string * string) :
  p ∈ queue_nulls imageid_from_contentid all_nulls booklists ->
  p.1 = imageid_from_contentid p.2.
Proof.
  rewrite queue_nulls_filter.
  now intros (b & -> & _)%list_elem_of_fmap.
Qed.

Lemma sync_booklists_rows (db : list ContentRow)
    (booklists : list (list Book)) :
  rows (sync_booklists true imageid_from_contentid db booklists).1
  = apply_pairs (queue_nulls imageid_from_contentid
                   (rows_needing_imageid db) booklists) <$> db.
Proof.
  unfold sync_booklists.
  destruct (update_loop_batches
              (queue_nulls imageid_from_contentid (rows_needing_imageid db)
                 booklists) {| rows := db; batches := [] |})
    as (issued & -> & Hcat & _).
  cbn [fst rows]. rewrite executemany_concat, Hcat.
  apply executemany_rows.
Qed.

(** One row of the table after the method has run. *)
Lemma sync_booklists_row (db : list ContentRow)
    (booklists : list (list Book)) (i : nat) (row : ContentRow) :
  db !! i = Some row ->
  exists row',
    rows (sync_booklists true imageid_from_contentid db booklists).1 !! i
    = Some row'
    /\ ContentId row' = ContentId row
    /\ ContentType row' = ContentType row
    /\ (queued_id (rows_needing_imageid db) booklists (ContentId row) ->
        ImageId row' = Some (imageid_from_contentid (ContentId row)))
    /\ (~ queued_id (rows_needing_imageid db) booklists (ContentId row) ->
        ImageId row' = ImageId row).
Proof.
  intros Hrow. rewrite sync_booklists_rows.
  eexists. rewrite list_lookup_fmap, Hrow.
  split; [reflexivity|].
  destruct (apply_pairs_keeps_id
              (queue_nulls imageid_from_contentid (rows_needing_imageid db)
                 booklists) row)
    as [Hid Hty].
  split; [exact Hid|]. split; [exact Hty|].
  rewrite apply_pairs_image by apply queue_nulls_form.
  split; intros Hq.
  - rewrite decide_True; [reflexivity | now apply queue_nulls_ids].
  - rewrite decide_False; [reflexivity|].
    intros Hin. now apply Hq, queue_nulls_ids.
Qed.

(** X15. After the method has run with [upload_covers] on, the table has the
    same rows, with their content ids and content types; a row whose
    content id is that of a queued book (one with an application id, whose
    content id is in the mapping of rows lacking an image id) has the image
    id computed from its content id, and every other row has the image id
    it had. *)
Theorem sync_booklists_assigns_image_ids (db : list ContentRow)
    (booklists : list (list Book)) :
  let all_nulls := rows_needing_imageid db in
  let db' :=
    rows (sync_booklists true imageid_from_contentid db booklists).1 in
  length db' = length db
  /\ (forall (i : nat) (row : ContentRow),
         db !! i = Some row ->
         exists row',
           db' !! i = Some row'
           /\ ContentId row' = ContentId row
           /\ ContentType row' = ContentType row
           /\ (queued_id all_nulls booklists (ContentId row) ->
               ImageId row'
               = Some (imageid_from_contentid (ContentId row)))
           /\ (~ queued_id all_nulls booklists (ContentId row) ->
               ImageId row' = ImageId row)).
Proof.
  intros all_nulls db'. unfold db'. split.
  - rewrite sync_booklists_rows. apply length_fmap.
  - intros i row Hrow. now apply sync_booklists_row.
Qed.

Lemma select_query_spec (db : list ContentRow) (content_type : Z)
    (cid : string) :
  cid ∈ select_query db content_type
  <-> exists row,
        row ∈ db /\ ContentId row = cid /\ ContentType row = content_type
        /\ (ImageId row = None \/ ImageId row = Some "").
Proof.
  unfold select_query. rewrite list_elem_of_fmap. split.
  - intros (row & -> & [[? ?] ?]%list_elem_of_filter). eauto 6.
  - intros (row & Hin & <- & Hty & Himg). exists row.
    split; [reflexivity|]. apply list_elem_of_filter. auto.
Qed.

(** X16. If no book gets the empty string as its image id, running the method
    again on the same booklists finds nothing to do: no update is issued
    and the table stays as the first run left it. *)
Theorem sync_booklists_again_is_idle (db : list ContentRow)
    (booklists : list (list Book)) :
  (forall booklist b,
      booklist ∈ booklists -> b ∈ booklist ->
      imageid_from_contentid (contentID b) <> "") ->
  let db' :=
    rows (sync_booklists true imageid_from_contentid db booklists).1 in
  sync_booklists true imageid_from_contentid db' booklists
  = ({| rows := db'; batches := [] |}, []).
Proof.
  intros Hne db'.
  enough (Hq : queue_nulls imageid_from_contentid (rows_needing_imageid db')
                 booklists = []).
  { unfold sync_booklists at 1. rewrite Hq. apply update_loop_empty. }
  rewrite queue_nulls_filter.
  destruct (filter (queued (rows_needing_imageid db')) (concat booklists))
    as [|b bs] eqn:E; [reflexivity|]. exfalso.
  assert (Hb : b ∈ filter (queued (rows_needing_imageid db'))
                 (concat booklists)) by (rewrite E; apply list_elem_of_here).
  apply list_elem_of_filter in Hb as [[Happ Hnull] Hb].
  apply elem_of_concat in Hb as (booklist & Hbl & Hb).
  apply (rows_needing_imageid_lookup imageid_from_contentid) in Hnull.
  apply select_query_spec in Hnull as (row' & Hrow' & Hcid & Hty & Himg).
  apply list_elem_of_lookup in Hrow' as [i Hi].
  assert (Hlen : length db' = length db)
    by (unfold db'; rewrite sync_booklists_rows; apply length_fmap).
  destruct (lookup_lt_is_Some_2 db i) as [row Hrow].
  { rewrite <- Hlen. now apply lookup_lt_Some in Hi. }
  destruct (sync_booklists_row db booklists i row Hrow)
    as (row'' & Hi' & Hid & Hty' & Hyes & Hno).
  fold db' in Hi'. rewrite Hi in Hi'. injection Hi' as <-.
  assert (Hdec : queued_id (rows_needing_imageid db) booklists
                   (ContentId row)
                 \/ ~ queued_id (rows_needing_imageid db) booklists
                       (ContentId row)).
  { destruct (decide (ContentId row
                      ∈ (queue_nulls imageid_from_contentid
                           (rows_needing_imageid db) booklists).*2))
      as [Hin|Hin]; [left | right; intros Hq; apply Hin];
      now apply queue_nulls_ids. }
  destruct Hdec as [Hq|Hq].
  { rewrite (Hyes Hq) in Himg. destruct Himg as [Himg|Himg];
      [discriminate | injection Himg as Himg].
    apply (Hne booklist b Hbl Hb). now rewrite <- Hcid, Hid. }
  apply Hq. exists booklist, b.
  split; [exact Hbl|]. split; [exact Hb|]. split; [|congruence].
  split; [exact Happ|].
  apply (proj2 (rows_needing_imageid_lookup imageid_from_contentid db
                  (contentID b))).
  apply (proj2 (select_query_spec db content_types_main (contentID b))).
  exists row. rewrite <- (Hno Hq), <- Hid, <- Hty'.
  split; [now apply list_elem_of_lookup_2 in Hrow | auto].
Qed.

End ReconcileMore.

Lemma sync_booklists_again_is_idle_witness :
  (forall booklist b,
      booklist ∈ [[unknown_book]; [known_book]] -> b ∈ booklist ->
      underscored (Reconcile.contentID b) <> "")
  /\ Reconcile.sync_booklists true underscored
       (Reconcile.rows
          (Reconcile.sync_booklists true underscored sample_db
             [[unknown_book]; [known_book]]).1)
       [[unknown_book]; [known_book]]
     = ({| Reconcile.rows :=
             Reconcile.rows
               (Reconcile.sync_booklists true underscored sample_db
                  [[unknown_book]; [known_book]]).1;
           Reconcile.batches := [] |}, []).
Proof.
  assert (H : forall booklist b,
             booklist ∈ [[unknown_book]; [known_book]] -> b ∈ booklist ->
             underscored (Reconcile.contentID b) <> "").
  { intros booklist b Hbl Hb.
    repeat (apply elem_of_cons in Hbl as [->|Hbl]);
      try (now apply elem_of_nil in Hbl);
      (apply elem_of_cons in Hb as [->|Hb];
       [discriminate | now apply elem_of_nil in Hb]). }
  split; [exact H|].
  exact (sync_booklists_again_is_idle underscored sample_db
           [[unknown_book]; [known_book]] H).
Defined.

(** ** [migrate_old_settings], further *)

Section MigrationMore.
Import Py Migration.

Variable super_migrate_old_settings : Settings -> Settings.

Lemma migrate_skipped (settings : Settings) :
  length (extra_customization (super_migrate_old_settings settings)) < 8 ->
  migrate_old_settings super_migrate_old_settings settings
  = Return (super_migrate_old_settings settings).
Proof.
  intros Hlen. unfold migrate_old_settings. cbn [Nat.add].
  destruct (Nat.leb_spec 8
              (length (extra_customization
                         (super_migrate_old_settings settings))))
    as [Hge|_]; [lia | reflexivity].
Qed.

Lemma at_least_eight (ec : list pyval) :
  8 <= length ec ->
  exists v0 v1 v2 v3 v4 v5 v6 v7 rest,
    ec = v0 :: v1 :: v2 :: v3 :: v4 :: v5 :: v6 :: v7 :: rest.
Proof.
  intros Hlen.
  destruct ec as [|v0 [|v1 [|v2 [|v3 [|v4 [|v5 [|v6 [|v7 rest]]]]]]]];
    cbn in Hlen; try lia.
  now exists v0, v1, v2, v3, v4, v5, v6, v7, rest.
Qed.

Lemma migrate_returns (settings : Settings) :
  let ec := extra_customization (super_migrate_old_settings settings) in
  exists settings',
    migrate_old_settings super_migrate_old_settings settings
    = Return settings'
    /\ extra_customization settings'
       = if decide (length ec < 8) then ec else drop 9 ec.
Proof.
  intros ec. destruct (decide (length ec < 8)) as [Hlt|Hge].
  - exists (super_migrate_old_settings settings).
    split; [now apply migrate_skipped | reflexivity].
  - destruct (at_least_eight ec ltac:(lia))
      as (v0 & v1 & v2 & v3 & v4 & v5 & v6 & v7 & rest & Hec).
    eexists. split.
    + apply (migrate_at_threshold super_migrate_old_settings settings
               v0 v1 v2 v3 v4 v5 v6 v7 rest Hec).
    + cbn [extra_customization]. now rewrite Hec.
Qed.

(** X17. The method never raises, whatever the list holds and however long it
    is: every [IndexError] is caught. The list that comes back is the old
    one if that has fewer than 8 elements, and the old one without its
    first 9 elements otherwise. *)
Theorem migrate_never_raises (settings : Settings) :
  exists settings',
    migrate_old_settings super_migrate_old_settings settings
    = Return settings'
    /\ (length (extra_customization (super_migrate_old_settings settings)) < 8
        -> settings' = super_migrate_old_settings settings)
    /\ (8 <= length (extra_customization
                       (super_migrate_old_settings settings))
        -> extra_customization settings'
           = drop 9 (extra_customization
                       (super_migrate_old_settings settings))).
Proof.
  destruct (migrate_returns settings) as (settings' & Hrun & Hec).
  exists settings'. split; [exact Hrun|]. split; intros Hlen.
  - rewrite (migrate_skipped settings Hlen) in Hrun. now injection Hrun.
  - now rewrite decide_False in Hec by lia.
Qed.

(** X18. After a migration that takes place, [file_copy_dir] is a [str] or
    [None], whatever the stored list held at its place. *)
Theorem migrate_file_copy_dir_is_text_or_none (settings settings' : Settings) :
  8 <= length (extra_customization (super_migrate_old_settings settings)) ->
  migrate_old_settings super_migrate_old_settings settings
  = Return settings' ->
  file_copy_dir settings' = PyNone
  \/ isinstance_str (file_copy_dir settings') = true.
Proof.
  intros Hlen.
  destruct (at_least_eight _ Hlen)
    as (v0 & v1 & v2 & v3 & v4 & v5 & v6 & v7 & rest & Hec).
  rewrite (migrate_at_threshold super_migrate_old_settings settings
             v0 v1 v2 v3 v4 v5 v6 v7 rest Hec).
  intros [= <-]. cbn [file_copy_dir].
  destruct (isinstance_str v7) eqn:E; [now right | now left].
Qed.

(** X19. Migrating again, when the inherited migration leaves the settings as
    they are. A list of fewer than 17 elements is migrated at most once:
    what the first run returns the second returns unchanged. *)
Theorem migrate_again_short (settings settings' : Settings) :
  (forall s, super_migrate_old_settings s = s) ->
  length (extra_customization settings) < 17 ->
  migrate_old_settings super_migrate_old_settings settings
  = Return settings' ->
  migrate_old_settings super_migrate_old_settings settings'
  = Return settings'.
Proof.
  intros Hid Hlen Hrun.
  destruct (migrate_returns settings) as (s1 & Hrun1 & Hec).
  rewrite Hrun in Hrun1. injection Hrun1 as <-.
  rewrite Hid in Hec.
  rewrite migrate_skipped; rewrite Hid; [reflexivity|].
  rewrite Hec. destruct (decide (length (extra_customization settings) < 8));
    [assumption | rewrite length_drop; lia].
Qed.

(** X20. A list of 17 elements or more is migrated a second time: the second
    run reads its options from the elements left over by the first, from
    index 9 on, and drops 9 elements more. *)
Theorem migrate_again_long (settings settings' : Settings) :
  (forall s, super_migrate_old_settings s = s) ->
  17 <= length (extra_customization settings) ->
  migrate_old_settings super_migrate_old_settings settings
  = Return settings' ->
  exists settings'',
    migrate_old_settings super_migrate_old_settings settings'
    = Return settings''
    /\ extra_customization settings''
       = drop 18 (extra_customization settings)
    /\ Some (extra_features settings'') = extra_customization settings !! 9.
Proof.
  intros Hid Hlen Hrun.
  destruct (migrate_returns settings) as (s1 & Hrun1 & Hec).
  rewrite Hrun in Hrun1. injection Hrun1 as <-.
  rewrite Hid in Hec. rewrite decide_False in Hec by lia.
  assert (Hlen' : 8 <= length (extra_customization
                                 (super_migrate_old_settings settings'))).
  { rewrite Hid, Hec, length_drop. lia. }
  destruct (at_least_eight _ Hlen')
    as (v0 & v1 & v2 & v3 & v4 & v5 & v6 & v7 & rest & Hec').
  eexists. split.
  - apply (migrate_at_threshold super_migrate_old_settings settings'
             v0 v1 v2 v3 v4 v5 v6 v7 rest Hec').
  - rewrite Hid, Hec in Hec'. cbn [extra_customization extra_features].
    split.
    + change 18 with (9 + 9). rewrite <- drop_drop, Hec'. reflexivity.
    + rewrite <- (Nat.add_0_r 9), <- lookup_drop, Hec'. reflexivity.
Qed.

End MigrationMore.

Lemma migrate_file_copy_dir_is_text_or_none_witness :
  8 <= length (Migration.extra_customization (id (legacy (flags 8))))
  /\ Migration.migrate_old_settings id (legacy (flags 8))
     = Py.Return
         (Migration.mk_settings [] (Migration.PyBool true)
            (Migration.PyBool true) (Migration.PyBool true)
            (Migration.PyBool true) (Migration.PyBool true)
            (Migration.PyBool true) (Migration.PyBool true)
            Migration.PyNone Migration.PyNone)
  /\ (Migration.PyNone = Migration.PyNone
      \/ Migration.isinstance_str Migration.PyNone = true).
Proof.
  assert (H1 : 8 <= length (Migration.extra_customization
                              (id (legacy (flags 8))))) by (cbn; lia).
  assert (H2 : Migration.migrate_old_settings id (legacy (flags 8))
               = Py.Return
                   (Migration.mk_settings [] (Migration.PyBool true)
                      (Migration.PyBool true) (Migration.PyBool true)
                      (Migration.PyBool true) (Migration.PyBool true)
                      (Migration.PyBool true) (Migration.PyBool true)
                      Migration.PyNone Migration.PyNone))
    by (vm_compute; reflexivity).
  split; [exact H1 | split; [exact H2|]].
  exact (migrate_file_copy_dir_is_text_or_none id (legacy (flags 8)) _ H1 H2).
Defined.

Lemma migrate_again_short_witness :
  (forall s : Migration.Settings, id s = s)
  /\ length (Migration.extra_customization (legacy (flags 12))) < 17
  /\ Migration.migrate_old_settings id
       (Migration.mk_settings (flags 3) (Migration.PyBool true)
          (Migration.PyBool true) (Migration.PyBool true)
          (Migration.PyBool true) (Migration.PyBool true)
          (Migration.PyBool true) (Migration.PyBool true)
          Migration.PyNone (Migration.PyBool true))
     = Py.Return
         (Migration.mk_settings (flags 3) (Migration.PyBool true)
            (Migration.PyBool true) (Migration.PyBool true)
            (Migration.PyBool true) (Migration.PyBool true)
            (Migration.PyBool true) (Migration.PyBool true)
            Migration.PyNone (Migration.PyBool true)).
Proof.
  assert (H1 : forall s : Migration.Settings, id s = s) by reflexivity.
  assert (H2 : length (Migration.extra_customization (legacy (flags 12)))
               < 17) by (cbn; lia).
  assert (H3 : Migration.migrate_old_settings id (legacy (flags 12))
               = Py.Return
                   (Migration.mk_settings (flags 3) (Migration.PyBool true)
                      (Migration.PyBool true) (Migration.PyBool true)
                      (Migration.PyBool true) (Migration.PyBool true)
                      (Migration.PyBool true) (Migration.PyBool true)
                      Migration.PyNone (Migration.PyBool true)))
    by (vm_compute; reflexivity).
  split; [exact H1 | split; [exact H2|]].
  exact (migrate_again_short id (legacy (flags 12)) _ H1 H2 H3).
Defined.

Lemma migrate_again_long_witness :
  (forall s : Migration.Settings, id s = s)
  /\ 17 <= length (Migration.extra_customization (legacy (flags 20)))
  /\ exists settings'',
       Migration.migrate_old_settings id
         (Migration.mk_settings (flags 11) (Migration.PyBool true)
            (Migration.PyBool true) (Migration.PyBool true)
            (Migration.PyBool true) (Migration.PyBool true)
            (Migration.PyBool true) (Migration.PyBool true)
            Migration.PyNone (Migration.PyBool true))
       = Py.Return settings''
       /\ Migration.extra_customization settings'' = flags 2.
Proof.
  assert (H1 : forall s : Migration.Settings, id s = s) by reflexivity.
  assert (H2 : 17 <= length (Migration.extra_customization
                               (legacy (flags 20)))) by (cbn; lia).
  assert (H3 : Migration.migrate_old_settings id (legacy (flags 20))
               = Py.Return
                   (Migration.mk_settings (flags 11) (Migration.PyBool true)
                      (Migration.PyBool true) (Migration.PyBool true)
                      (Migration.PyBool true) (Migration.PyBool true)
                      (Migration.PyBool true) (Migration.PyBool true)
                      Migration.PyNone (Migration.PyBool true)))
    by (vm_compute; reflexivity).
  split; [exact H1 | split; [exact H2|]].
  destruct (migrate_again_long id (legacy (flags 20)) _ H1 H2 H3)
    as (s2 & Hrun & Hec & _).
  exists s2. split; [exact Hrun | exact Hec].
Defined.

(** ** [filename_callback], further *)

Section NamingMore.
Import PyStr Naming.

(** X21. With [extra_features] on, the name that comes back never ends in a
    bare [".kepub"], and it ends in [".epub"] exactly when the path handed
    in ends in [".epub"] or in [".kepub"]: no other file is given the
    packaged extension, and none loses it. *)
Theorem filename_callback_result_extension (skip : gset string)
    (path : string) (mi : Metadata) :
  endswith (filename_callback true skip path mi) KEPUB_EXT = false
  /\ endswith (filename_callback true skip path mi) EPUB_EXT
     = endswith path EPUB_EXT || endswith path KEPUB_EXT.
Proof.
  unfold filename_callback.
  destruct (endswith path KEPUB_EXT) eqn:Ek.
  - rewrite endswith_epub_not_kepub, endswith_epub.
    split; [reflexivity | now rewrite orb_true_r].
  - destruct (endswith path EPUB_EXT) eqn:Ee; cbn [andb].
    + destruct (bool_decide (uuid mi ∉ skip)).
      * rewrite <- string_app_assoc.
        rewrite endswith_epub_not_kepub, endswith_epub. now split.
      * rewrite Ek, Ee. now split.
    + rewrite Ek, Ee. now split.
Qed.

End NamingMore.

(** ** [_modify_epub], further *)

Section TransformGrowth.
Import PyStr Py Transform.

Variable id : string.

Lemma extends_refl (st : DriverState) : extends id st st.
Proof. split; [now left | exists []; now rewrite app_nil_r]. Qed.

Lemma extends_trans (st1 st2 st3 : DriverState) :
  extends id st1 st2 -> extends id st2 st3 -> extends id st1 st3.
Proof.
  intros [Hs1 [l1 Hc1]] [Hs2 [l2 Hc2]]. split.
  - destruct Hs1 as [Hs1|Hs1], Hs2 as [Hs2|Hs2]; rewrite Hs2, Hs1;
      [now left | now right | now right |].
    right. now rewrite (assoc_L (∪)), (idemp_L (∪)).
  - exists (l1 ++ l2). now rewrite Hc2, Hc1, app_assoc.
Qed.

Lemma grows_ret {A : Type} (a : A) : grows id (mret a : M A).
Proof. intros st. apply extends_refl. Qed.

Lemma grows_raise {A : Type} (e : exn) : grows id (raise e : M A).
Proof. intros st. apply extends_refl. Qed.

Lemma grows_lift {A : Type} (o : outcome A) : grows id (lift o).
Proof. intros st. apply extends_refl. Qed.

Lemma grows_call {A : Type} (c : Call) (answer : outcome A) :
  grows id (call c answer).
Proof. intros st. split; [now left | now exists [c]]. Qed.

Lemma grows_add : grows id (skip_renaming_files_add id).
Proof.
  intros st. split; [now right | exists []; cbn; now rewrite app_nil_r].
Qed.

Lemma grows_bind {A B : Type} (m : M A) (f : A -> M B) :
  grows id m -> (forall a, grows id (f a)) -> grows id (m ≫= f).
Proof.
  intros Hm Hf st. unfold mbind, M_bind. specialize (Hm st).
  destruct (m st) as [[a|e] st1]; [|exact Hm].
  exact (extends_trans _ _ _ Hm (Hf a st1)).
Qed.

Lemma grows_try {A : Type} (body : M A) (handler : exn -> M A) :
  grows id body -> (forall e, grows id (handler e)) ->
  grows id (try_except body handler).
Proof.
  intros Hb Hh st. unfold try_except. specialize (Hb st).
  destruct (body st) as [[a|e] st1]; [exact Hb|].
  destruct (isinstance_Exception e); [|exact Hb].
  exact (extends_trans _ _ _ Hb (Hh e st1)).
Qed.

End TransformGrowth.

(** Takes a goal [grows id m] apart along the structure of [m]. *)
Ltac grow :=
  repeat first
    [ apply grows_ret | apply grows_raise | apply grows_lift
    | apply grows_call | apply grows_add
    | apply grows_bind; [|intros ?]
    | apply grows_try; [|intros ?]
    | match goal with
      | |- grows _ (if ?b then _ else _) => destruct b
      | |- grows _ (match ?x with _ => _ end) => destruct x
      | |- grows _ (let '(_, _) := ?x in _) => destruct x
      end ].

Section TransformSession.
Import PyStr Py Transform.

(** X22. Whatever happens to a book, also when the method raises, all it
    does to [skip_renaming_files] is to add the book's own id, or nothing:
    no book ever leaves the set, and no other book enters it. The calls
    made before stay as they were, those of the method coming after
    them. *)
Theorem modify_epub_only_adds (h : Host) (self : Prefs) (infile : string)
    (metadata : Metadata) (container : option Container)
    (st : DriverState) :
  let st' := (_modify_epub h self infile metadata container st).2 in
  (skip_renaming_files st' = skip_renaming_files st
   \/ skip_renaming_files st' = {[uuid metadata]} ∪ skip_renaming_files st)
  /\ exists new, calls st' = calls st ++ new.
Proof.
  revert st. change (grows (uuid metadata)
                       (_modify_epub h self infile metadata container)).
  unfold _modify_epub, super__modify_epub, inject_and_transform,
    copy_to_file_copy_dir.
  grow.
Qed.

End TransformSession.

Section TransformMore.
Import PyStr Py Transform.

Variable h : Host.
Variable self : Prefs.
Variable infile : string.
Variable metadata : Metadata.

(** A clear probe always has a container to go on with. *)
Lemma drm_probe_clear (container container' : option Container) :
  drm_probe h infile container = Return (container', false) ->
  exists c, container' = Some c.
Proof.
  unfold drm_probe. destruct container as [c|].
  - cbn. intros [= <- _]. now exists c.
  - destruct (KEPubContainer h infile) as [c|e]; cbn.
    + intros [= <-]. now exists c.
    + destruct (decide (exn_cls e = DRMError)); discriminate.
Qed.

(** The probe raised: the method raises the same, and that is all. *)
Lemma probe_error_path (container : option Container)
    (opts : Migration.Settings) (st : DriverState) (e : exn) :
  endswith infile EPUB_EXT = true ->
  self_settings h = Return opts ->
  drm_probe h infile container = Raise e ->
  _modify_epub h self infile metadata container st = (Raise e, st).
Proof.
  intros Hext Hset Hprobe. unfold _modify_epub. rewrite Hext. run_M.
  rewrite Hset. run_M. now rewrite Hprobe.
Qed.

(** The copy to [file_copy_dir] raised. *)
Lemma copy_error_path (container : option Container)
    (opts : Migration.Settings) (c : Container)
    (st st1 st2 : DriverState) (e : exn) :
  endswith infile EPUB_EXT = true ->
  self_settings h = Return opts ->
  drm_probe h infile container = Return (Some c, false) ->
  inject_and_transform h self opts infile metadata (Some c) st
  = (Return (), st1) ->
  copy_to_file_copy_dir h self infile metadata
    (if extra_features self then st1 else marked metadata st1)
  = (Raise e, st2) ->
  _modify_epub h self infile metadata container st = (Raise e, st2).
Proof.
  intros Hext Hset Hprobe Hbody Hcopy. unfold _modify_epub. rewrite Hext.
  run_M. rewrite Hset. run_M. rewrite Hprobe. run_M. rewrite Hbody.
  destruct (extra_features self); run_M; unfold marked in Hcopy;
    cbn in Hcopy; now rewrite Hcopy.
Qed.

(** What the body of the [try] does to the session: it marks no book, and
    the calls it adds are the embedding and the transformer, the second
    being there whenever the body returns. *)
Lemma inject_and_transform_effect (opts : Migration.Settings)
    (container : option Container) (st st1 : DriverState) (o : outcome ()) :
  inject_and_transform h self opts infile metadata container st = (o, st1) ->
  skip_renaming_files st1 = skip_renaming_files st
  /\ exists l,
       calls st1 = calls st ++ l
       /\ Forall (fun c => is_commit c = false /\ is_super c = false) l
       /\ (o = Return () ->
           exists c, container = Some c
                     /\ ModifyEpub c infile (transform_opts self) ∈ l).
Proof.
  unfold inject_and_transform. run_M.
  destruct (driver_info h opts) as [o1|e]; run_M;
    [|intros [= <- <-]; split; [reflexivity|]; exists [];
      rewrite app_nil_r; repeat split; [constructor | discriminate]].
  destruct (kte_data_file h o1) as [name|e]; run_M;
    [|intros [= <- <-]; split; [reflexivity|]; exists [];
      rewrite app_nil_r; repeat split; [constructor | discriminate]].
  destruct container as [c|]; run_M;
    [|intros [= <- <-]; split; [reflexivity|]; exists [];
      rewrite app_nil_r; repeat split; [constructor | discriminate]].
  destruct (copy_file_to_container h c name) as [[]|e]; run_M.
  - intros [= <- <-]. cbn. split; [reflexivity|].
    exists [CopyFileToContainer c o1 "driverinfo.kte" "application/json";
            ModifyEpub c infile (transform_opts self)].
    split; [now rewrite <- app_assoc|]. split; [repeat constructor|].
    intros _. exists c. split; [reflexivity|].
    apply list_elem_of_further, list_elem_of_here.
  - intros [= <- <-]. cbn. split; [reflexivity|].
    exists [CopyFileToContainer c o1 "driverinfo.kte" "application/json"].
    split; [reflexivity|]. split; [repeat constructor | discriminate].
Qed.

Lemma copy_to_file_copy_dir_effect (st st2 : DriverState) (o : outcome ()) :
  copy_to_file_copy_dir h self infile metadata st = (o, st2) ->
  skip_renaming_files st2 = skip_renaming_files st
  /\ exists l,
       calls st2 = calls st ++ l
       /\ Forall (fun c => is_commit c = false /\ is_super c = false) l.
Proof.
  unfold copy_to_file_copy_dir.
  destruct (negb (default "" (file_copy_dir self) =? "")%string); run_M;
    intros [= <- <-]; cbn; (split; [reflexivity|]).
  - eexists [_]. split; [reflexivity | repeat constructor].
  - exists []. now rewrite app_nil_r.
Qed.

(** Every run on a file with the packaged extension is of one of six
    kinds: [settings()] raised; the probe raised; the book was found
    encumbered; the body of the [try] raised; the copy to [file_copy_dir]
    raised; or all this went through and the inherited method was
    called. *)
Lemma modify_epub_cases (container : option Container) (st : DriverState) :
  endswith infile EPUB_EXT = true ->
  (exists e,
      self_settings h = Raise e
      /\ _modify_epub h self infile metadata container st = (Raise e, st))
  \/ exists opts,
       self_settings h = Return opts
       /\ ((exists e,
               drm_probe h infile container = Raise e
               /\ _modify_epub h self infile metadata container st
                  = (Raise e, st))
           \/ (exists container',
                  drm_probe h infile container = Return (container', true)
                  /\ _modify_epub h self infile metadata container st
                     = if upload_encumbered self
                       then (super_modify_epub h infile metadata container',
                             called (SuperModifyEpub infile container')
                               (marked metadata st))
                       else (Return false, marked metadata st))
           \/ (exists c st1 e,
                  drm_probe h infile container = Return (Some c, false)
                  /\ inject_and_transform h self opts infile metadata
                       (Some c) st
                     = (Raise e, st1)
                  /\ _modify_epub h self infile metadata container st
                     = if isinstance_Exception e then
                         match getattr_message (python h) e with
                         | Raise e' => (Raise e', st1)
                         | Return _ =>
                             if skip_failed self
                             then (super_modify_epub h infile metadata
                                     (Some c),
                                   called (SuperModifyEpub infile (Some c))
                                     (marked metadata st1))
                             else (Raise e, st1)
                         end
                       else (Raise e, st1))
           \/ (exists c st1 st2 e,
                  drm_probe h infile container = Return (Some c, false)
                  /\ inject_and_transform h self opts infile metadata
                       (Some c) st
                     = (Return (), st1)
                  /\ copy_to_file_copy_dir h self infile metadata
                       (if extra_features self then st1
                        else marked metadata st1)
                     = (Raise e, st2)
                  /\ _modify_epub h self infile metadata container st
                     = (Raise e, st2))
           \/ (exists c st1 st2,
                  drm_probe h infile container = Return (Some c, false)
                  /\ inject_and_transform h self opts infile metadata
                       (Some c) st
                     = (Return (), st1)
                  /\ copy_to_file_copy_dir h self infile metadata
                       (if extra_features self then st1
                        else marked metadata st1)
                     = (Return (), st2)
                  /\ _modify_epub h self infile metadata container st
                     = match super_modify_epub h infile metadata (Some c) with
                       | Return true =>
                           (commit h c infile ≫= (fun _ => Return true),
                            called (Commit c infile)
                              (called (SuperModifyEpub infile (Some c)) st2))
                       | Return false =>
                           (Return false,
                            called (SuperModifyEpub infile (Some c)) st2)
                       | Raise e =>
                           (Raise e,
                            called (SuperModifyEpub infile (Some c)) st2)
                       end)).
Proof.
  intros Hext.
  destruct (self_settings h) as [opts|e0] eqn:Hset;
    [right; exists opts; split; [reflexivity|]
    |left; exists e0; split; [reflexivity|];
     now apply settings_error_path].
  destruct (drm_probe h infile container) as [[container' [|]]|e] eqn:Hprobe.
  - right; left. exists container'. split; [reflexivity|].
    now apply (encumbered_path h self infile metadata container container'
                 opts).
  - destruct (drm_probe_clear _ _ Hprobe) as [c ->].
    destruct (inject_and_transform h self opts infile metadata (Some c) st)
      as [[[]|e] st1] eqn:Hbody.
    + destruct (copy_to_file_copy_dir h self infile metadata
                  (if extra_features self then st1 else marked metadata st1))
        as [[[]|e] st2] eqn:Hcopy.
      * do 4 right. exists c, st1, st2. repeat split; try assumption.
        now apply (transform_path h self infile metadata container opts c
                     st st1).
      * do 3 right; left. exists c, st1, st2, e.
        repeat split; try assumption.
        now apply (copy_error_path container opts c st st1).
    + do 2 right; left. exists c, st1, e. repeat split; try assumption.
      now apply (failure_path h self infile metadata container (Some c)
                   opts).
  - left. exists e. split; [reflexivity|].
    now apply (probe_error_path container opts).
Qed.

End TransformMore.

Section TransformExtras.
Import PyStr Py Transform Naming.

Variable h : Host.
Variable self : Prefs.
Variable infile : string.
Variable metadata : Metadata.

Lemma filename_callback_renames (extra_features : bool) (skip : gset string)
    (path : string) (mi : Metadata) :
  endswith path EPUB_EXT = true ->
  filename_callback extra_features skip path mi <> path ->
  extra_features = true /\ uuid mi ∉ skip.
Proof.
  intros [stem ->]%endswith_spec Hneq.
  destruct extra_features; [|now destruct Hneq].
  rewrite filename_callback_epub_path in Hneq.
  destruct (bool_decide (uuid mi ∉ skip)) eqn:E; [|now destruct Hneq].
  split; [reflexivity | now apply bool_decide_eq_true_1 in E].
Qed.

(** X23. A book gets the kepub name only if it has been transformed: when the
    method has returned and [filename_callback], on the set the method
    leaves, changes a path ending in [".epub"], then [settings()] returned,
    the book was found clear of DRM, the record was embedded and the
    transformer was called and returned. *)
Theorem kepub_name_only_after_transform (container : option Container)
    (st st' : DriverState) (retval : bool) (path : string) :
  endswith infile EPUB_EXT = true ->
  _modify_epub h self infile metadata container st = (Return retval, st') ->
  endswith path EPUB_EXT = true ->
  filename_callback (extra_features self) (skip_renaming_files st') path
    metadata <> path ->
  exists opts c st1,
    self_settings h = Return opts
    /\ drm_probe h infile container = Return (Some c, false)
    /\ inject_and_transform h self opts infile metadata (Some c) st
       = (Return (), st1)
    /\ ModifyEpub c infile (transform_opts self) ∈ calls st'.
Proof.
  intros Hext Hrun Hpath Hneq.
  destruct (filename_callback_renames _ _ _ _ Hpath Hneq) as [Hef Hnot].
  assert (Hmarked : forall s, uuid metadata
                              ∈ skip_renaming_files (marked metadata s))
    by (intros s; cbn; set_solver).
  destruct (modify_epub_cases h self infile metadata container st Hext)
    as [(e & _ & Hr)|(opts & Hset & [(e & _ & Hr)|[(c' & _ & Hr)
       |[(c & st1 & e & _ & _ & Hr)
        |[(c & st1 & st2 & e & _ & _ & _ & Hr)
         |(c & st1 & st2 & Hprobe & Hbody & Hcopy & Hr)]]]])];
    rewrite Hr in Hrun.
  - discriminate.
  - discriminate.
  - destruct (upload_encumbered self); injection Hrun as _ <-;
      destruct Hnot; apply Hmarked.
  - destruct (isinstance_Exception e); [|discriminate].
    destruct (getattr_message (python h) e); [|discriminate].
    destruct (skip_failed self); [|discriminate].
    injection Hrun as _ <-. destruct Hnot. apply Hmarked.
  - discriminate.
  - exists opts, c, st1. split; [exact Hset|].
    split; [exact Hprobe|]. split; [exact Hbody|].
    rewrite Hef in Hcopy.
    destruct (inject_and_transform_effect h self infile metadata _ _ _ _ _
                Hbody) as (_ & l & Hl & _ & Hin).
    destruct (Hin eq_refl) as (c0 & [= <-] & Hmod).
    destruct (copy_to_file_copy_dir_effect h self infile metadata _ _ _
                Hcopy) as (_ & l2 & Hl2 & _).
    assert (Hst2 : ModifyEpub c infile (transform_opts self) ∈ calls st2).
    { rewrite Hl2, Hl. apply elem_of_app. left. apply elem_of_app. now right. }
    destruct (super_modify_epub h infile metadata (Some c)) as [[|]|e];
      [destruct (commit h c infile) as [[]|e]|..];
      try discriminate; injection Hrun as _ <-; cbn;
      repeat (apply elem_of_app; left); exact Hst2.
Qed.

(** X24. A book that has been transformed, with [extra_features] on, gets
    the kepub name, if it was not in [skip_renaming_files] before:
    whatever the inherited method and the commit then do, every path
    ending in [".epub"] has the marker spliced in. The body of the [try]
    is run on what [settings()] has returned; where [settings()] raises
    instead, the set is left as it was and the same holds. *)
Theorem transformed_book_gets_kepub_name (container : option Container)
    (c : Container) (st st1 st2 : DriverState) (stem : string) :
  endswith infile EPUB_EXT = true ->
  uuid metadata ∉ skip_renaming_files st ->
  extra_features self = true ->
  drm_probe h infile container = Return (Some c, false) ->
  (forall opts,
      self_settings h = Return opts ->
      inject_and_transform h self opts infile metadata (Some c) st
      = (Return (), st1)) ->
  copy_to_file_copy_dir h self infile metadata st1 = (Return (), st2) ->
  filename_callback (extra_features self)
    (skip_renaming_files (_modify_epub h self infile metadata container st).2)
    (stem +:+ EPUB_EXT) metadata
  = stem +:+ KEPUB_EXT +:+ EPUB_EXT.
Proof.
  intros Hext Hnot Hef Hprobe Hbody Hcopy.
  destruct (self_settings h) as [opts|e0] eqn:Hset.
  2:{ rewrite (settings_error_path h self infile metadata container st e0
                 Hext Hset).
      rewrite Hef, filename_callback_epub_path.
      now rewrite bool_decide_eq_true_2. }
  specialize (Hbody opts eq_refl).
  assert (Hcopy' : copy_to_file_copy_dir h self infile metadata
                     (if extra_features self then st1
                      else marked metadata st1) = (Return (), st2))
    by now rewrite Hef.
  rewrite (transform_path h self infile metadata container opts c st st1 st2
             Hext Hset Hprobe Hbody Hcopy').
  destruct (inject_and_transform_effect h self infile metadata _ _ _ _ _
              Hbody) as (Hs1 & _).
  destruct (copy_to_file_copy_dir_effect h self infile metadata _ _ _ Hcopy)
    as (Hs2 & _).
  rewrite Hef, filename_callback_epub_path.
  assert (Hskip : forall o,
             skip_renaming_files
               (match super_modify_epub h infile metadata (Some c) with
                | Return true =>
                    (commit h c infile ≫= (fun _ => Return true),
                     called (Commit c infile)
                       (called (SuperModifyEpub infile (Some c)) st2))
                | Return false =>
                    (Return false,
                     called (SuperModifyEpub infile (Some c)) st2)
                | Raise e =>
                    (Raise e, called (SuperModifyEpub infile (Some c)) st2)
                end).2 = o -> o = skip_renaming_files st).
  { intros o <-.
    destruct (super_modify_epub h infile metadata (Some c)) as [[|]|e]; cbn;
      congruence. }
  rewrite (Hskip _ eq_refl). now rewrite bool_decide_eq_true_2.
Qed.

(** X25. The container is committed only at the end of a transformation that
    went through: a commit among the calls of a run is a commit of the
    book's own container to the source path, made after the body of the
    [try] has returned and the inherited method has returned [True]. *)
Theorem commit_only_after_transform (container : option Container)
    (st st' : DriverState) (o : outcome bool) (new : list Call)
    (c : Container) (outpath : string) :
  _modify_epub h self infile metadata container st = (o, st') ->
  calls st' = calls st ++ new ->
  Commit c outpath ∈ new ->
  outpath = infile
  /\ endswith infile EPUB_EXT = true
  /\ drm_probe h infile container = Return (Some c, false)
  /\ super_modify_epub h infile metadata (Some c) = Return true
  /\ exists opts st1,
       self_settings h = Return opts
       /\ inject_and_transform h self opts infile metadata (Some c) st
          = (Return (), st1).
Proof.
  intros Hrun Hnew Hin.
  assert (Hno : forall l : list Call,
             Forall (fun x => is_commit x = false /\ is_super x = false) l ->
             Commit c outpath ∉ l).
  { intros l Hall Hl. rewrite Forall_forall in Hall.
    destruct (Hall _ Hl) as [Hc _]. discriminate Hc. }
  destruct (endswith infile EPUB_EXT) eqn:Hext.
  2:{ rewrite (foreign_path h self infile metadata container st Hext) in Hrun.
      injection Hrun as _ <-. exfalso.
      destruct (endswith infile KEPUB_EXT); cbn in Hnew;
        apply app_inv_head in Hnew; subst new;
        apply elem_of_cons in Hin as [Hin|Hin];
        try discriminate Hin; now apply elem_of_nil in Hin. }
  destruct (modify_epub_cases h self infile metadata container st Hext)
    as [(e & _ & Hr)|(opts & Hset & [(e & _ & Hr)|[(c' & _ & Hr)
       |[(c0 & st1 & e & _ & Hbody & Hr)
        |[(c0 & st1 & st2 & e & _ & Hbody & Hcopy & Hr)
         |(c0 & st1 & st2 & Hprobe & Hbody & Hcopy & Hr)]]]])];
    rewrite Hr in Hrun.
  - injection Hrun as _ <-. exfalso.
    rewrite <- (app_nil_r (calls st)) in Hnew at 1.
    apply app_inv_head in Hnew. subst new. now apply elem_of_nil in Hin.
  - injection Hrun as _ <-. exfalso.
    rewrite <- (app_nil_r (calls st)) in Hnew at 1.
    apply app_inv_head in Hnew. subst new. now apply elem_of_nil in Hin.
  - exfalso. destruct (upload_encumbered self); injection Hrun as _ <-;
      cbn in Hnew.
    + apply app_inv_head in Hnew. subst new.
      apply elem_of_cons in Hin as [Hin|Hin];
        [discriminate Hin | now apply elem_of_nil in Hin].
    + rewrite <- (app_nil_r (calls st)) in Hnew at 1.
      apply app_inv_head in Hnew. subst new. now apply elem_of_nil in Hin.
  - exfalso.
    destruct (inject_and_transform_effect h self infile metadata _ _ _ _ _
                Hbody) as (_ & l & Hl & Hall & _).
    destruct (isinstance_Exception e);
      [destruct (getattr_message (python h) e);
       [destruct (skip_failed self)|]|];
      injection Hrun as _ <-; cbn in Hnew;
      rewrite Hl in Hnew; rewrite <- ?app_assoc in Hnew;
      apply app_inv_head in Hnew; subst new.
    + apply elem_of_app in Hin as [Hin|Hin]; [now apply (Hno l)|].
      apply elem_of_cons in Hin as [Hin|Hin];
        [discriminate Hin | now apply elem_of_nil in Hin].
    + now apply (Hno l).
    + now apply (Hno l).
    + now apply (Hno l).
  - exfalso.
    destruct (inject_and_transform_effect h self infile metadata _ _ _ _ _
                Hbody) as (_ & l & Hl & Hall & _).
    destruct (copy_to_file_copy_dir_effect h self infile metadata _ _ _
                Hcopy) as (_ & l2 & Hl2 & Hall2).
    injection Hrun as _ <-. rewrite Hl2 in Hnew.
    assert (Hst1 : calls (if extra_features self then st1
                          else marked metadata st1) = calls st ++ l)
      by (destruct (extra_features self); exact Hl).
    rewrite Hst1, <- app_assoc in Hnew. apply app_inv_head in Hnew.
    subst new. apply elem_of_app in Hin as [Hin|Hin];
      [now apply (Hno l) | now apply (Hno l2)].
  - destruct (inject_and_transform_effect h self infile metadata _ _ _ _ _
                Hbody) as (_ & l & Hl & Hall & _).
    destruct (copy_to_file_copy_dir_effect h self infile metadata _ _ _
                Hcopy) as (_ & l2 & Hl2 & Hall2).
    assert (Hst1 : calls (if extra_features self then st1
                          else marked metadata st1) = calls st ++ l)
      by (destruct (extra_features self); exact Hl).
    assert (Hst2 : calls st2 = calls st ++ (l ++ l2))
      by now rewrite Hl2, Hst1, <- app_assoc.
    destruct (super_modify_epub h infile metadata (Some c0)) as [[|]|e]
      eqn:Hsuper; injection Hrun as _ <-; cbn in Hnew;
      rewrite Hst2 in Hnew; rewrite <- ?app_assoc in Hnew;
      apply app_inv_head in Hnew; subst new;
      (apply elem_of_app in Hin as [Hin|Hin]; [now destruct (Hno l)|]);
      (apply elem_of_app in Hin as [Hin|Hin]; [now destruct (Hno l2)|]);
      apply elem_of_cons in Hin as [Hin|Hin]; try discriminate Hin.
    + apply elem_of_cons in Hin as [[= -> ->]|Hin];
        [|now apply elem_of_nil in Hin].
      repeat split; try assumption. now exists opts, st1.
    + now apply elem_of_nil in Hin.
    + now apply elem_of_nil in Hin.
Qed.

End TransformExtras.

Section TransformPolicies.
Import PyStr Py Transform.

Variable h : Host.
Variable self : Prefs.
Variable infile : string.
Variable metadata : Metadata.

(** X26. What is raised before the [try] of line 232 goes to the caller
    as it is, the book is not marked and nothing is called, whatever
    [skip_failed] and [upload_encumbered] are: an exception of
    [settings()], whatever container is handed in, and, once [settings()]
    has returned, an exception other than [DRMError] of the opening of the
    container. *)
Theorem open_error_propagates (container : option Container)
    (st : DriverState) (e : exn) :
  endswith infile EPUB_EXT = true ->
  self_settings h = Raise e
  \/ ((exists opts, self_settings h = Return opts)
      /\ container = None
      /\ KEPubContainer h infile = Raise e
      /\ exn_cls e <> DRMError) ->
  _modify_epub h self infile metadata container st = (Raise e, st).
Proof.
  intros Hext [Hset|([opts Hset] & -> & Hopen & Hcls)].
  - now apply settings_error_path.
  - apply (probe_error_path h self infile metadata None opts);
      [exact Hext | exact Hset |].
    unfold drm_probe. rewrite Hopen. cbn. now rewrite decide_False.
Qed.

(** X27. A failure of the embedding or of the transformer. What is raised
    without being an [Exception] ([KeyboardInterrupt], [SystemExit],
    [GeneratorExit]) goes to the caller, whatever [skip_failed] is. An
    [Exception] whose [message] can be read (every one on Python 2, one
    that sets its own [message] on Python 3) is handled as [skip_failed]
    says: off, the exception goes to the caller and the book is not
    marked; on, the book is marked, the inherited method is called and its
    answer is the method's. *)
Theorem failure_with_message_follows_policy
    (container container' : option Container) (opts : Migration.Settings)
    (st st1 : DriverState) (e : exn) :
  endswith infile EPUB_EXT = true ->
  self_settings h = Return opts ->
  drm_probe h infile container = Return (container', false) ->
  inject_and_transform h self opts infile metadata container' st
  = (Raise e, st1) ->
  let (result, st') := _modify_epub h self infile metadata container st in
  (isinstance_Exception e = false -> result = Raise e /\ st' = st1)
  /\ (isinstance_Exception e = true ->
      python h = Py2 \/ is_Some (exn_own_message e) ->
      (skip_failed self = false -> result = Raise e /\ st' = st1)
      /\ (skip_failed self = true ->
          result = super_modify_epub h infile metadata container'
          /\ skip_renaming_files st'
             = {[uuid metadata]} ∪ skip_renaming_files st1
          /\ calls st' = calls st1 ++ [SuperModifyEpub infile container'])).
Proof.
  intros Hext Hset Hprobe Hbody.
  rewrite (failure_path h self infile metadata container container' opts
             st st1 e Hext Hset Hprobe Hbody).
  destruct (isinstance_Exception e).
  2:{ split; [now intros _ | discriminate]. }
  destruct (getattr_message (python h) e) as [msg|e'] eqn:Hget.
  - destruct (skip_failed self); (split; [discriminate|]); intros _ _.
    + split; [discriminate | now intros _].
    + split; [now intros _ | discriminate].
  - split; [discriminate|]. intros _ Hmsg. exfalso.
    unfold getattr_message in Hget. destruct Hmsg as [Hpy|[m Hm]].
    + rewrite Hpy in Hget. destruct (exn_own_message e); discriminate.
    + rewrite Hm in Hget. discriminate.
Qed.

(** X28. A file without the packaged extension is handed to the inherited
    method as it is: no container is opened, nothing is embedded,
    transformed or committed. It is marked in [skip_renaming_files] unless
    it is a [".kepub"]. *)
Theorem foreign_file_passed_on (container : option Container)
    (st : DriverState) :
  endswith infile EPUB_EXT = false ->
  let (result, st') := _modify_epub h self infile metadata container st in
  result = super_modify_epub h infile metadata container
  /\ calls st' = calls st ++ [SuperModifyEpub infile container]
  /\ skip_renaming_files st'
     = if endswith infile KEPUB_EXT then skip_renaming_files st
       else {[uuid metadata]} ∪ skip_renaming_files st.
Proof.
  intros Hext. rewrite (foreign_path h self infile metadata container st Hext).
  cbn. now destruct (endswith infile KEPUB_EXT).
Qed.


(** X30. A book the probe of lines 212-223 finds encumbered: opening its
    container raises [DRMError], or the container handed in reports
    itself encumbered. Once [settings()] has returned, the book's uuid is
    in [skip_renaming_files] afterwards; with [upload_encumbered] off the
    method returns [False] and makes no call, neither on the transformer
    nor on the inherited method; with [upload_encumbered] on it makes the
    inherited call and nothing else, and returns what that returns. *)
Theorem found_encumbered_is_marked (container : option Container)
    (opts : Migration.Settings) (st : DriverState) :
  endswith infile EPUB_EXT = true ->
  self_settings h = Return opts ->
  match container with
  | None => exists e, KEPubContainer h infile = Raise e
                      /\ exn_cls e = DRMError
  | Some c => is_drm_encumbered c = true
  end ->
  let (result, st') := _modify_epub h self infile metadata container st in
  skip_renaming_files st' = {[uuid metadata]} ∪ skip_renaming_files st
  /\ (upload_encumbered self = false ->
      result = Return false /\ calls st' = calls st)
  /\ (upload_encumbered self = true ->
      result = super_modify_epub h infile metadata container
      /\ calls st' = calls st ++ [SuperModifyEpub infile container]).
Proof.
  intros Hext Hset Henc.
  assert (Hprobe : drm_probe h infile container = Return (container, true))
    by (apply drm_probe_encumbered; now split).
  rewrite (encumbered_path h self infile metadata container
             container opts st Hext Hset Hprobe).
  destruct (upload_encumbered self).
  - split; [reflexivity|]. split; [discriminate | now intros _].
  - split; [reflexivity|]. split; [now intros _ | discriminate].
Qed.

(** The options handed to the transformer never ask to hyphenate and to
    remove the hyphens at once. And when [modifying_epub] answers [False],
    hyphenation is the only thing the transformer can still be asked
    for: [hyphenate] is not among the preferences [modifying_epub] looks
    at. *)
Theorem transform_opts_consistent (modifying_css : bool) :
  opt_hyphenate (transform_opts self) && opt_no_hyphens (transform_opts self)
  = false
  /\ (Upload.modifying_epub modifying_css self = false ->
      transform_opts self
      = {| opt_clean_markup := false; opt_hyphenate := hyphenate self;
           opt_no_hyphens := false; opt_smarten_punctuation := false;
           opt_extended_kepub_features := false |}).
Proof.
  unfold transform_opts, Upload.modifying_epub. cbn. split.
  - now destruct (hyphenate self), (disable_hyphenation self).
  - destruct modifying_css, (clean_markup self), (extra_features self),
      (skip_failed self), (smarten_punctuation self),
      (disable_hyphenation self); try discriminate.
    intros _. now rewrite andb_true_r.
Qed.

End TransformPolicies.

(** ** [_modify_epub] on the sample books, further *)

Section TransformWitnesses.
Import PyStr Py Transform.

Lemma good_run :
  _modify_epub good_host default_prefs "book.epub" (book "id-1") None st0
  = (Return true, (run good_host default_prefs).2).
Proof. vm_compute. reflexivity. Defined.

Lemma good_settings : self_settings good_host = Return (legacy []).
Proof. reflexivity. Defined.

Lemma good_body :
  inject_and_transform good_host default_prefs (legacy []) "book.epub"
    (book "id-1") (Some plain_container) st0
  = (Return (),
     (inject_and_transform good_host default_prefs (legacy []) "book.epub"
        (book "id-1") (Some plain_container) st0).2).
Proof. vm_compute. reflexivity. Defined.

Lemma good_copy :
  copy_to_file_copy_dir good_host default_prefs "book.epub" (book "id-1")
    (inject_and_transform good_host default_prefs (legacy []) "book.epub"
       (book "id-1") (Some plain_container) st0).2
  = (Return (),
     (inject_and_transform good_host default_prefs (legacy []) "book.epub"
        (book "id-1") (Some plain_container) st0).2).
Proof. vm_compute. reflexivity. Defined.

(** The list that [settings()] has repaired is the one the embedded
    record shows. *)
Example repaired_list_is_embedded :
  (fun o : gmap string string => o !! "kobotouchextended_options")
  <$> (match self_settings
               (with_settings
                  [Migration.PyBool false; Migration.PyStr ""]
                  [Migration.PyInt 3; Migration.PyStr "x"; Migration.PyNone]
                  good_host)
       with
       | Return opts =>
           match driver_info good_host opts with
           | Return o => Some o
           | Raise _ => None
           end
       | Raise _ => None
       end)
  = Some (Some "[False, 'x', None]").
Proof. vm_compute. reflexivity. Qed.

(** A stored list shorter than the defaults stops the method before
    anything else is done. *)
Example stale_settings_stop_the_method :
  _modify_epub stale_host (prefs true true) "book.epub" (book "id-1") None
    st0
  = (Raise (mk_exn IndexError ["list index out of range"] None), st0).
Proof. vm_compute. reflexivity. Qed.

End TransformWitnesses.

Lemma kepub_name_only_after_transform_witness :
  Naming.filename_callback (Transform.extra_features default_prefs)
    (Transform.skip_renaming_files (run good_host default_prefs).2)
    "book.epub" (book "id-1") <> "book.epub"
  /\ exists opts c st1,
       Transform.self_settings good_host = Py.Return opts
       /\ Transform.drm_probe good_host "book.epub" None
          = Py.Return (Some c, false)
       /\ Transform.inject_and_transform good_host default_prefs opts
            "book.epub" (book "id-1") (Some c) st0 = (Py.Return (), st1)
       /\ Transform.ModifyEpub c "book.epub"
            (Transform.transform_opts default_prefs)
          ∈ Transform.calls (run good_host default_prefs).2.
Proof.
  assert (H1 : PyStr.endswith "book.epub" EPUB_EXT = true) by reflexivity.
  assert (H4 : Naming.filename_callback
                 (Transform.extra_features default_prefs)
                 (Transform.skip_renaming_files
                    (run good_host default_prefs).2)
                 "book.epub" (book "id-1") <> "book.epub")
    by (vm_compute; discriminate).
  split; [exact H4|].
  exact (kepub_name_only_after_transform good_host default_prefs "book.epub"
           (book "id-1") None st0 _ true "book.epub" H1 good_run H1 H4).
Defined.

Lemma transformed_book_gets_kepub_name_witness :
  (uuid (book "id-1") ∉ Transform.skip_renaming_files st0)
  /\ (Naming.filename_callback (Transform.extra_features default_prefs)
        (Transform.skip_renaming_files
           (Transform._modify_epub good_host default_prefs "book.epub"
              (book "id-1") None st0).2)
        ("book" +:+ EPUB_EXT) (book "id-1")
      = "book" +:+ KEPUB_EXT +:+ EPUB_EXT).
Proof.
  assert (H1 : PyStr.endswith "book.epub" EPUB_EXT = true) by reflexivity.
  assert (H2 : uuid (book "id-1") ∉ Transform.skip_renaming_files st0)
    by apply not_elem_of_empty.
  assert (H3 : forall opts,
             Transform.self_settings good_host = Py.Return opts ->
             Transform.inject_and_transform good_host default_prefs opts
               "book.epub" (book "id-1") (Some plain_container) st0
             = (Py.Return (),
                (Transform.inject_and_transform good_host default_prefs
                   (legacy []) "book.epub" (book "id-1")
                   (Some plain_container) st0).2)).
  { intros opts Hset. rewrite good_settings in Hset.
    injection Hset as <-. exact good_body. }
  split; [exact H2|].
  exact (transformed_book_gets_kepub_name good_host default_prefs "book.epub"
           (book "id-1") None plain_container st0 _ _ "book" H1 H2 eq_refl
           eq_refl H3 good_copy).
Defined.

Lemma commit_only_after_transform_witness :
  Transform.Commit plain_container "book.epub"
  ∈ Transform.calls (run good_host default_prefs).2
  /\ Transform.super_modify_epub good_host "book.epub" (book "id-1")
       (Some plain_container) = Py.Return true.
Proof.
  assert (Hin : Transform.Commit plain_container "book.epub"
                ∈ Transform.calls (run good_host default_prefs).2).
  { apply list_elem_of_In. vm_compute.
    repeat first [left; reflexivity | right]. }
  split; [exact Hin|].
  exact (proj1 (proj2 (proj2 (proj2
           (commit_only_after_transform good_host default_prefs "book.epub"
              (book "id-1") None st0 _ _
              (Transform.calls (run good_host default_prefs).2)
              plain_container "book.epub" good_run eq_refl Hin))))).
Defined.

Lemma open_error_propagates_witness :
  Transform._modify_epub stale_host (prefs true true) "book.epub"
    (book "id-1") (Some plain_container) st0
  = (Py.Raise (Py.mk_exn Py.IndexError ["list index out of range"] None),
     st0)
  /\ Py.exn_cls value_error <> Py.DRMError
  /\ Transform._modify_epub
       (host Py.Py3 (Py.Raise value_error) None (Py.Return ())
          (Py.Return true))
       (prefs true true) "book.epub" (book "id-1") None st0
     = (Py.Raise value_error, st0).
Proof.
  assert (H : Py.exn_cls value_error <> Py.DRMError) by discriminate.
  split; [|split; [exact H|]].
  - exact (open_error_propagates stale_host (prefs true true) "book.epub"
             (book "id-1") (Some plain_container) st0 _ eq_refl
             (or_introl eq_refl)).
  - exact (open_error_propagates
             (host Py.Py3 (Py.Raise value_error) None (Py.Return ())
                (Py.Return true))
             (prefs true true) "book.epub" (book "id-1") None st0
             value_error eq_refl
             (or_intror
                (conj (ex_intro _ (legacy []) eq_refl)
                   (conj eq_refl (conj eq_refl H))))).
Defined.

Lemma failure_with_message_follows_policy_witness :
  (run (host Py.Py2 (Py.Return plain_container) None (Py.Raise value_error)
          (Py.Return true)) (prefs true false)).1
  = Py.Return true
  /\ (run (host Py.Py2 (Py.Return plain_container) None
             (Py.Raise keyboard_interrupt) (Py.Return true))
        (prefs true false)).1
     = Py.Raise keyboard_interrupt.
Proof.
  assert (Hbody : forall e,
    Transform.inject_and_transform
      (host Py.Py2 (Py.Return plain_container) None (Py.Raise e)
         (Py.Return true))
      (prefs true false) (legacy []) "book.epub" (book "id-1")
      (Some plain_container) st0
    = (Py.Raise e,
       (Transform.inject_and_transform
          (host Py.Py2 (Py.Return plain_container) None
             (Py.Raise e) (Py.Return true))
          (prefs true false) (legacy []) "book.epub" (book "id-1")
          (Some plain_container) st0).2))
    by (intros e; vm_compute; reflexivity).
  split.
  - generalize (failure_with_message_follows_policy
                  (host Py.Py2 (Py.Return plain_container) None
                     (Py.Raise value_error) (Py.Return true))
                  (prefs true false) "book.epub" (book "id-1") None
                  (Some plain_container) (legacy []) st0 _ value_error
                  eq_refl eq_refl eq_refl (Hbody value_error)).
    unfold run.
    destruct (Transform._modify_epub _ _ _ _ _ _) as [result st'].
    intros [_ Hexn].
    destruct (Hexn eq_refl (or_introl eq_refl)) as [_ Hon].
    destruct (Hon eq_refl) as (-> & _). reflexivity.
  - generalize (failure_with_message_follows_policy
                  (host Py.Py2 (Py.Return plain_container) None
                     (Py.Raise keyboard_interrupt) (Py.Return true))
                  (prefs true false) "book.epub" (book "id-1") None
                  (Some plain_container) (legacy []) st0 _
                  keyboard_interrupt eq_refl eq_refl eq_refl
                  (Hbody keyboard_interrupt)).
    unfold run.
    destruct (Transform._modify_epub _ _ _ _ _ _) as [result st'].
    intros [Hbase _]. destruct (Hbase eq_refl) as (-> & _). reflexivity.
Defined.

Lemma foreign_file_passed_on_witness :
  PyStr.endswith "book.pdf" EPUB_EXT = false
  /\ (Transform._modify_epub good_host default_prefs "book.pdf"
        (book "id-1") None st0).1
     = Py.Return true.
Proof.
  split; [reflexivity|].
  generalize (foreign_file_passed_on good_host default_prefs "book.pdf"
                (book "id-1") None st0 eq_refl).
  destruct (Transform._modify_epub _ _ _ _ _ _) as [result st'].
  intros (-> & _). reflexivity.
Defined.


Lemma found_encumbered_is_marked_witness :
  PyStr.endswith "book.epub" EPUB_EXT = true
  /\ (run (host Py.Py3 (Py.Raise drm_error) None (Py.Return ())
             (Py.Return true)) (prefs false false)).1 = Py.Return false
  /\ Transform.skip_renaming_files
       (run (host Py.Py3 (Py.Raise drm_error) None (Py.Return ())
               (Py.Return true)) (prefs false false)).2
     = {[uuid (book "id-1")]} ∪ Transform.skip_renaming_files st0.
Proof.
  assert (H1 : PyStr.endswith "book.epub" EPUB_EXT = true) by reflexivity.
  split; [exact H1|].
  generalize (found_encumbered_is_marked
                (host Py.Py3 (Py.Raise drm_error) None (Py.Return ())
                   (Py.Return true))
                (prefs false false) "book.epub" (book "id-1") None
                (legacy []) st0 H1 eq_refl
                (ex_intro _ drm_error (conj eq_refl eq_refl))).
  unfold run.
  destruct (Transform._modify_epub _ _ _ _ _ _) as [result st'].
  intros (Hin & Hoff & _). split; [apply Hoff; reflexivity | exact Hin].
Defined.
